(** * The Arduino platform bridge of Bluepad32

    A shallow embedding of
    [components/bluepad32_arduino/arduino_platform.c]: the controller
    slot table [controllers_], the counter [used_controllers_], the
    per-slot snapshot with its [data_updated] flag, and the queue of
    pending requests that carries commands from the application CPU to
    the Bluetooth CPU.

    The two CPUs are modelled by interleaving whole calls: every C
    function below is one atomic state transformer on [bridge], which is
    what [controller_mutex_] and the FreeRTOS queue give for the parts
    of the state they guard.  Logging ([loge], [logi], [logd]) is not
    part of the state. *)

From Stdlib Require Import ZArith List Bool Lia.
From stdpp Require Import base option list.
Import ListNotations.

Local Open Scope Z_scope.

(** ** Machine integers *)

(** Conversion of an [int] to [int8_t] and to [uint8_t]. *)
Definition to_int8 (z : Z) : Z := (z + 128) mod 256 - 128.
Definition to_uint8 (z : Z) : Z := z mod 256.

(** [#define MAX_PENDING_REQUESTS 16] *)
Definition MAX_PENDING_REQUESTS : nat := 16.

(** [UNI_ARDUINO_GAMEPAD_INVALID] is declared in [arduino_platform.h];
    the source documents its value twice: "-1 means gamepad was not
    assigned yet" and "want: -1". *)
Definition UNI_ARDUINO_GAMEPAD_INVALID : Z := -1.

(** ** Result codes *)

(** The [uni_error_t] values returned by [arduino_on_device_ready]
    (declared in [uni_error.h], distinct). *)
Inductive uni_error_t :=
| UNI_ERROR_SUCCESS
| UNI_ERROR_NO_SLOTS
| UNI_ERROR_INVALID_CONTROLLER.

(** The [int] codes returned by the application-side functions; their
    values are in [arduino_platform.h], and only their being distinct
    matters here. *)
Inductive arduino_error_t :=
| UNI_ARDUINO_ERROR_SUCCESS
| UNI_ARDUINO_ERROR_INVALID_DEVICE
| UNI_ARDUINO_ERROR_NO_DATA.

(** ** Pending requests *)

Inductive pending_request_cmd_t :=
| PENDING_REQUEST_CMD_NONE
| PENDING_REQUEST_CMD_LIGHTBAR_COLOR
| PENDING_REQUEST_CMD_PLAYER_LEDS
| PENDING_REQUEST_CMD_RUMBLE
| PENDING_REQUEST_CMD_DISCONNECT.

(** [pending_request_t].  Every member of the union [args] has a field
    of its own: the designated initialisers of the four enqueuing
    functions zero what they do not name, and the drain reads a member
    only under the [cmd] it was written with. *)
Record pending_request_t := {
  request_controller_idx : Z;      (* uint8_t *)
  cmd : pending_request_cmd_t;
  player_led : Z;                  (* uint8_t *)
  leds : Z * Z * Z;                (* uint8_t leds[3] *)
  rumble_delayed_start : Z;        (* uint16_t *)
  rumble_duration : Z;             (* uint16_t *)
  rumble_weak_magnitude : Z;       (* uint8_t *)
  rumble_strong_magnitude : Z      (* uint8_t *)
}.

(** ** Protocol-side devices *)

(** [arduino_instance_t], stored in the device's [platform_data]. *)
Record arduino_instance_t := { controller_idx : Z (* int8_t *) }.

(** The three function pointers of [d->report_parser] that the bridge
    tests against [NULL]: [true] stands for a non-null pointer. *)
Record uni_report_parser_t := {
  set_player_leds : bool;
  play_dual_rumble : bool;
  set_lightbar_color : bool
}.

(** The fields of [uni_hid_device_t] the bridge reads or writes.
    Modelled from the spec: [uni_hid_device.h] is outside this component;
    the identity of a device is its "address, controller type/subtype,
    vendor id, product id", so the device has a [controller_subtype] next
    to the [controller_type] that the source reads. *)
Record uni_hid_device_t := {
  conn_btaddr : list Z;
  controller_type : Z;
  controller_subtype : Z;
  vendor_id : Z;
  product_id : Z;
  report_parser : uni_report_parser_t;
  platform_data : arduino_instance_t
}.

Definition get_arduino_instance (d : uni_hid_device_t) : arduino_instance_t :=
  platform_data d.

Definition set_arduino_instance (d : uni_hid_device_t) (ins : arduino_instance_t)
  : uni_hid_device_t :=
  {| conn_btaddr := conn_btaddr d;
     controller_type := controller_type d;
     controller_subtype := controller_subtype d;
     vendor_id := vendor_id d;
     product_id := product_id d;
     report_parser := report_parser d;
     platform_data := ins |}.

(** Calls that leave the bridge: the capability functions of a device
    (named by its position in the device table) and the deferred
    disconnect of the Bluetooth stack. *)
Inductive call :=
| call_set_lightbar_color (d : nat) (r g b : Z)
| call_set_player_leds (d : nat) (leds : Z)
| call_play_dual_rumble (d : nat) (delayed_start duration weak strong : Z)
| call_uni_bt_disconnect_device_safe (idx : Z).

(** ** Controller slots *)

(** [arduino_controller_properties_t] *)
Record arduino_controller_properties_t := {
  p_btaddr : list Z;
  p_type : Z;
  p_subtype : Z;
  p_vendor_id : Z;
  p_product_id : Z;
  p_flags : Z
}.

Definition zero_properties : arduino_controller_properties_t :=
  {| p_btaddr := [0; 0; 0; 0; 0; 0]; p_type := 0; p_subtype := 0;
     p_vendor_id := 0; p_product_id := 0; p_flags := 0 |}.

(** Configuration and declarations that live in headers outside this
    component: the Kconfig value [CONFIG_BLUEPAD32_MAX_DEVICES], the three
    flag constants of [arduino_platform.h], and [uni_controller_t], which
    is opaque to the bridge: the bridge copies it whole, projects its
    [gamepad] member, and zeroes it with [memset]. *)
Class platform_headers := {
  CONFIG_BLUEPAD32_MAX_DEVICES : Z;
  ARDUINO_PROPERTY_FLAG_PLAYER_LEDS : Z;
  ARDUINO_PROPERTY_FLAG_RUMBLE : Z;
  ARDUINO_PROPERTY_FLAG_PLAYER_LIGHTBAR : Z;
  uni_controller_t : Type;
  uni_gamepad_t : Type;
  gamepad : uni_controller_t -> uni_gamepad_t;
  zero_controller : uni_controller_t
}.

Section Bridge.

Context {headers : platform_headers}.

(** [arduino_controller_t] *)
Record arduino_controller_t := {
  idx : Z;
  properties : arduino_controller_properties_t;
  data : uni_controller_t;
  data_updated : bool
}.

(** The image of [memset(&c, 0, sizeof(c))]. *)
Definition zero_slot : arduino_controller_t :=
  {| idx := 0; properties := zero_properties;
     data := zero_controller; data_updated := false |}.

Definition set_idx (c : arduino_controller_t) (i : Z) : arduino_controller_t :=
  {| idx := i; properties := properties c;
     data := data c; data_updated := data_updated c |}.

Definition set_properties (c : arduino_controller_t)
  (p : arduino_controller_properties_t) : arduino_controller_t :=
  {| idx := idx c; properties := p;
     data := data c; data_updated := data_updated c |}.

Definition set_data (c : arduino_controller_t) (x : uni_controller_t)
  : arduino_controller_t :=
  {| idx := idx c; properties := properties c;
     data := x; data_updated := data_updated c |}.

Definition set_data_updated (c : arduino_controller_t) (b : bool)
  : arduino_controller_t :=
  {| idx := idx c; properties := properties c;
     data := data c; data_updated := b |}.

(** ** The state of the bridge *)

(** The file's globals, the device table of the HID layer, and the
    trace of calls made into the collaborators. *)
Record bridge := {
  pending_queue_ : list pending_request_t;
  controllers_ : list arduino_controller_t;
  used_controllers_ : Z;
  g_devices : list uni_hid_device_t;
  calls : list call
}.

Definition set_pending_queue (st : bridge) (q : list pending_request_t) : bridge :=
  {| pending_queue_ := q; controllers_ := controllers_ st;
     used_controllers_ := used_controllers_ st;
     g_devices := g_devices st; calls := calls st |}.

Definition set_controllers (st : bridge) (cs : list arduino_controller_t) : bridge :=
  {| pending_queue_ := pending_queue_ st; controllers_ := cs;
     used_controllers_ := used_controllers_ st;
     g_devices := g_devices st; calls := calls st |}.

Definition set_used_controllers (st : bridge) (n : Z) : bridge :=
  {| pending_queue_ := pending_queue_ st; controllers_ := controllers_ st;
     used_controllers_ := n;
     g_devices := g_devices st; calls := calls st |}.

Definition set_devices (st : bridge) (ds : list uni_hid_device_t) : bridge :=
  {| pending_queue_ := pending_queue_ st; controllers_ := controllers_ st;
     used_controllers_ := used_controllers_ st;
     g_devices := ds; calls := calls st |}.

Definition add_call (st : bridge) (c : call) : bridge :=
  {| pending_queue_ := pending_queue_ st; controllers_ := controllers_ st;
     used_controllers_ := used_controllers_ st;
     g_devices := g_devices st; calls := calls st ++ [c] |}.

(** [controllers_[i]] as an rvalue, and the store [controllers_[i] = c].
    Every access in the source is guarded by a range check on [i]. *)
Definition controller_at (st : bridge) (i : Z) : arduino_controller_t :=
  default zero_slot (controllers_ st !! Z.to_nat i).

Definition store_controller (st : bridge) (i : Z) (c : arduino_controller_t)
  : bridge :=
  set_controllers st (<[Z.to_nat i := c]> (controllers_ st)).

(** Store through [get_arduino_instance(d)], [d] the device at position
    [d] of the table. *)
Definition store_instance (st : bridge) (d : nat) (ins : arduino_instance_t)
  : bridge :=
  set_devices st (alter (fun dev => set_arduino_instance dev ins) d (g_devices st)).

(** ** FreeRTOS queue, zero ticks to wait *)

(** [xQueueSendToBack(q, &item, 0)]: the item is appended when there is
    room, and the call fails at once when the queue is full. *)
Definition xQueueSendToBack (q : list pending_request_t) (item : pending_request_t)
  : bool * list pending_request_t :=
  if (length q <? MAX_PENDING_REQUESTS)%nat then (true, q ++ [item]) else (false, q).

(** ** CPU 0: the Bluepad32 process *)

(** [arduino_init]: [memset] of the whole table, then the loop that
    marks every slot unassigned. *)
Fixpoint arduino_init_loop (n : nat) (i : Z) (st : bridge) : bridge :=
  match n with
  | O => st
  | S n' =>
      arduino_init_loop n' (i + 1)
        (store_controller st i (set_idx (controller_at st i) UNI_ARDUINO_GAMEPAD_INVALID))
  end.

Definition arduino_init (st : bridge) : bridge :=
  let n := Z.to_nat CONFIG_BLUEPAD32_MAX_DEVICES in
  arduino_init_loop n 0 (set_controllers st (replicate n zero_slot)).

Definition predicate_arduino_index (d : uni_hid_device_t) (data : Z) : bool :=
  let wanted_idx := data in
  let ins := get_arduino_instance d in
  if negb (controller_idx ins =? wanted_idx) then false else true.

(** Modelled from the spec: [uni_hid_device_get_instance_with_predicate]
    is defined in the HID layer ([uni_hid_device.c]), outside this
    component.  It is "a linear predicate search over live protocol-side
    devices": the first device of the table that satisfies the predicate,
    or [NULL].  A found device is returned as its position in the table
    together with its content. *)
Definition uni_hid_device_get_instance_with_predicate
  (predicate : uni_hid_device_t -> Z -> bool) (data : Z) (st : bridge)
  : option (nat * uni_hid_device_t) :=
  list_find (fun dev => predicate dev data = true) (g_devices st).

(** Modelled from the spec: [uni_hid_device_get_idx_for_instance] gives
    the position of a device in the table of the HID layer. *)
Definition uni_hid_device_get_idx_for_instance (d : nat) : Z := Z.of_nat d.

(** The [switch] of [process_pending_requests], for the device [d] that
    the request resolved to. *)
Definition dispatch_request (st : bridge) (d : nat) (dev : uni_hid_device_t)
  (request : pending_request_t) : bridge :=
  match cmd request with
  | PENDING_REQUEST_CMD_LIGHTBAR_COLOR =>
      if set_lightbar_color (report_parser dev)
      then let '(r, g, b) := leds request in
           add_call st (call_set_lightbar_color d r g b)
      else st
  | PENDING_REQUEST_CMD_PLAYER_LEDS =>
      if set_player_leds (report_parser dev)
      then add_call st (call_set_player_leds d (player_led request))
      else st
  | PENDING_REQUEST_CMD_RUMBLE =>
      if play_dual_rumble (report_parser dev)
      then add_call st
             (call_play_dual_rumble d (rumble_delayed_start request)
                (rumble_duration request) (rumble_weak_magnitude request)
                (rumble_strong_magnitude request))
      else st
  | PENDING_REQUEST_CMD_DISCONNECT =>
      let idx := uni_hid_device_get_idx_for_instance d in
      add_call st (call_uni_bt_disconnect_device_safe idx)
  | PENDING_REQUEST_CMD_NONE => st
  end.

(** The [while] loop of [process_pending_requests] over the content [q]
    of the queue: [xQueueReceive] with zero ticks takes the head, and
    fails, which ends the loop, when the queue is empty.  A request whose
    device is not found ends the function. *)
Fixpoint process_pending_requests_loop (q : list pending_request_t) (st : bridge)
  : bridge :=
  match q with
  | [] => set_pending_queue st []
  | request :: q' =>
      let st := set_pending_queue st q' in
      let idx := request_controller_idx request in
      match uni_hid_device_get_instance_with_predicate predicate_arduino_index idx st with
      | None => st
      | Some (d, dev) =>
          process_pending_requests_loop q' (dispatch_request st d dev request)
      end
  end.

Definition process_pending_requests (st : bridge) : bridge :=
  process_pending_requests_loop (pending_queue_ st) st.

(** The platform callbacks take a device pointer [d]; here [d] is the
    position of the device in [g_devices], and a callback on a position
    outside the table has no result. *)

Definition arduino_on_device_connected (st : bridge) (d : nat) : option bridge :=
  dev ← g_devices st !! d;
  Some (store_instance st d {| controller_idx := UNI_ARDUINO_GAMEPAD_INVALID |}).

Definition arduino_on_device_disconnected (st : bridge) (d : nat) : option bridge :=
  dev ← g_devices st !! d;
  let ins := get_arduino_instance dev in
  if negb (controller_idx ins =? UNI_ARDUINO_GAMEPAD_INVALID) then
    if (controller_idx ins <? 0) || (controller_idx ins >=? CONFIG_BLUEPAD32_MAX_DEVICES)
    then Some st
    else
      let st := set_used_controllers st (used_controllers_ st - 1) in
      let st := store_controller st (controller_idx ins) zero_slot in
      let st := store_controller st (controller_idx ins)
                  (set_idx (controller_at st (controller_idx ins))
                     UNI_ARDUINO_GAMEPAD_INVALID) in
      Some (store_instance st d {| controller_idx := UNI_ARDUINO_GAMEPAD_INVALID |})
  else Some st.

(** What the body of the loop of [arduino_on_device_ready] stores in
    [controllers_[i].properties]. *)
Definition ready_properties (dev : uni_hid_device_t) : arduino_controller_properties_t :=
  {| p_btaddr := conn_btaddr dev;
     p_type := controller_type dev;
     p_subtype := controller_type dev;
     p_vendor_id := vendor_id dev;
     p_product_id := product_id dev;
     p_flags :=
       Z.lor
         (Z.lor
            (if set_player_leds (report_parser dev)
             then ARDUINO_PROPERTY_FLAG_PLAYER_LEDS else 0)
            (if play_dual_rumble (report_parser dev)
             then ARDUINO_PROPERTY_FLAG_RUMBLE else 0))
         (if set_lightbar_color (report_parser dev)
          then ARDUINO_PROPERTY_FLAG_PLAYER_LIGHTBAR else 0) |}.

(** The body of the [if] in the loop of [arduino_on_device_ready]: slot
    [i] takes the device [d]. *)
Definition ready_assign (st : bridge) (i : Z) (d : nat) (dev : uni_hid_device_t)
  : bridge :=
  let st := store_controller st i (set_idx (controller_at st i) i) in
  let st := store_controller st i
              (set_properties (controller_at st i) (ready_properties dev)) in
  let st := store_instance st d {| controller_idx := to_int8 i |} in
  set_used_controllers st (used_controllers_ st + 1).

(** "Find first available controller": [n] iterations are left, [i] is
    the loop variable; the assignment ends the loop ([break]). *)
Fixpoint arduino_on_device_ready_loop (n : nat) (i : Z) (d : nat)
  (dev : uni_hid_device_t) (st : bridge) : bridge :=
  match n with
  | O => st
  | S n' =>
      if idx (controller_at st i) =? UNI_ARDUINO_GAMEPAD_INVALID
      then ready_assign st i d dev
      else arduino_on_device_ready_loop n' (i + 1) d dev st
  end.

(** The call of [set_player_leds] is recorded with the value of the
    [int] expression [ins->controller_idx + 1] that the source passes. *)
Definition arduino_on_device_ready (st : bridge) (d : nat)
  : option (uni_error_t * bridge) :=
  dev ← g_devices st !! d;
  if used_controllers_ st =? CONFIG_BLUEPAD32_MAX_DEVICES then
    Some (UNI_ERROR_NO_SLOTS, st)
  else
    let ins := get_arduino_instance dev in
    if negb (controller_idx ins =? UNI_ARDUINO_GAMEPAD_INVALID) then
      Some (UNI_ERROR_INVALID_CONTROLLER, st)
    else
      let st := arduino_on_device_ready_loop
                  (Z.to_nat CONFIG_BLUEPAD32_MAX_DEVICES) 0 d dev st in
      dev' ← g_devices st !! d;
      let ins := get_arduino_instance dev' in
      let st := if set_player_leds (report_parser dev')
                then add_call st (call_set_player_leds d (controller_idx ins + 1))
                else st in
      Some (UNI_ERROR_SUCCESS, st).

Definition arduino_on_controller_data (st : bridge) (d : nat) (ctl : uni_controller_t)
  : option bridge :=
  let st := process_pending_requests st in
  dev ← g_devices st !! d;
  let ins := get_arduino_instance dev in
  if (controller_idx ins <? 0) || (controller_idx ins >=? CONFIG_BLUEPAD32_MAX_DEVICES)
  then Some st
  else
    let st := store_controller st (controller_idx ins)
                (set_data (controller_at st (controller_idx ins)) ctl) in
    let st := store_controller st (controller_idx ins)
                (set_data_updated (controller_at st (controller_idx ins)) true) in
    Some st.

(** ** CPU 1: the application (Arduino) process *)

(** The two tests every application-side function starts with, taken
    together. *)
Definition invalid_device (st : bridge) (idx_ : Z) : bool :=
  ((idx_ <? 0) || (idx_ >=? CONFIG_BLUEPAD32_MAX_DEVICES))
  || (idx (controller_at st idx_) =? UNI_ARDUINO_GAMEPAD_INVALID).

(** The out-parameter is returned as [Some v] when the function writes
    [v] through it and as [None] when it leaves it alone. *)
Definition arduino_get_gamepad_data (st : bridge) (idx_ : Z)
  : arduino_error_t * option uni_gamepad_t * bridge :=
  if (idx_ <? 0) || (idx_ >=? CONFIG_BLUEPAD32_MAX_DEVICES)
  then (UNI_ARDUINO_ERROR_INVALID_DEVICE, None, st)
  else if idx (controller_at st idx_) =? UNI_ARDUINO_GAMEPAD_INVALID
  then (UNI_ARDUINO_ERROR_INVALID_DEVICE, None, st)
  else
    if data_updated (controller_at st idx_) then
      let out_data := gamepad (data (controller_at st idx_)) in
      let st := store_controller st idx_
                  (set_data_updated (controller_at st idx_) false) in
      (UNI_ARDUINO_ERROR_SUCCESS, Some out_data, st)
    else (UNI_ARDUINO_ERROR_NO_DATA, None, st).

Definition arduino_get_controller_data (st : bridge) (idx_ : Z)
  : arduino_error_t * option uni_controller_t * bridge :=
  if (idx_ <? 0) || (idx_ >=? CONFIG_BLUEPAD32_MAX_DEVICES)
  then (UNI_ARDUINO_ERROR_INVALID_DEVICE, None, st)
  else if idx (controller_at st idx_) =? UNI_ARDUINO_GAMEPAD_INVALID
  then (UNI_ARDUINO_ERROR_INVALID_DEVICE, None, st)
  else
    if data_updated (controller_at st idx_) then
      let out_data := data (controller_at st idx_) in
      let st := store_controller st idx_
                  (set_data_updated (controller_at st idx_) false) in
      (UNI_ARDUINO_ERROR_SUCCESS, Some out_data, st)
    else (UNI_ARDUINO_ERROR_NO_DATA, None, st).

Definition arduino_get_controller_properties (st : bridge) (idx_ : Z)
  : arduino_error_t * option arduino_controller_properties_t * bridge :=
  if (idx_ <? 0) || (idx_ >=? CONFIG_BLUEPAD32_MAX_DEVICES)
  then (UNI_ARDUINO_ERROR_INVALID_DEVICE, None, st)
  else if idx (controller_at st idx_) =? UNI_ARDUINO_GAMEPAD_INVALID
  then (UNI_ARDUINO_ERROR_INVALID_DEVICE, None, st)
  else (UNI_ARDUINO_ERROR_SUCCESS, Some (properties (controller_at st idx_)), st).

Definition arduino_get_gamepad_properties (st : bridge) (idx_ : Z)
  : arduino_error_t * option arduino_controller_properties_t * bridge :=
  arduino_get_controller_properties st idx_.

(** A request with every argument zero, as a compound literal leaves
    what it does not name. *)
Definition zero_request (i : Z) (c : pending_request_cmd_t) : pending_request_t :=
  {| request_controller_idx := i; cmd := c; player_led := 0; leds := (0, 0, 0);
     rumble_delayed_start := 0; rumble_duration := 0;
     rumble_weak_magnitude := 0; rumble_strong_magnitude := 0 |}.

Definition player_leds_request (idx_ leds_ : Z) : pending_request_t :=
  {| request_controller_idx := to_uint8 idx_; cmd := PENDING_REQUEST_CMD_PLAYER_LEDS;
     player_led := leds_; leds := (0, 0, 0);
     rumble_delayed_start := 0; rumble_duration := 0;
     rumble_weak_magnitude := 0; rumble_strong_magnitude := 0 |}.

Definition lightbar_color_request (idx_ r g b : Z) : pending_request_t :=
  {| request_controller_idx := to_uint8 idx_; cmd := PENDING_REQUEST_CMD_LIGHTBAR_COLOR;
     player_led := 0; leds := (r, g, b);
     rumble_delayed_start := 0; rumble_duration := 0;
     rumble_weak_magnitude := 0; rumble_strong_magnitude := 0 |}.

Definition rumble_request (idx_ delayed_start_ms duration_ms weak_magnitude
  strong_magnitude : Z) : pending_request_t :=
  {| request_controller_idx := to_uint8 idx_; cmd := PENDING_REQUEST_CMD_RUMBLE;
     player_led := 0; leds := (0, 0, 0);
     rumble_delayed_start := delayed_start_ms; rumble_duration := duration_ms;
     rumble_weak_magnitude := weak_magnitude;
     rumble_strong_magnitude := strong_magnitude |}.

Definition disconnect_request (idx_ : Z) : pending_request_t :=
  zero_request (to_uint8 idx_) PENDING_REQUEST_CMD_DISCONNECT.

(** The tail shared by the four commands: the result of
    [xQueueSendToBack] is dropped and the function reports success. *)
Definition send_request (st : bridge) (request : pending_request_t)
  : arduino_error_t * bridge :=
  let '(_, q) := xQueueSendToBack (pending_queue_ st) request in
  (UNI_ARDUINO_ERROR_SUCCESS, set_pending_queue st q).

Definition arduino_set_player_leds (st : bridge) (idx_ leds_ : Z)
  : arduino_error_t * bridge :=
  if (idx_ <? 0) || (idx_ >=? CONFIG_BLUEPAD32_MAX_DEVICES)
  then (UNI_ARDUINO_ERROR_INVALID_DEVICE, st)
  else if idx (controller_at st idx_) =? UNI_ARDUINO_GAMEPAD_INVALID
  then (UNI_ARDUINO_ERROR_INVALID_DEVICE, st)
  else send_request st (player_leds_request idx_ leds_).

Definition arduino_set_lightbar_color (st : bridge) (idx_ r g b : Z)
  : arduino_error_t * bridge :=
  if (idx_ <? 0) || (idx_ >=? CONFIG_BLUEPAD32_MAX_DEVICES)
  then (UNI_ARDUINO_ERROR_INVALID_DEVICE, st)
  else if idx (controller_at st idx_) =? UNI_ARDUINO_GAMEPAD_INVALID
  then (UNI_ARDUINO_ERROR_INVALID_DEVICE, st)
  else send_request st (lightbar_color_request idx_ r g b).

Definition arduino_play_dual_rumble (st : bridge)
  (idx_ delayed_start_ms duration_ms weak_magnitude strong_magnitude : Z)
  : arduino_error_t * bridge :=
  if (idx_ <? 0) || (idx_ >=? CONFIG_BLUEPAD32_MAX_DEVICES)
  then (UNI_ARDUINO_ERROR_INVALID_DEVICE, st)
  else if idx (controller_at st idx_) =? UNI_ARDUINO_GAMEPAD_INVALID
  then (UNI_ARDUINO_ERROR_INVALID_DEVICE, st)
  else send_request st
         (rumble_request idx_ delayed_start_ms duration_ms weak_magnitude
            strong_magnitude).

Definition arduino_disconnect_controller (st : bridge) (idx_ : Z)
  : arduino_error_t * bridge :=
  if (idx_ <? 0) || (idx_ >=? CONFIG_BLUEPAD32_MAX_DEVICES)
  then (UNI_ARDUINO_ERROR_INVALID_DEVICE, st)
  else if idx (controller_at st idx_) =? UNI_ARDUINO_GAMEPAD_INVALID
  then (UNI_ARDUINO_ERROR_INVALID_DEVICE, st)
  else send_request st (disconnect_request idx_).

(** ** Start-up and runs *)

(** Static storage at power-on: the globals are zero and the queue is
    not created yet. *)
Definition power_on (devs : list uni_hid_device_t) : bridge :=
  {| pending_queue_ := [];
     controllers_ := replicate (Z.to_nat CONFIG_BLUEPAD32_MAX_DEVICES) zero_slot;
     used_controllers_ := 0;
     g_devices := devs;
     calls := [] |}.

(** [arduino_on_init_complete] creates the mutex and the empty queue. *)
Definition arduino_on_init_complete (st : bridge) : bridge :=
  set_pending_queue st [].

(** [arduino_on_device_connected] on each of the first [n] devices. *)
Fixpoint connect_all (n : nat) (st : bridge) : bridge :=
  match n with
  | O => st
  | S n' =>
      let st := connect_all n' st in
      default st (arduino_on_device_connected st n')
  end.

(** The initialized state over a device table: [arduino_init],
    [arduino_on_init_complete], and every device of the table announced
    with [arduino_on_device_connected], the callback that precedes
    [arduino_on_device_ready] in the life of a device. *)
Definition initialized (devs : list uni_hid_device_t) : bridge :=
  connect_all (length devs) (arduino_on_init_complete (arduino_init (power_on devs))).

(** What the two CPUs can do to the bridge. *)
Inductive event :=
| on_device_connected (d : nat)
| on_device_ready (d : nat)
| on_device_disconnected (d : nat)
| on_controller_data (d : nat) (ctl : uni_controller_t)
| get_gamepad_data (idx_ : Z)
| get_controller_data (idx_ : Z)
| get_controller_properties (idx_ : Z)
| get_gamepad_properties (idx_ : Z)
| set_player_leds_cmd (idx_ leds_ : Z)
| set_lightbar_color_cmd (idx_ r g b : Z)
| play_dual_rumble_cmd (idx_ delayed_start_ms duration_ms weak strong : Z)
| disconnect_controller (idx_ : Z).

Definition step (st : bridge) (e : event) : option bridge :=
  match e with
  | on_device_connected d => arduino_on_device_connected st d
  | on_device_ready d => snd <$> arduino_on_device_ready st d
  | on_device_disconnected d => arduino_on_device_disconnected st d
  | on_controller_data d ctl => arduino_on_controller_data st d ctl
  | get_gamepad_data i => Some (snd (arduino_get_gamepad_data st i))
  | get_controller_data i => Some (snd (arduino_get_controller_data st i))
  | get_controller_properties i => Some (snd (arduino_get_controller_properties st i))
  | get_gamepad_properties i => Some (snd (arduino_get_gamepad_properties st i))
  | set_player_leds_cmd i l => Some (snd (arduino_set_player_leds st i l))
  | set_lightbar_color_cmd i r g b => Some (snd (arduino_set_lightbar_color st i r g b))
  | play_dual_rumble_cmd i a b c e =>
      Some (snd (arduino_play_dual_rumble st i a b c e))
  | disconnect_controller i => Some (snd (arduino_disconnect_controller st i))
  end.

Fixpoint run (st : bridge) (evs : list event) : option bridge :=
  match evs with
  | [] => Some st
  | e :: evs' => st' ← step st e; run st' evs'
  end.

(** The device pointer of a protocol-side event lies in the table. *)
Definition event_in_table (n : nat) (e : event) : Prop :=
  match e with
  | on_device_connected d | on_device_ready d | on_device_disconnected d
  | on_controller_data d _ => (d < n)%nat
  | _ => True
  end.

(** ** Vocabulary of the statements *)

Definition assigned (c : arduino_controller_t) : bool :=
  negb (idx c =? UNI_ARDUINO_GAMEPAD_INVALID).

(** Number of slots marked assigned. *)
Fixpoint count_assigned (cs : list arduino_controller_t) : Z :=
  match cs with
  | [] => 0
  | c :: cs' => (if assigned c then 1 else 0) + count_assigned cs'
  end.

(** [get_arduino_instance(d)->controller_idx] for the device at position
    [d] of the table: the slot the device holds, or the sentinel. *)
Definition instance_idx (st : bridge) (d : nat) : option Z :=
  (fun dev => controller_idx (get_arduino_instance dev)) <$> g_devices st !! d.

(** The guard of the application-side functions, as a proposition:
    [i] is outside [0, N) or slot [i] is unassigned. *)
Definition rejected (st : bridge) (i : Z) : Prop :=
  i < 0 \/ i >= CONFIG_BLUEPAD32_MAX_DEVICES
  \/ idx (controller_at st i) = UNI_ARDUINO_GAMEPAD_INVALID.

(** The four command operations of the application side. *)
Inductive command :=
| SetPlayerLEDs (idx_ leds_ : Z)
| SetLightbarColor (idx_ r g b : Z)
| Rumble (idx_ delayed_start_ms duration_ms weak_magnitude strong_magnitude : Z)
| Disconnect (idx_ : Z).

Definition issue (st : bridge) (c : command) : arduino_error_t * bridge :=
  match c with
  | SetPlayerLEDs i l => arduino_set_player_leds st i l
  | SetLightbarColor i r g b => arduino_set_lightbar_color st i r g b
  | Rumble i a b w s => arduino_play_dual_rumble st i a b w s
  | Disconnect i => arduino_disconnect_controller st i
  end.

Definition target (c : command) : Z :=
  match c with
  | SetPlayerLEDs i _ | SetLightbarColor i _ _ _ | Rumble i _ _ _ _
  | Disconnect i => i
  end.

(** The request each command builds before it sends it. *)
Definition request_of (c : command) : pending_request_t :=
  match c with
  | SetPlayerLEDs i l => player_leds_request i l
  | SetLightbarColor i r g b => lightbar_color_request i r g b
  | Rumble i a b w s => rumble_request i a b w s
  | Disconnect i => disconnect_request i
  end.

(** Commands issued one after the other, with the codes they return. *)
Fixpoint issue_all (st : bridge) (cs : list command)
  : list arduino_error_t * bridge :=
  match cs with
  | [] => ([], st)
  | c :: cs' =>
      let '(r, st1) := issue st c in
      let '(rs, st2) := issue_all st1 cs' in
      (r :: rs, st2)
  end.

(** The trace of calls extended by a list. *)
Definition add_calls (st : bridge) (l : list call) : bridge :=
  {| pending_queue_ := pending_queue_ st; controllers_ := controllers_ st;
     used_controllers_ := used_controllers_ st;
     g_devices := g_devices st; calls := calls st ++ l |}.

(** The calls a resolved request makes, by its command. *)
Definition request_calls (d : nat) (dev : uni_hid_device_t)
  (request : pending_request_t) : list call :=
  calls (dispatch_request
           {| pending_queue_ := []; controllers_ := []; used_controllers_ := 0;
              g_devices := []; calls := [] |} d dev request).

(** What holds of the table, the counter and the device instances in
    every state the bridge can reach. *)
Record slots_ok (cs : list arduino_controller_t) (used : Z)
  (devs : list uni_hid_device_t) : Prop := {
  ok_length : length cs = Z.to_nat CONFIG_BLUEPAD32_MAX_DEVICES;
  ok_used : used = count_assigned cs;
  ok_idx : forall (i : nat) c,
    cs !! i = Some c ->
    idx c = UNI_ARDUINO_GAMEPAD_INVALID \/ idx c = Z.of_nat i;
  ok_owner : forall (d : nat) dev,
    devs !! d = Some dev ->
    controller_idx (platform_data dev) <> UNI_ARDUINO_GAMEPAD_INVALID ->
    0 <= controller_idx (platform_data dev)
    /\ exists c, cs !! Z.to_nat (controller_idx (platform_data dev)) = Some c
                 /\ idx c <> UNI_ARDUINO_GAMEPAD_INVALID;
  ok_distinct : forall (d d' : nat) dev dev',
    devs !! d = Some dev -> devs !! d' = Some dev' ->
    controller_idx (platform_data dev) <> UNI_ARDUINO_GAMEPAD_INVALID ->
    controller_idx (platform_data dev) = controller_idx (platform_data dev') ->
    d = d'
}.

Definition wf (st : bridge) : Prop :=
  slots_ok (controllers_ st) (used_controllers_ st) (g_devices st).

Definition free_slot : arduino_controller_t :=
  set_idx zero_slot UNI_ARDUINO_GAMEPAD_INVALID.

(** ** The rest of the platform *)

(** [arduino_get_internal_hid_device], public but for CPU 0 only: the
    device that holds slot [controller_idx], or [NULL]. *)
Definition arduino_get_internal_hid_device (st : bridge) (controller_idx_ : Z)
  : option (nat * uni_hid_device_t) :=
  if controller_idx_ =? UNI_ARDUINO_GAMEPAD_INVALID then None
  else if (controller_idx_ <? 0) || (controller_idx_ >=? CONFIG_BLUEPAD32_MAX_DEVICES)
  then None
  else
    uni_hid_device_get_instance_with_predicate predicate_arduino_index
      controller_idx_ st.

(** The calls the drain makes for one request: those of its command on
    the device it resolves to, and none when it does not resolve. *)
Definition resolved_calls (st : bridge) (request : pending_request_t) : list call :=
  match uni_hid_device_get_instance_with_predicate predicate_arduino_index
          (request_controller_idx request) st with
  | Some (d, dev) => request_calls d dev request
  | None => []
  end.

Definition resolves (st : bridge) (request : pending_request_t) : Prop :=
  uni_hid_device_get_instance_with_predicate predicate_arduino_index
    (request_controller_idx request) st <> None.

(** The call a command is meant to end in, on the device [d]. *)
Definition command_calls (d : nat) (dev : uni_hid_device_t) (c : command) : list call :=
  match c with
  | SetPlayerLEDs _ l =>
      if set_player_leds (report_parser dev) then [call_set_player_leds d l] else []
  | SetLightbarColor _ r g b =>
      if set_lightbar_color (report_parser dev)
      then [call_set_lightbar_color d r g b] else []
  | Rumble _ a b w s =>
      if play_dual_rumble (report_parser dev)
      then [call_play_dual_rumble d a b w s] else []
  | Disconnect _ => [call_uni_bt_disconnect_device_safe (Z.of_nat d)]
  end.

(** The events of CPU 1: the calls of the application. *)
Definition application_event (e : event) : Prop :=
  match e with
  | on_device_connected _ | on_device_ready _ | on_device_disconnected _
  | on_controller_data _ _ => False
  | _ => True
  end.

(** Every unassigned slot is as [memset] and the sentinel leave it. *)
Definition free_slots_zero (cs : list arduino_controller_t) : Prop :=
  forall (i : nat) c,
    cs !! i = Some c -> idx c = UNI_ARDUINO_GAMEPAD_INVALID -> c = free_slot.

End Bridge.

(** * A concrete configuration *)

(** Four slots, the flags on three distinct bits, and an integer for the
    opaque snapshot. *)
Definition four_slots : platform_headers :=
  {| CONFIG_BLUEPAD32_MAX_DEVICES := 4;
     ARDUINO_PROPERTY_FLAG_PLAYER_LEDS := 2;
     ARDUINO_PROPERTY_FLAG_RUMBLE := 1;
     ARDUINO_PROPERTY_FLAG_PLAYER_LIGHTBAR := 4;
     uni_controller_t := Z;
     uni_gamepad_t := Z;
     gamepad := fun x => x;
     zero_controller := 0 |}.

Section FourSlots.

#[local] Existing Instance four_slots.

(** A device as the HID layer hands it over: [t] fills the identity, the
    subtype differs from the type, and the platform data are still zero. *)
Definition pad (t : Z) (leds_ rumble_ lightbar_ : bool) : uni_hid_device_t :=
  {| conn_btaddr := [t; t; t; t; t; t];
     controller_type := t;
     controller_subtype := t + 100;
     vendor_id := t + 200;
     product_id := t + 300;
     report_parser :=
       {| set_player_leds := leds_; play_dual_rumble := rumble_;
          set_lightbar_color := lightbar_ |};
     platform_data := {| controller_idx := 0 |} |}.

Definition six_pads : list uni_hid_device_t :=
  [pad 1 true true true; pad 2 false false true; pad 3 true false false;
   pad 4 true true true; pad 5 true true true; pad 6 false true true].

(** The state after a run from the initialized state over [six_pads]. *)
Definition after (evs : list event) : bridge :=
  default (initialized six_pads) (run (initialized six_pads) evs).

(** Pads 0 and 1 hold the slots 0 and 1; a player-LED command for slot 0
    and a lightbar command for slot 1 are pending; then pad 0
    disconnects. *)
Definition stale_then_live : bridge :=
  Eval vm_compute in
    after [on_device_ready 0%nat; on_device_ready 1%nat;
           set_player_leds_cmd 0 1; set_lightbar_color_cmd 1 255 0 0;
           on_device_disconnected 0%nat].

(** Pad 0 holds slot 0 and sixteen commands are pending. *)
Definition full_queue : bridge :=
  Eval vm_compute in
    after (on_device_ready 0%nat :: repeat (set_player_leds_cmd 0 1) 16).

(** The four slots are held by the pads 0 to 3. *)
Definition full_table : bridge :=
  Eval vm_compute in
    after [on_device_ready 0%nat; on_device_ready 1%nat;
           on_device_ready 2%nat; on_device_ready 3%nat].

(** Pad 0 holds slot 0. *)
Definition one_pad : bridge :=
  Eval vm_compute in after [on_device_ready 0%nat].

(** Pads 0 and 2 hold the slots 0 and 1. *)
Definition two_pads : bridge :=
  Eval vm_compute in after [on_device_ready 0%nat; on_device_ready 2%nat].

(** Pads 0 and 1 hold their slots and a lightbar command for slot 1 is
    pending. *)
Definition lightbar_pending : bridge :=
  Eval vm_compute in
    after [on_device_ready 0%nat; on_device_ready 1%nat;
           set_lightbar_color_cmd 1 255 0 0].

(** The same with a player-LED command: pad 1 has no player LEDs. *)
Definition player_leds_pending : bridge :=
  Eval vm_compute in
    after [on_device_ready 0%nat; on_device_ready 1%nat;
           set_player_leds_cmd 1 3].

End FourSlots.

(** ** More runs over [six_pads] *)

Section MoreRuns.

#[local] Existing Instance four_slots.

(** A device of the table once its instance holds slot [k]. *)
Definition holding (dev : uni_hid_device_t) (k : Z) : uni_hid_device_t :=
  set_arduino_instance dev {| controller_idx := k |}.

(** Pad 0 took slot 0 and has disconnected. *)
Definition released_pad : bridge :=
  Eval vm_compute in after [on_device_ready 0%nat; on_device_disconnected 0%nat].

(** Pads 0 and 1 hold their slots; a lightbar command for slot 1, a
    player-LED command for slot 0 and a second lightbar command for slot
    1 are pending, in this order; then pad 0 disconnects. *)
Definition live_stale_live : bridge :=
  Eval vm_compute in
    after [on_device_ready 0%nat; on_device_ready 1%nat;
           set_lightbar_color_cmd 1 255 0 0; set_player_leds_cmd 0 1;
           set_lightbar_color_cmd 1 0 255 0; on_device_disconnected 0%nat].

(** Pad 0 took slot 0, delivered the snapshot 77, and disconnected
    before the application read it. *)
Definition unread_then_released : bridge :=
  Eval vm_compute in
    after [on_device_ready 0%nat; on_controller_data 0%nat (77 : Z);
           on_device_disconnected 0%nat].

(** Then pad 1 takes the slot. *)
Definition slot_reused : bridge :=
  Eval vm_compute in
    after [on_device_ready 0%nat; on_controller_data 0%nat (77 : Z);
           on_device_disconnected 0%nat; on_device_ready 1%nat].

(** Pad 0 has delivered the snapshot 77 and nobody has read it. *)
Definition snapshot_pending : bridge :=
  Eval vm_compute in
    after [on_device_ready 0%nat; on_controller_data 0%nat (77 : Z)].

(** What happens to [two_pads] next: pad 2 delivers a snapshot, the
    application sends a lightbar command to slot 1 and reads it, and pad 0
    disconnects. *)
Definition after_two_pads : list event :=
  [on_controller_data 2%nat (5 : Z); set_lightbar_color_cmd 1 1 2 3;
   get_controller_data 1; on_device_disconnected 0%nat].

Definition two_pads_later : bridge :=
  Eval vm_compute in default two_pads (run two_pads after_two_pads).

End MoreRuns.

(** * The GATT attribute table

    [bt/uni_bt_service.gatt.h]: the table [profile_data] that the BLE
    service hands to BTstack, and the handle constants generated with it.
    The header gives the layout, "att db format version 1": after the
    version byte each attribute is its size in bytes (16 bits), flags
    (16), handle (16), uuid (16 or 128 bits) and value, and a size of
    zero ends the table.  The bytes are in the order of the source, one
    attribute per line. *)
Definition profile_data : list Z :=
  [
   (* ATT DB Version *) 1;
   (* 0x0001 *) 0x0a; 0x00; 0x02; 0x00; 0x01; 0x00; 0x00; 0x28; 0x00; 0x18;
   (* 0x0002 *) 0x0d; 0x00; 0x02; 0x00; 0x02; 0x00; 0x03; 0x28; 0x02; 0x03; 0x00; 0x00; 0x2a;
   (* 0x0003 *) 0x11; 0x00; 0x02; 0x00; 0x03; 0x00; 0x00; 0x2a; 0x42; 0x6c; 0x75; 0x65; 0x70; 0x61; 0x64; 0x33; 0x32;
   (* 0x0004 *) 0x0a; 0x00; 0x02; 0x00; 0x04; 0x00; 0x00; 0x28; 0x01; 0x18;
   (* 0x0005 *) 0x0d; 0x00; 0x02; 0x00; 0x05; 0x00; 0x03; 0x28; 0x02; 0x06; 0x00; 0x2a; 0x2b;
   (* 0x0006 *) 0x18; 0x00; 0x02; 0x00; 0x06; 0x00; 0x2a; 0x2b; 0xff; 0x6d; 0x13; 0xfc; 0x16; 0x4f; 0xb3; 0xd3; 0x3f; 0x90; 0xbf; 0x11; 0x30; 0x5d; 0x19; 0x59;
   (* 0x0007 *) 0x18; 0x00; 0x02; 0x00; 0x07; 0x00; 0x00; 0x28; 0x63; 0x7f; 0xbf; 0xc1; 0xc5; 0xaf; 0x88; 0xb6; 0xb9; 0x46; 0x00; 0xac; 0xa4; 0xc4; 0x27; 0x46;
   (* 0x0008 *) 0x1b; 0x00; 0x02; 0x00; 0x08; 0x00; 0x03; 0x28; 0x02; 0x09; 0x00; 0x63; 0x7f; 0xbf; 0xc1; 0xc5; 0xaf; 0x88; 0xb6; 0xb9; 0x46; 0x01; 0xac; 0xa4; 0xc4; 0x27; 0x46;
   (* 0x0009 *) 0x16; 0x00; 0x02; 0x03; 0x09; 0x00; 0x63; 0x7f; 0xbf; 0xc1; 0xc5; 0xaf; 0x88; 0xb6; 0xb9; 0x46; 0x01; 0xac; 0xa4; 0xc4; 0x27; 0x46;
   (* 0x000a *) 0x1b; 0x00; 0x02; 0x00; 0x0a; 0x00; 0x03; 0x28; 0x02; 0x0b; 0x00; 0x63; 0x7f; 0xbf; 0xc1; 0xc5; 0xaf; 0x88; 0xb6; 0xb9; 0x46; 0x02; 0xac; 0xa4; 0xc4; 0x27; 0x46;
   (* 0x000b *) 0x16; 0x00; 0x02; 0x03; 0x0b; 0x00; 0x63; 0x7f; 0xbf; 0xc1; 0xc5; 0xaf; 0x88; 0xb6; 0xb9; 0x46; 0x02; 0xac; 0xa4; 0xc4; 0x27; 0x46;
   (* 0x000c *) 0x1b; 0x00; 0x02; 0x00; 0x0c; 0x00; 0x03; 0x28; 0x0a; 0x0d; 0x00; 0x63; 0x7f; 0xbf; 0xc1; 0xc5; 0xaf; 0x88; 0xb6; 0xb9; 0x46; 0x03; 0xac; 0xa4; 0xc4; 0x27; 0x46;
   (* 0x000d *) 0x16; 0x00; 0x0a; 0x03; 0x0d; 0x00; 0x63; 0x7f; 0xbf; 0xc1; 0xc5; 0xaf; 0x88; 0xb6; 0xb9; 0x46; 0x03; 0xac; 0xa4; 0xc4; 0x27; 0x46;
   (* 0x000e *) 0x1b; 0x00; 0x02; 0x00; 0x0e; 0x00; 0x03; 0x28; 0x0a; 0x0f; 0x00; 0x63; 0x7f; 0xbf; 0xc1; 0xc5; 0xaf; 0x88; 0xb6; 0xb9; 0x46; 0x04; 0xac; 0xa4; 0xc4; 0x27; 0x46;
   (* 0x000f *) 0x16; 0x00; 0x0a; 0x03; 0x0f; 0x00; 0x63; 0x7f; 0xbf; 0xc1; 0xc5; 0xaf; 0x88; 0xb6; 0xb9; 0x46; 0x04; 0xac; 0xa4; 0xc4; 0x27; 0x46;
   (* 0x0010 *) 0x1b; 0x00; 0x02; 0x00; 0x10; 0x00; 0x03; 0x28; 0x02; 0x11; 0x00; 0x63; 0x7f; 0xbf; 0xc1; 0xc5; 0xaf; 0x88; 0xb6; 0xb9; 0x46; 0x05; 0xac; 0xa4; 0xc4; 0x27; 0x46;
   (* 0x0011 *) 0x16; 0x00; 0x02; 0x03; 0x11; 0x00; 0x63; 0x7f; 0xbf; 0xc1; 0xc5; 0xaf; 0x88; 0xb6; 0xb9; 0x46; 0x05; 0xac; 0xa4; 0xc4; 0x27; 0x46;
   (* 0x0012 *) 0x1b; 0x00; 0x02; 0x00; 0x12; 0x00; 0x03; 0x28; 0x10; 0x13; 0x00; 0x63; 0x7f; 0xbf; 0xc1; 0xc5; 0xaf; 0x88; 0xb6; 0xb9; 0x46; 0x06; 0xac; 0xa4; 0xc4; 0x27; 0x46;
   (* 0x0013 *) 0x16; 0x00; 0x00; 0x03; 0x13; 0x00; 0x63; 0x7f; 0xbf; 0xc1; 0xc5; 0xaf; 0x88; 0xb6; 0xb9; 0x46; 0x06; 0xac; 0xa4; 0xc4; 0x27; 0x46;
   (* 0x0014 *) 0x0a; 0x00; 0x0e; 0x01; 0x14; 0x00; 0x02; 0x29; 0x00; 0x00;
   (* 0x0015 *) 0x1b; 0x00; 0x02; 0x00; 0x15; 0x00; 0x03; 0x28; 0x0a; 0x16; 0x00; 0x63; 0x7f; 0xbf; 0xc1; 0xc5; 0xaf; 0x88; 0xb6; 0xb9; 0x46; 0x07; 0xac; 0xa4; 0xc4; 0x27; 0x46;
   (* 0x0016 *) 0x16; 0x00; 0x0a; 0x03; 0x16; 0x00; 0x63; 0x7f; 0xbf; 0xc1; 0xc5; 0xaf; 0x88; 0xb6; 0xb9; 0x46; 0x07; 0xac; 0xa4; 0xc4; 0x27; 0x46;
   (* 0x0017 *) 0x1b; 0x00; 0x02; 0x00; 0x17; 0x00; 0x03; 0x28; 0x0a; 0x18; 0x00; 0x63; 0x7f; 0xbf; 0xc1; 0xc5; 0xaf; 0x88; 0xb6; 0xb9; 0x46; 0x08; 0xac; 0xa4; 0xc4; 0x27; 0x46;
   (* 0x0018 *) 0x16; 0x00; 0x0a; 0x03; 0x18; 0x00; 0x63; 0x7f; 0xbf; 0xc1; 0xc5; 0xaf; 0x88; 0xb6; 0xb9; 0x46; 0x08; 0xac; 0xa4; 0xc4; 0x27; 0x46;
   (* 0x0019 *) 0x1b; 0x00; 0x02; 0x00; 0x19; 0x00; 0x03; 0x28; 0x0a; 0x1a; 0x00; 0x63; 0x7f; 0xbf; 0xc1; 0xc5; 0xaf; 0x88; 0xb6; 0xb9; 0x46; 0x09; 0xac; 0xa4; 0xc4; 0x27; 0x46;
   (* 0x001a *) 0x16; 0x00; 0x0a; 0x03; 0x1a; 0x00; 0x63; 0x7f; 0xbf; 0xc1; 0xc5; 0xaf; 0x88; 0xb6; 0xb9; 0x46; 0x09; 0xac; 0xa4; 0xc4; 0x27; 0x46;
   (* 0x001b *) 0x1b; 0x00; 0x02; 0x00; 0x1b; 0x00; 0x03; 0x28; 0x0a; 0x1c; 0x00; 0x63; 0x7f; 0xbf; 0xc1; 0xc5; 0xaf; 0x88; 0xb6; 0xb9; 0x46; 0x0a; 0xac; 0xa4; 0xc4; 0x27; 0x46;
   (* 0x001c *) 0x16; 0x00; 0x0a; 0x03; 0x1c; 0x00; 0x63; 0x7f; 0xbf; 0xc1; 0xc5; 0xaf; 0x88; 0xb6; 0xb9; 0x46; 0x0a; 0xac; 0xa4; 0xc4; 0x27; 0x46;
   (* 0x001d *) 0x1b; 0x00; 0x02; 0x00; 0x1d; 0x00; 0x03; 0x28; 0x08; 0x1e; 0x00; 0x63; 0x7f; 0xbf; 0xc1; 0xc5; 0xaf; 0x88; 0xb6; 0xb9; 0x46; 0x0b; 0xac; 0xa4; 0xc4; 0x27; 0x46;
   (* 0x001e *) 0x16; 0x00; 0x08; 0x03; 0x1e; 0x00; 0x63; 0x7f; 0xbf; 0xc1; 0xc5; 0xaf; 0x88; 0xb6; 0xb9; 0x46; 0x0b; 0xac; 0xa4; 0xc4; 0x27; 0x46;
   (* 0x001f *) 0x1b; 0x00; 0x02; 0x00; 0x1f; 0x00; 0x03; 0x28; 0x08; 0x20; 0x00; 0x63; 0x7f; 0xbf; 0xc1; 0xc5; 0xaf; 0x88; 0xb6; 0xb9; 0x46; 0x0c; 0xac; 0xa4; 0xc4; 0x27; 0x46;
   (* 0x0020 *) 0x16; 0x00; 0x08; 0x03; 0x20; 0x00; 0x63; 0x7f; 0xbf; 0xc1; 0xc5; 0xaf; 0x88; 0xb6; 0xb9; 0x46; 0x0c; 0xac; 0xa4; 0xc4; 0x27; 0x46;
   (* 0x0021 *) 0x0a; 0x00; 0x02; 0x00; 0x21; 0x00; 0x00; 0x28; 0x0f; 0x18;
   (* 0x0022 *) 0x0d; 0x00; 0x02; 0x00; 0x22; 0x00; 0x03; 0x28; 0x12; 0x23; 0x00; 0x19; 0x2a;
   (* 0x0023 *) 0x08; 0x00; 0x02; 0x01; 0x23; 0x00; 0x19; 0x2a;
   (* 0x0024 *) 0x0a; 0x00; 0x0e; 0x01; 0x24; 0x00; 0x02; 0x29; 0x00; 0x00;
   (* 0x0025 *) 0x0a; 0x00; 0x02; 0x00; 0x25; 0x00; 0x00; 0x28; 0x0a; 0x18;
   (* 0x0026 *) 0x0d; 0x00; 0x02; 0x00; 0x26; 0x00; 0x03; 0x28; 0x02; 0x27; 0x00; 0x29; 0x2a;
   (* 0x0027 *) 0x08; 0x00; 0x02; 0x01; 0x27; 0x00; 0x29; 0x2a;
   (* 0x0028 *) 0x0d; 0x00; 0x02; 0x00; 0x28; 0x00; 0x03; 0x28; 0x02; 0x29; 0x00; 0x24; 0x2a;
   (* 0x0029 *) 0x08; 0x00; 0x02; 0x01; 0x29; 0x00; 0x24; 0x2a;
   (* 0x002a *) 0x0d; 0x00; 0x02; 0x00; 0x2a; 0x00; 0x03; 0x28; 0x02; 0x2b; 0x00; 0x25; 0x2a;
   (* 0x002b *) 0x08; 0x00; 0x02; 0x01; 0x2b; 0x00; 0x25; 0x2a;
   (* 0x002c *) 0x0d; 0x00; 0x02; 0x00; 0x2c; 0x00; 0x03; 0x28; 0x02; 0x2d; 0x00; 0x27; 0x2a;
   (* 0x002d *) 0x08; 0x00; 0x02; 0x01; 0x2d; 0x00; 0x27; 0x2a;
   (* 0x002e *) 0x0d; 0x00; 0x02; 0x00; 0x2e; 0x00; 0x03; 0x28; 0x02; 0x2f; 0x00; 0x26; 0x2a;
   (* 0x002f *) 0x08; 0x00; 0x02; 0x01; 0x2f; 0x00; 0x26; 0x2a;
   (* 0x0030 *) 0x0d; 0x00; 0x02; 0x00; 0x30; 0x00; 0x03; 0x28; 0x02; 0x31; 0x00; 0x28; 0x2a;
   (* 0x0031 *) 0x08; 0x00; 0x02; 0x01; 0x31; 0x00; 0x28; 0x2a;
   (* 0x0032 *) 0x0d; 0x00; 0x02; 0x00; 0x32; 0x00; 0x03; 0x28; 0x02; 0x33; 0x00; 0x23; 0x2a;
   (* 0x0033 *) 0x08; 0x00; 0x02; 0x01; 0x33; 0x00; 0x23; 0x2a;
   (* 0x0034 *) 0x0d; 0x00; 0x02; 0x00; 0x34; 0x00; 0x03; 0x28; 0x02; 0x35; 0x00; 0x2a; 0x2a;
   (* 0x0035 *) 0x08; 0x00; 0x02; 0x01; 0x35; 0x00; 0x2a; 0x2a;
   (* 0x0036 *) 0x0d; 0x00; 0x02; 0x00; 0x36; 0x00; 0x03; 0x28; 0x02; 0x37; 0x00; 0x50; 0x2a;
   (* 0x0037 *) 0x08; 0x00; 0x02; 0x01; 0x37; 0x00; 0x50; 0x2a;
   (* END *) 0x00; 0x00
  ].

(** The handle ranges of the services and the handles of the
    characteristics, as the header defines them. *)
Definition ATT_SERVICE_GAP_SERVICE_START_HANDLE : Z := 0x0001.
Definition ATT_SERVICE_GAP_SERVICE_END_HANDLE : Z := 0x0003.
Definition ATT_SERVICE_GAP_SERVICE_01_START_HANDLE : Z := 0x0001.
Definition ATT_SERVICE_GAP_SERVICE_01_END_HANDLE : Z := 0x0003.
Definition ATT_SERVICE_GATT_SERVICE_START_HANDLE : Z := 0x0004.
Definition ATT_SERVICE_GATT_SERVICE_END_HANDLE : Z := 0x0006.
Definition ATT_SERVICE_GATT_SERVICE_01_START_HANDLE : Z := 0x0004.
Definition ATT_SERVICE_GATT_SERVICE_01_END_HANDLE : Z := 0x0006.
Definition ATT_SERVICE_4627C4A4_AC00_46B9_B688_AFC5C1BF7F63_START_HANDLE : Z := 0x0007.
Definition ATT_SERVICE_4627C4A4_AC00_46B9_B688_AFC5C1BF7F63_END_HANDLE : Z := 0x0020.
Definition ATT_SERVICE_4627C4A4_AC00_46B9_B688_AFC5C1BF7F63_01_START_HANDLE : Z := 0x0007.
Definition ATT_SERVICE_4627C4A4_AC00_46B9_B688_AFC5C1BF7F63_01_END_HANDLE : Z := 0x0020.
Definition ATT_SERVICE_ORG_BLUETOOTH_SERVICE_BATTERY_SERVICE_START_HANDLE : Z := 0x0021.
Definition ATT_SERVICE_ORG_BLUETOOTH_SERVICE_BATTERY_SERVICE_END_HANDLE : Z := 0x0024.
Definition ATT_SERVICE_ORG_BLUETOOTH_SERVICE_BATTERY_SERVICE_01_START_HANDLE : Z := 0x0021.
Definition ATT_SERVICE_ORG_BLUETOOTH_SERVICE_BATTERY_SERVICE_01_END_HANDLE : Z := 0x0024.
Definition ATT_SERVICE_ORG_BLUETOOTH_SERVICE_DEVICE_INFORMATION_START_HANDLE : Z := 0x0025.
Definition ATT_SERVICE_ORG_BLUETOOTH_SERVICE_DEVICE_INFORMATION_END_HANDLE : Z := 0x0037.
Definition ATT_SERVICE_ORG_BLUETOOTH_SERVICE_DEVICE_INFORMATION_01_START_HANDLE : Z := 0x0025.
Definition ATT_SERVICE_ORG_BLUETOOTH_SERVICE_DEVICE_INFORMATION_01_END_HANDLE : Z := 0x0037.
Definition ATT_CHARACTERISTIC_GAP_DEVICE_NAME_01_VALUE_HANDLE : Z := 0x0003.
Definition ATT_CHARACTERISTIC_GATT_DATABASE_HASH_01_VALUE_HANDLE : Z := 0x0006.
Definition ATT_CHARACTERISTIC_4627C4A4_AC01_46B9_B688_AFC5C1BF7F63_01_VALUE_HANDLE : Z := 0x0009.
Definition ATT_CHARACTERISTIC_4627C4A4_AC02_46B9_B688_AFC5C1BF7F63_01_VALUE_HANDLE : Z := 0x000b.
Definition ATT_CHARACTERISTIC_4627C4A4_AC03_46B9_B688_AFC5C1BF7F63_01_VALUE_HANDLE : Z := 0x000d.
Definition ATT_CHARACTERISTIC_4627C4A4_AC04_46B9_B688_AFC5C1BF7F63_01_VALUE_HANDLE : Z := 0x000f.
Definition ATT_CHARACTERISTIC_4627C4A4_AC05_46B9_B688_AFC5C1BF7F63_01_VALUE_HANDLE : Z := 0x0011.
Definition ATT_CHARACTERISTIC_4627C4A4_AC06_46B9_B688_AFC5C1BF7F63_01_VALUE_HANDLE : Z := 0x0013.
Definition ATT_CHARACTERISTIC_4627C4A4_AC06_46B9_B688_AFC5C1BF7F63_01_CLIENT_CONFIGURATION_HANDLE : Z := 0x0014.
Definition ATT_CHARACTERISTIC_4627C4A4_AC07_46B9_B688_AFC5C1BF7F63_01_VALUE_HANDLE : Z := 0x0016.
Definition ATT_CHARACTERISTIC_4627C4A4_AC08_46B9_B688_AFC5C1BF7F63_01_VALUE_HANDLE : Z := 0x0018.
Definition ATT_CHARACTERISTIC_4627C4A4_AC09_46B9_B688_AFC5C1BF7F63_01_VALUE_HANDLE : Z := 0x001a.
Definition ATT_CHARACTERISTIC_4627C4A4_AC0A_46B9_B688_AFC5C1BF7F63_01_VALUE_HANDLE : Z := 0x001c.
Definition ATT_CHARACTERISTIC_4627C4A4_AC0B_46B9_B688_AFC5C1BF7F63_01_VALUE_HANDLE : Z := 0x001e.
Definition ATT_CHARACTERISTIC_4627C4A4_AC0C_46B9_B688_AFC5C1BF7F63_01_VALUE_HANDLE : Z := 0x0020.
Definition ATT_CHARACTERISTIC_ORG_BLUETOOTH_CHARACTERISTIC_BATTERY_LEVEL_01_VALUE_HANDLE : Z := 0x0023.
Definition ATT_CHARACTERISTIC_ORG_BLUETOOTH_CHARACTERISTIC_BATTERY_LEVEL_01_CLIENT_CONFIGURATION_HANDLE : Z := 0x0024.
Definition ATT_CHARACTERISTIC_ORG_BLUETOOTH_CHARACTERISTIC_MANUFACTURER_NAME_STRING_01_VALUE_HANDLE : Z := 0x0027.
Definition ATT_CHARACTERISTIC_ORG_BLUETOOTH_CHARACTERISTIC_MODEL_NUMBER_STRING_01_VALUE_HANDLE : Z := 0x0029.
Definition ATT_CHARACTERISTIC_ORG_BLUETOOTH_CHARACTERISTIC_SERIAL_NUMBER_STRING_01_VALUE_HANDLE : Z := 0x002b.
Definition ATT_CHARACTERISTIC_ORG_BLUETOOTH_CHARACTERISTIC_HARDWARE_REVISION_STRING_01_VALUE_HANDLE : Z := 0x002d.
Definition ATT_CHARACTERISTIC_ORG_BLUETOOTH_CHARACTERISTIC_FIRMWARE_REVISION_STRING_01_VALUE_HANDLE : Z := 0x002f.
Definition ATT_CHARACTERISTIC_ORG_BLUETOOTH_CHARACTERISTIC_SOFTWARE_REVISION_STRING_01_VALUE_HANDLE : Z := 0x0031.
Definition ATT_CHARACTERISTIC_ORG_BLUETOOTH_CHARACTERISTIC_SYSTEM_ID_01_VALUE_HANDLE : Z := 0x0033.
Definition ATT_CHARACTERISTIC_ORG_BLUETOOTH_CHARACTERISTIC_IEEE_11073_20601_REGULATORY_CERTIFICATION_DATA_LIST_01_VALUE_HANDLE : Z := 0x0035.
Definition ATT_CHARACTERISTIC_ORG_BLUETOOTH_CHARACTERISTIC_PNP_ID_01_VALUE_HANDLE : Z := 0x0037.

(** ** Reading the table *)

(** One attribute of the table. *)
Record att_entry := {
  att_flags : Z;
  att_handle : Z;
  att_uuid : list Z;
  att_value : list Z
}.

(** [buffer[pos] | (buffer[pos + 1] << 8)] *)
Definition little_endian_read_16 (buffer : list Z) (pos : nat) : Z :=
  Z.lor (default 0 (buffer !! pos)) (Z.shiftl (default 0 (buffer !! S pos)) 8).

(** Bits of the flags and of the properties of a characteristic, and the
    16-bit UUIDs of the declarations, as BTstack and the Bluetooth
    assigned numbers name them. *)
Definition ATT_PROPERTY_READ : Z := 0x02.
Definition ATT_PROPERTY_WRITE : Z := 0x08.
Definition ATT_PROPERTY_NOTIFY : Z := 0x10.
Definition ATT_PROPERTY_INDICATE : Z := 0x20.
Definition ATT_PROPERTY_UUID128 : Z := 0x200.
Definition GATT_PRIMARY_SERVICE_UUID : list Z := [0x00; 0x28].
Definition GATT_CHARACTERISTICS_UUID : list Z := [0x03; 0x28].
Definition GATT_CLIENT_CHARACTERISTICS_CONFIGURATION : list Z := [0x02; 0x29].

(** The attribute in the [size] bytes of [entry]: the UUID has 128 bits
    when [ATT_PROPERTY_UUID128] is set in the flags and 16 otherwise, and
    the value is what follows it. *)
Definition att_entry_of (entry : list Z) : option att_entry :=
  let flags := little_endian_read_16 entry 2 in
  let handle := little_endian_read_16 entry 4 in
  let uuid_len :=
    if Z.land flags ATT_PROPERTY_UUID128 =? 0 then 2%nat else 16%nat in
  if (length entry <? 6 + uuid_len)%nat then None
  else Some {| att_flags := flags;
               att_handle := handle;
               att_uuid := take uuid_len (drop 6 entry);
               att_value := drop (6 + uuid_len) entry |}.

(** The attributes from [p] on, up to the end marker, which has to be
    the last two bytes. *)
Fixpoint att_entries (fuel : nat) (p : list Z) : option (list att_entry) :=
  match fuel with
  | O => None
  | S fuel' =>
      let size := Z.to_nat (little_endian_read_16 p 0) in
      if (size =? 0)%nat then
        match p with
        | [0; 0] => Some []
        | _ => None
        end
      else if (length p <? size)%nat then None
      else
        e ← att_entry_of (take size p);
        es ← att_entries fuel' (drop size p);
        Some (e :: es)
  end.

(** The attributes of a table of format version 1. *)
Definition att_db (data : list Z) : option (list att_entry) :=
  match data with
  | version :: p => if version =? 1 then att_entries (length p) p else None
  | [] => None
  end.

Definition profile_attributes : list att_entry :=
  Eval vm_compute in default [] (att_db profile_data).

Definition att_with_handle (es : list att_entry) (h : Z) : option att_entry :=
  snd <$> list_find (fun e => att_handle e = h) es.

(** The three fields of the value of a characteristic declaration. *)
Definition characteristic_properties (e : att_entry) : Z :=
  default 0 (att_value e !! 0%nat).
Definition characteristic_value_handle (e : att_entry) : Z :=
  little_endian_read_16 (att_value e) 1.
Definition characteristic_uuid (e : att_entry) : list Z := drop 3 (att_value e).

Definition is_service (e : att_entry) : bool :=
  bool_decide (att_uuid e = GATT_PRIMARY_SERVICE_UUID).
Definition is_characteristic (e : att_entry) : bool :=
  bool_decide (att_uuid e = GATT_CHARACTERISTICS_UUID).
Definition is_client_configuration (e : att_entry) : bool :=
  bool_decide (att_uuid e = GATT_CLIENT_CHARACTERISTICS_CONFIGURATION).

(** 4627C4A4-AC[n]-46B9-B688-AFC5C1BF7F63 as the table stores it, the
    last byte first. *)
Definition bluepad32_uuid (n : Z) : list Z :=
  reverse [0x46; 0x27; 0xC4; 0xA4; 0xAC; n; 0x46; 0xB9;
           0xB6; 0x88; 0xAF; 0xC5; 0xC1; 0xBF; 0x7F; 0x63].

(** * Properties *)

Section Properties.

Context {headers : platform_headers}.

(** ** Records and stores *)

Lemma set_pending_queue_same st : set_pending_queue st (pending_queue_ st) = st.
Proof. by destruct st. Qed.

Lemma rejected_spec st i : invalid_device st i = true <-> rejected st i.
Proof.
  unfold invalid_device, rejected.
  rewrite !orb_true_iff, Z.ltb_lt, Z.geb_le, Z.eqb_eq. lia.
Qed.

Lemma accepted_spec st i :
  ~ rejected st i ->
  (i <? 0) || (i >=? CONFIG_BLUEPAD32_MAX_DEVICES) = false
  /\ (idx (controller_at st i) =? UNI_ARDUINO_GAMEPAD_INVALID) = false.
Proof.
  intros H. rewrite <- rejected_spec in H. unfold invalid_device in H.
  destruct ((i <? 0) || (i >=? CONFIG_BLUEPAD32_MAX_DEVICES)); simpl in H;
    [congruence|].
  destruct (idx (controller_at st i) =? UNI_ARDUINO_GAMEPAD_INVALID); simpl in H;
    [congruence | done].
Qed.

Lemma rejected_cases st i :
  rejected st i ->
  (i <? 0) || (i >=? CONFIG_BLUEPAD32_MAX_DEVICES) = true
  \/ ((i <? 0) || (i >=? CONFIG_BLUEPAD32_MAX_DEVICES) = false
      /\ (idx (controller_at st i) =? UNI_ARDUINO_GAMEPAD_INVALID) = true).
Proof.
  intros H. rewrite <- rejected_spec in H. unfold invalid_device in H.
  destruct ((i <? 0) || (i >=? CONFIG_BLUEPAD32_MAX_DEVICES)); simpl in H; auto.
Qed.

(** The guard decides the result of a command: rejected, or sent. *)
Lemma issue_rejected st c :
  rejected st (target c) -> issue st c = (UNI_ARDUINO_ERROR_INVALID_DEVICE, st).
Proof.
  intros H. apply rejected_cases in H.
  destruct c; simpl in *;
    unfold arduino_set_player_leds, arduino_set_lightbar_color,
      arduino_play_dual_rumble, arduino_disconnect_controller;
    destruct H as [-> | [-> ->]]; reflexivity.
Qed.

Lemma issue_accepted st c :
  ~ rejected st (target c) -> issue st c = send_request st (request_of c).
Proof.
  intros H. apply accepted_spec in H. destruct H as [H1 H2].
  destruct c; simpl in *;
    unfold arduino_set_player_leds, arduino_set_lightbar_color,
      arduino_play_dual_rumble, arduino_disconnect_controller;
    rewrite H1, H2; reflexivity.
Qed.

Lemma send_request_room st r :
  (length (pending_queue_ st) < MAX_PENDING_REQUESTS)%nat ->
  send_request st r
  = (UNI_ARDUINO_ERROR_SUCCESS, set_pending_queue st (pending_queue_ st ++ [r])).
Proof.
  intros H. unfold send_request, xQueueSendToBack.
  destruct (Nat.ltb_spec (length (pending_queue_ st)) MAX_PENDING_REQUESTS);
    [reflexivity | lia].
Qed.

Lemma send_request_full st r :
  (length (pending_queue_ st) >= MAX_PENDING_REQUESTS)%nat ->
  send_request st r = (UNI_ARDUINO_ERROR_SUCCESS, st).
Proof.
  intros H. unfold send_request, xQueueSendToBack.
  destruct (Nat.ltb_spec (length (pending_queue_ st)) MAX_PENDING_REQUESTS);
    [lia | by rewrite set_pending_queue_same].
Qed.

Lemma rejected_set_pending_queue st q i :
  rejected (set_pending_queue st q) i <-> rejected st i.
Proof. reflexivity. Qed.

Lemma issue_all_room cs : forall st,
  (length (pending_queue_ st) + length cs <= MAX_PENDING_REQUESTS)%nat ->
  Forall (fun c => ~ rejected st (target c)) cs ->
  issue_all st cs
  = (map (fun _ => UNI_ARDUINO_ERROR_SUCCESS) cs,
     set_pending_queue st (pending_queue_ st ++ map request_of cs)).
Proof.
  induction cs as [|c cs IH]; intros st Hlen Hok; simpl.
  - by rewrite app_nil_r, set_pending_queue_same.
  - inversion Hok as [|? ? Hc Hcs]; subst. simpl in Hlen.
    rewrite issue_accepted by done.
    rewrite send_request_room by lia.
    rewrite IH.
    + simpl. by rewrite <- app_assoc.
    + simpl. rewrite length_app. simpl. lia.
    + eapply Forall_impl; [exact Hcs|]. intros c' Hc'. simpl in Hc'.
      by rewrite rejected_set_pending_queue.
Qed.

(** ** The drain *)

Lemma add_calls_nil st : add_calls st [] = st.
Proof. destruct st. unfold add_calls. simpl. by rewrite app_nil_r. Qed.

Lemma add_calls_app st a b : add_calls (add_calls st a) b = add_calls st (a ++ b).
Proof. unfold add_calls. simpl. by rewrite app_assoc. Qed.

Lemma dispatch_request_add_calls st d dev request :
  dispatch_request st d dev request = add_calls st (request_calls d dev request).
Proof.
  unfold request_calls, dispatch_request.
  destruct (cmd request); simpl;
    repeat match goal with
      | |- context [if ?b then _ else _] => destruct b
      | |- context [let '(_, _) := ?p in _] => destruct p
      end; simpl; try reflexivity; by rewrite add_calls_nil.
Qed.

(** The loop touches the queue and the trace of calls only, and what it
    does is decided by the queue and the device table. *)
Lemma process_pending_requests_loop_shape q : forall devs,
  exists rem cs, forall st,
    g_devices st = devs ->
    process_pending_requests_loop q st = add_calls (set_pending_queue st rem) cs.
Proof.
  induction q as [|request q IH]; intros devs.
  - exists [], []. intros st _. simpl. by rewrite add_calls_nil.
  - destruct (list_find
                (fun dev => predicate_arduino_index dev (request_controller_idx request) = true)
                devs) as [[d dev]|] eqn:Hfind.
    + destruct (IH devs) as (rem & cs & Hloop).
      exists rem, (request_calls d dev request ++ cs). intros st Hdevs. simpl.
      unfold uni_hid_device_get_instance_with_predicate. simpl.
      rewrite Hdevs, Hfind, dispatch_request_add_calls.
      rewrite Hloop by (simpl; done).
      unfold add_calls, set_pending_queue. simpl. by rewrite app_assoc.
    + exists q, []. intros st Hdevs. simpl.
      unfold uni_hid_device_get_instance_with_predicate. simpl.
      rewrite Hdevs, Hfind. by rewrite add_calls_nil.
Qed.

Lemma process_pending_requests_shape st :
  exists rem cs,
    process_pending_requests st = add_calls (set_pending_queue st rem) cs.
Proof.
  destruct (process_pending_requests_loop_shape (pending_queue_ st) (g_devices st))
    as (rem & cs & H).
  exists rem, cs. by apply H.
Qed.

Lemma process_pending_requests_controllers st :
  controllers_ (process_pending_requests st) = controllers_ st.
Proof. destruct (process_pending_requests_shape st) as (? & ? & ->). done. Qed.

Lemma process_pending_requests_used st :
  used_controllers_ (process_pending_requests st) = used_controllers_ st.
Proof. destruct (process_pending_requests_shape st) as (? & ? & ->). done. Qed.

Lemma process_pending_requests_devices st :
  g_devices (process_pending_requests st) = g_devices st.
Proof. destruct (process_pending_requests_shape st) as (? & ? & ->). done. Qed.

(** One turn of the loop on a request that resolves. *)
Lemma process_pending_requests_resolved st request q d dev :
  pending_queue_ st = request :: q ->
  uni_hid_device_get_instance_with_predicate predicate_arduino_index
    (request_controller_idx request) st = Some (d, dev) ->
  process_pending_requests st
  = process_pending_requests
      (add_calls (set_pending_queue st q) (request_calls d dev request)).
Proof.
  intros Hq Hfind. unfold process_pending_requests. rewrite Hq. simpl.
  unfold uni_hid_device_get_instance_with_predicate in *. simpl.
  by rewrite Hfind, dispatch_request_add_calls.
Qed.

(** One turn of the loop on a request that does not resolve: the request
    is gone and the function has returned. *)
Lemma process_pending_requests_unresolved st request q :
  pending_queue_ st = request :: q ->
  uni_hid_device_get_instance_with_predicate predicate_arduino_index
    (request_controller_idx request) st = None ->
  process_pending_requests st = set_pending_queue st q.
Proof.
  intros Hq Hfind. unfold process_pending_requests. rewrite Hq. simpl.
  unfold uni_hid_device_get_instance_with_predicate in *. simpl.
  by rewrite Hfind.
Qed.

(** The calls of a drain come after the calls made before it, and do
    not depend on them. *)
Lemma process_pending_requests_add_calls st l :
  process_pending_requests (add_calls st l)
  = {| pending_queue_ := pending_queue_ (process_pending_requests st);
       controllers_ := controllers_ st;
       used_controllers_ := used_controllers_ st;
       g_devices := g_devices st;
       calls := calls st ++ l ++ drop (length (calls st)) (calls (process_pending_requests st)) |}.
Proof.
  unfold process_pending_requests.
  destruct (process_pending_requests_loop_shape (pending_queue_ st) (g_devices st))
    as (rem & cs & H).
  rewrite (H st) by done.
  change (pending_queue_ (add_calls st l)) with (pending_queue_ st).
  rewrite (H (add_calls st l)) by done.
  unfold add_calls, set_pending_queue. simpl.
  rewrite drop_app_length. by rewrite app_assoc.
Qed.

(** ** The slot table *)


Lemma count_assigned_insert cs : forall (i : nat) c c',
  cs !! i = Some c ->
  count_assigned (<[i := c']> cs)
  = count_assigned cs - (if assigned c then 1 else 0) + (if assigned c' then 1 else 0).
Proof.
  induction cs as [|c0 cs IH]; intros [|i] c c' H; simpl in *; try done.
  - injection H as ->. lia.
  - rewrite (IH i c c' H). lia.
Qed.

Lemma count_assigned_full (cs : list arduino_controller_t) :
  (forall (i : nat) c, cs !! i = Some c -> assigned c = true) ->
  count_assigned cs = Z.of_nat (length cs).
Proof.
  induction cs as [|c cs IH]; intros H; simpl; [done|].
  rewrite (H 0%nat c eq_refl). rewrite IH; [lia|].
  intros i c' Hi. exact (H (S i) c' Hi).
Qed.

Lemma assigned_true c : assigned c = true <-> idx c <> UNI_ARDUINO_GAMEPAD_INVALID.
Proof. unfold assigned. rewrite negb_true_iff, Z.eqb_neq. done. Qed.

Lemma assigned_false c : assigned c = false <-> idx c = UNI_ARDUINO_GAMEPAD_INVALID.
Proof. unfold assigned. rewrite negb_false_iff, Z.eqb_eq. done. Qed.

Lemma controller_at_lookup st i c :
  controllers_ st !! Z.to_nat i = Some c -> controller_at st i = c.
Proof. unfold controller_at. by intros ->. Qed.

Lemma controller_at_store st i c :
  (Z.to_nat i < length (controllers_ st))%nat ->
  controller_at (store_controller st i c) i = c.
Proof.
  intros H. unfold controller_at, store_controller. simpl.
  by rewrite list_lookup_insert_eq.
Qed.

Lemma store_controller_twice st i c c' :
  store_controller (store_controller st i c) i c' = store_controller st i c'.
Proof.
  unfold store_controller, set_controllers. simpl. by rewrite list_insert_insert_eq.
Qed.

(** The three compound stores of the source, on a slot inside the table. *)
Lemma ready_assign_eq st i d dev c :
  controllers_ st !! Z.to_nat i = Some c ->
  ready_assign st i d dev
  = {| pending_queue_ := pending_queue_ st;
       controllers_ :=
         <[Z.to_nat i := {| idx := i; properties := ready_properties dev;
                            data := data c; data_updated := data_updated c |}]>
           (controllers_ st);
       used_controllers_ := used_controllers_ st + 1;
       g_devices :=
         alter (fun dev' => set_arduino_instance dev' {| controller_idx := to_int8 i |})
           d (g_devices st);
       calls := calls st |}.
Proof.
  intros Hc. unfold ready_assign.
  assert (Hlt : (Z.to_nat i < length (controllers_ st))%nat)
    by (eapply lookup_lt_Some; exact Hc).
  rewrite (controller_at_lookup st i c Hc).
  rewrite controller_at_store by done.
  rewrite store_controller_twice. reflexivity.
Qed.

Lemma release_stores_eq st k :
  (Z.to_nat k < length (controllers_ st))%nat ->
  store_controller (store_controller st k zero_slot) k
    (set_idx (controller_at (store_controller st k zero_slot) k)
       UNI_ARDUINO_GAMEPAD_INVALID)
  = store_controller st k (set_idx zero_slot UNI_ARDUINO_GAMEPAD_INVALID).
Proof.
  intros H. rewrite controller_at_store by done. apply store_controller_twice.
Qed.

Lemma publish_stores_eq st k ctl :
  (Z.to_nat k < length (controllers_ st))%nat ->
  store_controller (store_controller st k (set_data (controller_at st k) ctl)) k
    (set_data_updated
       (controller_at (store_controller st k (set_data (controller_at st k) ctl)) k)
       true)
  = store_controller st k
      (set_data_updated (set_data (controller_at st k) ctl) true).
Proof.
  intros H. rewrite controller_at_store by done. apply store_controller_twice.
Qed.

(** The search of [arduino_on_device_ready]: it leaves the state alone
    when no slot from [i] on is free, and assigns the first free one
    otherwise. *)
Lemma arduino_on_device_ready_loop_spec d dev st : forall n i,
  (arduino_on_device_ready_loop n i d dev st = st
   /\ forall j, i <= j < i + Z.of_nat n ->
        idx (controller_at st j) <> UNI_ARDUINO_GAMEPAD_INVALID)
  \/ (exists k, i <= k < i + Z.of_nat n
        /\ idx (controller_at st k) = UNI_ARDUINO_GAMEPAD_INVALID
        /\ (forall j, i <= j < k ->
              idx (controller_at st j) <> UNI_ARDUINO_GAMEPAD_INVALID)
        /\ arduino_on_device_ready_loop n i d dev st = ready_assign st k d dev).
Proof.
  induction n as [|n IH]; intros i.
  - left. split; [done | lia].
  - cbn [arduino_on_device_ready_loop].
    destruct (Z.eqb_spec (idx (controller_at st i)) UNI_ARDUINO_GAMEPAD_INVALID)
      as [Hfree | Hused].
    + right. exists i. repeat split; try lia; done.
    + destruct (IH (i + 1)) as [[Hst Hall] | (k & Hk & Hfree & Hfirst & Hst)].
      * left. split; [done|]. intros j Hj.
        destruct (Z.eq_dec j i) as [-> | Hne]; [done | apply Hall; lia].
      * right. exists k. repeat split; try lia; try done.
        intros j Hj. destruct (Z.eq_dec j i) as [-> | Hne]; [done | apply Hfirst; lia].
Qed.

(** ** The invariant of the slot table *)

Lemma arduino_init_loop_spec n : forall i st done rest,
  0 <= i ->
  controllers_ st = done ++ rest ->
  length done = Z.to_nat i ->
  length rest = n ->
  arduino_init_loop n i st
  = set_controllers st
      (done ++ map (fun c => set_idx c UNI_ARDUINO_GAMEPAD_INVALID) rest).
Proof.
  induction n as [|n IH]; intros i st done rest Hi Hcs Hdone Hrest.
  - destruct rest; [|done]. simpl. rewrite <- Hcs. by destruct st.
  - destruct rest as [|c rest]; [done|]. simpl in Hrest.
    cbn [arduino_init_loop].
    assert (Hat : controller_at st i = c).
    { apply controller_at_lookup. rewrite Hcs, <- Hdone.
      rewrite lookup_app_r by lia. by rewrite Nat.sub_diag. }
    rewrite Hat.
    rewrite (IH (i + 1) _ (done ++ [set_idx c UNI_ARDUINO_GAMEPAD_INVALID]) rest).
    + unfold store_controller, set_controllers. simpl. by rewrite <- app_assoc.
    + lia.
    + unfold store_controller. simpl. rewrite Hcs, <- Hdone.
      replace (length done) with (length done + 0)%nat at 1 by lia.
      rewrite insert_app_r. simpl. by rewrite <- app_assoc.
    + rewrite length_app. simpl. lia.
    + lia.
Qed.

Lemma arduino_init_controllers st :
  controllers_ (arduino_init st)
  = replicate (Z.to_nat CONFIG_BLUEPAD32_MAX_DEVICES) free_slot.
Proof.
  unfold arduino_init.
  rewrite (arduino_init_loop_spec _ 0 _ []
             (replicate (Z.to_nat CONFIG_BLUEPAD32_MAX_DEVICES) zero_slot));
    try done.
  - simpl. change (map ?f ?l) with (f <$> l). by rewrite fmap_replicate.
  - by rewrite length_replicate.
Qed.

Lemma arduino_init_frame st :
  pending_queue_ (arduino_init st) = pending_queue_ st
  /\ used_controllers_ (arduino_init st) = used_controllers_ st
  /\ g_devices (arduino_init st) = g_devices st
  /\ calls (arduino_init st) = calls st.
Proof.
  unfold arduino_init.
  rewrite (arduino_init_loop_spec _ 0 _ []
             (replicate (Z.to_nat CONFIG_BLUEPAD32_MAX_DEVICES) zero_slot));
    try done.
  by rewrite length_replicate.
Qed.

Lemma connect_all_spec n : forall st,
  (n <= length (g_devices st))%nat ->
  pending_queue_ (connect_all n st) = pending_queue_ st
  /\ controllers_ (connect_all n st) = controllers_ st
  /\ used_controllers_ (connect_all n st) = used_controllers_ st
  /\ calls (connect_all n st) = calls st
  /\ length (g_devices (connect_all n st)) = length (g_devices st)
  /\ forall (d : nat) dev,
       (d < n)%nat -> g_devices (connect_all n st) !! d = Some dev ->
       controller_idx (platform_data dev) = UNI_ARDUINO_GAMEPAD_INVALID.
Proof.
  induction n as [|n IH]; intros st Hn.
  - simpl. repeat split; try done. lia.
  - destruct (IH st ltac:(lia)) as (Hq & Hc & Hu & Hcalls & Hlen & Hdev).
    cbn [connect_all]. unfold arduino_on_device_connected.
    destruct (lookup_lt_is_Some_2 (g_devices (connect_all n st)) n ltac:(lia))
      as [dev0 Hdev0].
    rewrite Hdev0. simpl.
    repeat split; try done.
    + by rewrite length_alter.
    + intros d dev Hd Hlook.
      destruct (decide (d = n)) as [-> | Hne].
      * rewrite list_lookup_alter_eq, Hdev0 in Hlook. simpl in Hlook.
        by injection Hlook as <-.
      * rewrite list_lookup_alter_ne in Hlook by done.
        apply (Hdev d dev); [lia | done].
Qed.

Lemma count_assigned_replicate_free n : count_assigned (replicate n free_slot) = 0.
Proof. induction n as [|n IH]; simpl; [done | by rewrite IH]. Qed.

Lemma initialized_controllers devs :
  controllers_ (initialized devs)
  = replicate (Z.to_nat CONFIG_BLUEPAD32_MAX_DEVICES) free_slot.
Proof.
  unfold initialized.
  destruct (arduino_init_frame (power_on devs)) as (_ & _ & Hd & _).
  destruct (connect_all_spec (length devs)
              (arduino_on_init_complete (arduino_init (power_on devs))))
    as (_ & -> & _); [simpl; by rewrite Hd|].
  apply arduino_init_controllers.
Qed.

Lemma wf_initialized devs : wf (initialized devs).
Proof.
  pose proof (initialized_controllers devs) as Hcs.
  unfold initialized in *.
  destruct (arduino_init_frame (power_on devs)) as (_ & Hu & Hd & _).
  destruct (connect_all_spec (length devs)
              (arduino_on_init_complete (arduino_init (power_on devs))))
    as (_ & _ & Hused & _ & Hlen & Hdev); [simpl; by rewrite Hd|].
  simpl in Hlen. rewrite Hd in Hlen. simpl in Hlen.
  unfold wf. rewrite Hcs, Hused. simpl. rewrite Hu. simpl.
  assert (Hall : forall (d : nat) dev,
             g_devices (connect_all (length devs)
               (arduino_on_init_complete (arduino_init (power_on devs)))) !! d
             = Some dev ->
             controller_idx (platform_data dev) = UNI_ARDUINO_GAMEPAD_INVALID).
  { intros d dev H. apply (Hdev d dev); [|done].
    apply lookup_lt_Some in H. lia. }
  split.
  - by rewrite length_replicate.
  - by rewrite count_assigned_replicate_free.
  - intros i c H. apply lookup_replicate in H as [-> _]. by left.
  - intros d dev H Hne. by apply Hall in H.
  - intros d d' dev dev' H _ Hne. by apply Hall in H.
Qed.

Lemma to_int8_small i : -128 <= i <= 127 -> to_int8 i = i.
Proof. intros H. unfold to_int8. rewrite Z.mod_small; lia. Qed.

(** A store that keeps the [idx] of the slot keeps the invariant. *)
Lemma slots_ok_store_same_idx cs used devs (k : nat) c c' :
  slots_ok cs used devs ->
  cs !! k = Some c -> idx c' = idx c ->
  slots_ok (<[k := c']> cs) used devs.
Proof.
  intros [Hlen Hused Hidx Hown Hdis] Hk Hsame.
  assert (Hlt : (k < length cs)%nat) by (eapply lookup_lt_Some; exact Hk).
  split.
  - by rewrite length_insert.
  - rewrite (count_assigned_insert cs k c c' Hk). unfold assigned.
    rewrite Hsame. lia.
  - intros i c0 Hi. destruct (decide (i = k)) as [-> | Hne].
    + rewrite list_lookup_insert_eq in Hi by done. injection Hi as <-.
      rewrite Hsame. by apply Hidx.
    + rewrite list_lookup_insert_ne in Hi by done. by apply Hidx.
  - intros d dev Hd Hne. destruct (Hown d dev Hd Hne) as (H0 & c0 & Hc0 & Hc0').
    split; [done|].
    destruct (decide (Z.to_nat (controller_idx (platform_data dev)) = k)) as [He | He].
    + exists c'. rewrite He, list_lookup_insert_eq by done. split; [done|].
      rewrite Hsame. rewrite He, Hk in Hc0. by injection Hc0 as ->.
    + exists c0. by rewrite list_lookup_insert_ne.
  - done.
Qed.

(** [arduino_on_device_connected] keeps the invariant. *)
Lemma slots_ok_connected cs used devs (d : nat) :
  slots_ok cs used devs ->
  slots_ok cs used
    (alter (fun dev => set_arduino_instance dev
                         {| controller_idx := UNI_ARDUINO_GAMEPAD_INVALID |}) d devs).
Proof.
  intros [Hlen Hused Hidx Hown Hdis].
  assert (Hold : forall (e : nat) dev,
    alter (fun dev => set_arduino_instance dev
             {| controller_idx := UNI_ARDUINO_GAMEPAD_INVALID |}) d devs !! e = Some dev ->
    controller_idx (platform_data dev) <> UNI_ARDUINO_GAMEPAD_INVALID ->
    devs !! e = Some dev).
  { intros e dev He Hne. destruct (decide (e = d)) as [-> | Hed].
    - rewrite list_lookup_alter_eq in He. destruct (devs !! d); [|done].
      simpl in He. injection He as <-. done.
    - by rewrite list_lookup_alter_ne in He. }
  split; try done.
  - intros e dev He Hne. apply (Hown e dev); [by apply Hold | done].
  - intros e e' dev dev' He He' Hne Heq.
    apply (Hdis e e' dev dev'); try done; [by apply Hold|].
    apply Hold; [done | congruence].
Qed.

(** The release of slot [k] by its device keeps the invariant. *)
Lemma slots_ok_release cs used devs (d : nat) dev :
  slots_ok cs used devs ->
  devs !! d = Some dev ->
  controller_idx (platform_data dev) <> UNI_ARDUINO_GAMEPAD_INVALID ->
  slots_ok (<[Z.to_nat (controller_idx (platform_data dev)) := free_slot]> cs)
    (used - 1)
    (alter (fun dev => set_arduino_instance dev
                         {| controller_idx := UNI_ARDUINO_GAMEPAD_INVALID |}) d devs).
Proof.
  intros Hok Hd Hne.
  pose proof Hok as [Hlen Hused Hidx Hown Hdis].
  destruct (Hown d dev Hd Hne) as (H0 & c & Hc & Hassigned).
  set (k := controller_idx (platform_data dev)) in *.
  assert (Hlt : (Z.to_nat k < length cs)%nat) by (eapply lookup_lt_Some; exact Hc).
  assert (Hold : forall (e : nat) dev0,
    alter (fun dev => set_arduino_instance dev
             {| controller_idx := UNI_ARDUINO_GAMEPAD_INVALID |}) d devs !! e = Some dev0 ->
    controller_idx (platform_data dev0) <> UNI_ARDUINO_GAMEPAD_INVALID ->
    devs !! e = Some dev0 /\ e <> d).
  { intros e dev0 He Hne0. destruct (decide (e = d)) as [-> | Hed].
    - rewrite list_lookup_alter_eq, Hd in He. simpl in He. injection He as <-. done.
    - by rewrite list_lookup_alter_ne in He. }
  split.
  - by rewrite length_insert.
  - rewrite (count_assigned_insert cs _ c free_slot Hc).
    apply assigned_true in Hassigned. rewrite Hassigned.
    change (assigned free_slot) with false. simpl. lia.
  - intros i c0 Hi. destruct (decide (i = Z.to_nat k)) as [-> | Hik].
    + rewrite list_lookup_insert_eq in Hi by done. injection Hi as <-. by left.
    + rewrite list_lookup_insert_ne in Hi by done. by apply Hidx.
  - intros e dev0 He Hne0. destruct (Hold e dev0 He Hne0) as [He0 Hed].
    destruct (Hown e dev0 He0 Hne0) as (H00 & c0 & Hc0 & Hc0').
    split; [done|]. exists c0. split; [|done].
    rewrite list_lookup_insert_ne; [done|].
    intros Heq. apply Hed. symmetry.
    apply (Hdis d e dev dev0); try done. fold k. lia.
  - intros e e' dev0 dev0' He He' Hne0 Heq.
    destruct (Hold e dev0 He Hne0) as [He0 _].
    destruct (Hold e' dev0' He') as [He0' _]; [congruence|].
    by apply (Hdis e e' dev0 dev0').
Qed.

(** The assignment of a free slot [k] to a device without a slot keeps
    the invariant, as long as [k] fits the [int8_t] of the instance. *)
Lemma slots_ok_assign cs used devs (d : nat) dev k c p :
  CONFIG_BLUEPAD32_MAX_DEVICES <= 127 ->
  slots_ok cs used devs ->
  devs !! d = Some dev ->
  0 <= k ->
  cs !! Z.to_nat k = Some c ->
  idx c = UNI_ARDUINO_GAMEPAD_INVALID ->
  slots_ok
    (<[Z.to_nat k := {| idx := k; properties := p;
                        data := data c; data_updated := data_updated c |}]> cs)
    (used + 1)
    (alter (fun dev => set_arduino_instance dev {| controller_idx := to_int8 k |})
       d devs).
Proof.
  intros HN Hok Hd H0 Hc Hfree.
  pose proof Hok as [Hlen Hused Hidx Hown Hdis].
  assert (Hlt : (Z.to_nat k < length cs)%nat) by (eapply lookup_lt_Some; exact Hc).
  assert (Hk8 : to_int8 k = k) by (apply to_int8_small; lia).
  rewrite Hk8.
  assert (Hnot : forall (e : nat) dev0,
    devs !! e = Some dev0 ->
    controller_idx (platform_data dev0) <> UNI_ARDUINO_GAMEPAD_INVALID ->
    Z.to_nat (controller_idx (platform_data dev0)) <> Z.to_nat k).
  { intros e dev0 He Hne0 Heq.
    destruct (Hown e dev0 He Hne0) as (_ & c0 & Hc0 & Hc0').
    rewrite Heq, Hc in Hc0. injection Hc0 as <-. done. }
  assert (Hold : forall (e : nat) dev0,
    alter (fun dev => set_arduino_instance dev {| controller_idx := k |}) d devs !! e
    = Some dev0 ->
    (e = d /\ controller_idx (platform_data dev0) = k)
    \/ (e <> d /\ devs !! e = Some dev0)).
  { intros e dev0 He. destruct (decide (e = d)) as [-> | Hed].
    - rewrite list_lookup_alter_eq, Hd in He. simpl in He. injection He as <-.
      left. done.
    - rewrite list_lookup_alter_ne in He by done. right. done. }
  split.
  - by rewrite length_insert.
  - rewrite (count_assigned_insert cs _ c _ Hc).
    apply assigned_false in Hfree. rewrite Hfree.
    unfold assigned. simpl.
    destruct (Z.eqb_spec k UNI_ARDUINO_GAMEPAD_INVALID) as [He|He];
      [unfold UNI_ARDUINO_GAMEPAD_INVALID in He; lia | simpl; lia].
  - intros i c0 Hi. destruct (decide (i = Z.to_nat k)) as [-> | Hik].
    + rewrite list_lookup_insert_eq in Hi by done. injection Hi as <-.
      right. simpl. lia.
    + rewrite list_lookup_insert_ne in Hi by done. by apply Hidx.
  - intros e dev0 He Hne0. destruct (Hold e dev0 He) as [[-> Hek] | [Hed He0]].
    + rewrite Hek. split; [done|]. eexists. rewrite list_lookup_insert_eq by done.
      split; [done|]. simpl. unfold UNI_ARDUINO_GAMEPAD_INVALID. lia.
    + destruct (Hown e dev0 He0 Hne0) as (H00 & c0 & Hc0 & Hc0').
      split; [done|]. exists c0. split; [|done].
      rewrite list_lookup_insert_ne; [done|]. intros Heq.
      by apply (Hnot e dev0 He0 Hne0).
  - intros e e' dev0 dev0' He He' Hne0 Heq.
    destruct (Hold e dev0 He) as [[-> Hek] | [Hed He0]];
      destruct (Hold e' dev0' He') as [[-> Hek'] | [Hed' He0']]; try done.
    + exfalso. apply (Hnot e' dev0' He0'); [congruence|]. congruence.
    + exfalso. apply (Hnot e dev0 He0 Hne0). congruence.
    + by apply (Hdis e e' dev0 dev0').
Qed.

(** ** The protocol-side callbacks, case by case *)

Lemma wf_add_calls st l : wf st -> wf (add_calls st l).
Proof. done. Qed.

Lemma wf_set_pending_queue st q : wf st -> wf (set_pending_queue st q).
Proof. done. Qed.

Lemma wf_slot st k :
  wf st -> 0 <= k < CONFIG_BLUEPAD32_MAX_DEVICES ->
  exists c, controllers_ st !! Z.to_nat k = Some c /\ controller_at st k = c.
Proof.
  intros [Hlen _ _ _ _] Hk.
  destruct (lookup_lt_is_Some_2 (controllers_ st) (Z.to_nat k)) as [c Hc]; [lia|].
  exists c. split; [done | by apply controller_at_lookup].
Qed.

(** The four ways through [arduino_on_device_ready]. *)
Lemma arduino_on_device_ready_cases st d dev :
  g_devices st !! d = Some dev ->
  let leds_call k :=
    if set_player_leds (report_parser dev)
    then [call_set_player_leds d (k + 1)] else [] in
  (used_controllers_ st = CONFIG_BLUEPAD32_MAX_DEVICES
   /\ arduino_on_device_ready st d = Some (UNI_ERROR_NO_SLOTS, st))
  \/ (used_controllers_ st <> CONFIG_BLUEPAD32_MAX_DEVICES
      /\ controller_idx (platform_data dev) <> UNI_ARDUINO_GAMEPAD_INVALID
      /\ arduino_on_device_ready st d = Some (UNI_ERROR_INVALID_CONTROLLER, st))
  \/ (used_controllers_ st <> CONFIG_BLUEPAD32_MAX_DEVICES
      /\ controller_idx (platform_data dev) = UNI_ARDUINO_GAMEPAD_INVALID
      /\ (forall j, 0 <= j < CONFIG_BLUEPAD32_MAX_DEVICES ->
            idx (controller_at st j) <> UNI_ARDUINO_GAMEPAD_INVALID)
      /\ arduino_on_device_ready st d
         = Some (UNI_ERROR_SUCCESS,
                 add_calls st (leds_call UNI_ARDUINO_GAMEPAD_INVALID)))
  \/ (used_controllers_ st <> CONFIG_BLUEPAD32_MAX_DEVICES
      /\ controller_idx (platform_data dev) = UNI_ARDUINO_GAMEPAD_INVALID
      /\ exists k, 0 <= k < CONFIG_BLUEPAD32_MAX_DEVICES
           /\ idx (controller_at st k) = UNI_ARDUINO_GAMEPAD_INVALID
           /\ (forall j, 0 <= j < k ->
                 idx (controller_at st j) <> UNI_ARDUINO_GAMEPAD_INVALID)
           /\ arduino_on_device_ready st d
              = Some (UNI_ERROR_SUCCESS,
                      add_calls (ready_assign st k d dev) (leds_call (to_int8 k)))).
Proof.
  intros Hd leds_call. unfold arduino_on_device_ready. rewrite Hd. simpl.
  destruct (Z.eqb_spec (used_controllers_ st) CONFIG_BLUEPAD32_MAX_DEVICES)
    as [Hfull | Hroom]; [by left|].
  right. unfold get_arduino_instance.
  destruct (Z.eqb_spec (controller_idx (platform_data dev)) UNI_ARDUINO_GAMEPAD_INVALID)
    as [Hins | Hins]; simpl; [|by left].
  right.
  destruct (arduino_on_device_ready_loop_spec d dev st
              (Z.to_nat CONFIG_BLUEPAD32_MAX_DEVICES) 0)
    as [[Hst Hall] | (k & Hk & Hfree & Hfirst & Hst)]; rewrite Hst.
  - left. repeat split; try done.
    + intros j Hj. apply Hall. lia.
    + rewrite Hd. simpl. unfold leds_call. rewrite Hins.
      destruct (set_player_leds (report_parser dev)); [done|].
      by rewrite add_calls_nil.
  - right. repeat split; try done. exists k. repeat split; try lia; try done.
    assert (Hd' : g_devices (ready_assign st k d dev) !! d
                  = Some (set_arduino_instance dev {| controller_idx := to_int8 k |})).
    { unfold ready_assign, store_instance. simpl.
      by rewrite list_lookup_alter_eq, Hd. }
    rewrite Hd'. simpl. unfold leds_call.
    destruct (set_player_leds (report_parser dev)); [done|].
    by rewrite add_calls_nil.
Qed.

Lemma arduino_on_device_ready_total st d :
  (d < length (g_devices st))%nat ->
  exists r st', arduino_on_device_ready st d = Some (r, st').
Proof.
  intros Hd. destruct (lookup_lt_is_Some_2 _ _ Hd) as [dev Hdev].
  destruct (arduino_on_device_ready_cases st d dev Hdev)
    as [[_ H] | [(_ & _ & H) | [(_ & _ & _ & H) | (_ & _ & k & _ & _ & _ & H)]]];
    eauto.
Qed.

Lemma wf_arduino_on_device_ready st d r st' :
  CONFIG_BLUEPAD32_MAX_DEVICES <= 127 ->
  wf st -> arduino_on_device_ready st d = Some (r, st') -> wf st'.
Proof.
  intros HN Hwf Hready.
  destruct (g_devices st !! d) as [dev|] eqn:Hdev;
    [|unfold arduino_on_device_ready in Hready; by rewrite Hdev in Hready].
  destruct (arduino_on_device_ready_cases st d dev Hdev)
    as [[_ H] | [(_ & _ & H) | [(_ & _ & _ & H) | (_ & _ & k & Hk & Hfree & _ & H)]]];
    rewrite H in Hready; injection Hready as <- <-; try done.
  apply wf_add_calls.
  destruct (wf_slot st k Hwf Hk) as (c & Hc & Hat). rewrite Hat in Hfree.
  rewrite (ready_assign_eq st k d dev c Hc). unfold wf. simpl.
  apply (slots_ok_assign _ _ _ d dev); try done. lia.
Qed.

(** In a well-formed state with a table of at least zero slots, success
    means that a slot was assigned: the first free one. *)
Lemma arduino_on_device_ready_success st d st' :
  0 <= CONFIG_BLUEPAD32_MAX_DEVICES <= 127 ->
  wf st ->
  arduino_on_device_ready st d = Some (UNI_ERROR_SUCCESS, st') ->
  exists dev k c,
    g_devices st !! d = Some dev
    /\ 0 <= k < CONFIG_BLUEPAD32_MAX_DEVICES
    /\ controllers_ st !! Z.to_nat k = Some c
    /\ idx c = UNI_ARDUINO_GAMEPAD_INVALID
    /\ (forall j, 0 <= j < k ->
          idx (controller_at st j) <> UNI_ARDUINO_GAMEPAD_INVALID)
    /\ st' = add_calls (ready_assign st k d dev)
               (if set_player_leds (report_parser dev)
                then [call_set_player_leds d (k + 1)] else []).
Proof.
  intros HN Hwf Hready.
  destruct (g_devices st !! d) as [dev|] eqn:Hdev;
    [|unfold arduino_on_device_ready in Hready; by rewrite Hdev in Hready].
  destruct (arduino_on_device_ready_cases st d dev Hdev)
    as [[_ H] | [(_ & _ & H) | [(Hroom & _ & Hall & H)
                               | (_ & _ & k & Hk & Hfree & Hfirst & H)]]];
    rewrite H in Hready; try done.
  - exfalso. apply Hroom. pose proof Hwf as [Hlen Hused _ _ _].
    rewrite Hused, count_assigned_full; [rewrite Hlen; lia|].
    intros i c Hi. apply assigned_true.
    assert (Hlt : (i < length (controllers_ st))%nat)
      by (eapply lookup_lt_Some; exact Hi).
    rewrite <- (controller_at_lookup st (Z.of_nat i) c)
      by (by rewrite Nat2Z.id).
    apply Hall. lia.
  - injection Hready as <-.
    destruct (wf_slot st k Hwf Hk) as (c & Hc & Hat). rewrite Hat in Hfree.
    exists dev, k, c. repeat split; try done; try lia.
    rewrite to_int8_small by lia. done.
Qed.

(** The three ways through [arduino_on_device_disconnected]. *)
Lemma arduino_on_device_disconnected_cases st d dev :
  g_devices st !! d = Some dev ->
  let k := controller_idx (platform_data dev) in
  (k = UNI_ARDUINO_GAMEPAD_INVALID /\ arduino_on_device_disconnected st d = Some st)
  \/ (k <> UNI_ARDUINO_GAMEPAD_INVALID
      /\ (k < 0 \/ k >= CONFIG_BLUEPAD32_MAX_DEVICES)
      /\ arduino_on_device_disconnected st d = Some st)
  \/ (k <> UNI_ARDUINO_GAMEPAD_INVALID
      /\ 0 <= k < CONFIG_BLUEPAD32_MAX_DEVICES
      /\ ((Z.to_nat k < length (controllers_ st))%nat ->
          arduino_on_device_disconnected st d
          = Some {| pending_queue_ := pending_queue_ st;
                    controllers_ := <[Z.to_nat k := free_slot]> (controllers_ st);
                    used_controllers_ := used_controllers_ st - 1;
                    g_devices :=
                      alter (fun dev => set_arduino_instance dev
                               {| controller_idx := UNI_ARDUINO_GAMEPAD_INVALID |})
                        d (g_devices st);
                    calls := calls st |})).
Proof.
  intros Hd k. unfold arduino_on_device_disconnected. rewrite Hd. simpl.
  unfold get_arduino_instance. fold k.
  destruct (Z.eqb_spec k UNI_ARDUINO_GAMEPAD_INVALID) as [Hk | Hk]; simpl;
    [by left|].
  right.
  destruct (Z.ltb_spec k 0) as [Hlo | Hlo]; simpl; [left; repeat split; [done|lia]|].
  destruct (Z.geb_spec k CONFIG_BLUEPAD32_MAX_DEVICES) as [Hhi | Hhi]; simpl;
    [left; repeat split; [done|lia]|].
  right. repeat split; try done; try lia.
  intros Hlt.
  rewrite (release_stores_eq (set_used_controllers st (used_controllers_ st - 1)) k)
    by done.
  reflexivity.
Qed.

Lemma arduino_on_device_disconnected_total st d :
  (d < length (g_devices st))%nat ->
  exists st', arduino_on_device_disconnected st d = Some st'.
Proof.
  intros Hd. destruct (lookup_lt_is_Some_2 _ _ Hd) as [dev Hdev].
  unfold arduino_on_device_disconnected. rewrite Hdev. simpl.
  repeat match goal with |- context [if ?b then _ else _] => destruct b end; eauto.
Qed.

Lemma wf_arduino_on_device_disconnected st d st' :
  wf st -> arduino_on_device_disconnected st d = Some st' -> wf st'.
Proof.
  intros Hwf Hdis.
  destruct (g_devices st !! d) as [dev|] eqn:Hdev;
    [|unfold arduino_on_device_disconnected in Hdis; by rewrite Hdev in Hdis].
  destruct (arduino_on_device_disconnected_cases st d dev Hdev)
    as [[_ H] | [(_ & _ & H) | (Hk & Hrange & H)]].
  - rewrite H in Hdis. by injection Hdis as <-.
  - rewrite H in Hdis. by injection Hdis as <-.
  - destruct (wf_slot st _ Hwf Hrange) as (c & Hc & _).
    rewrite H in Hdis by (eapply lookup_lt_Some; exact Hc).
    injection Hdis as <-. unfold wf. simpl.
    by apply (slots_ok_release _ _ _ d dev).
Qed.

Lemma wf_arduino_on_device_connected st d st' :
  wf st -> arduino_on_device_connected st d = Some st' -> wf st'.
Proof.
  intros Hwf Hcon. unfold arduino_on_device_connected in Hcon.
  destruct (g_devices st !! d); [|done]. simpl in Hcon. injection Hcon as <-.
  unfold wf. simpl. by apply slots_ok_connected.
Qed.

Lemma wf_store_controller st k c' :
  wf st -> 0 <= k < CONFIG_BLUEPAD32_MAX_DEVICES ->
  idx c' = idx (controller_at st k) ->
  wf (store_controller st k c').
Proof.
  intros Hwf Hk Hsame. destruct (wf_slot st k Hwf Hk) as (c & Hc & Hat).
  unfold wf. simpl. apply (slots_ok_store_same_idx _ _ _ _ c); try done.
  by rewrite <- Hat.
Qed.

Lemma wf_process_pending_requests st : wf st -> wf (process_pending_requests st).
Proof. destruct (process_pending_requests_shape st) as (? & ? & ->). done. Qed.

Lemma controller_at_process_pending_requests st k :
  controller_at (process_pending_requests st) k = controller_at st k.
Proof. unfold controller_at. by rewrite process_pending_requests_controllers. Qed.

(** The two ways through [arduino_on_controller_data], after the drain. *)
Lemma arduino_on_controller_data_cases st d dev ctl :
  g_devices st !! d = Some dev ->
  let k := controller_idx (platform_data dev) in
  let st1 := process_pending_requests st in
  ((k < 0 \/ k >= CONFIG_BLUEPAD32_MAX_DEVICES)
   /\ arduino_on_controller_data st d ctl = Some st1)
  \/ (0 <= k < CONFIG_BLUEPAD32_MAX_DEVICES
      /\ ((Z.to_nat k < length (controllers_ st))%nat ->
          arduino_on_controller_data st d ctl
          = Some (store_controller st1 k
                    (set_data_updated (set_data (controller_at st k) ctl) true)))).
Proof.
  intros Hd k st1. subst st1. unfold arduino_on_controller_data.
  rewrite process_pending_requests_devices, Hd. simpl.
  unfold get_arduino_instance. fold k.
  destruct (Z.ltb_spec k 0) as [Hlo | Hlo]; simpl; [left; split; [lia | done]|].
  destruct (Z.geb_spec k CONFIG_BLUEPAD32_MAX_DEVICES) as [Hhi | Hhi]; simpl;
    [left; split; [lia | done]|].
  right. split; [lia|]. intros Hlt.
  rewrite publish_stores_eq by (by rewrite process_pending_requests_controllers).
  by rewrite controller_at_process_pending_requests.
Qed.

Lemma arduino_on_controller_data_total st d ctl :
  (d < length (g_devices st))%nat ->
  exists st', arduino_on_controller_data st d ctl = Some st'.
Proof.
  intros Hd. destruct (lookup_lt_is_Some_2 _ _ Hd) as [dev Hdev].
  unfold arduino_on_controller_data.
  rewrite process_pending_requests_devices, Hdev. simpl.
  repeat match goal with |- context [if ?b then _ else _] => destruct b end; eauto.
Qed.

Lemma wf_arduino_on_controller_data st d ctl st' :
  wf st -> arduino_on_controller_data st d ctl = Some st' -> wf st'.
Proof.
  intros Hwf Hdata.
  destruct (g_devices st !! d) as [dev|] eqn:Hdev.
  - destruct (arduino_on_controller_data_cases st d dev ctl Hdev)
      as [[_ H] | [Hk H]].
    + rewrite H in Hdata. injection Hdata as <-. by apply wf_process_pending_requests.
    + destruct (wf_slot st _ Hwf Hk) as (c & Hc & _).
      rewrite H in Hdata by (eapply lookup_lt_Some; exact Hc).
      injection Hdata as <-.
      apply wf_store_controller; [by apply wf_process_pending_requests | done |].
      by rewrite controller_at_process_pending_requests.
  - unfold arduino_on_controller_data in Hdata.
    by rewrite process_pending_requests_devices, Hdev in Hdata.
Qed.

(** The three ways through the two snapshot readers. *)
Lemma arduino_get_controller_data_cases st i :
  (rejected st i
   /\ arduino_get_controller_data st i = (UNI_ARDUINO_ERROR_INVALID_DEVICE, None, st))
  \/ (~ rejected st i /\ data_updated (controller_at st i) = false
      /\ arduino_get_controller_data st i = (UNI_ARDUINO_ERROR_NO_DATA, None, st))
  \/ (~ rejected st i /\ data_updated (controller_at st i) = true
      /\ arduino_get_controller_data st i
         = (UNI_ARDUINO_ERROR_SUCCESS, Some (data (controller_at st i)),
            store_controller st i (set_data_updated (controller_at st i) false))).
Proof.
  unfold arduino_get_controller_data.
  destruct (invalid_device st i) eqn:Hinv.
  - left. apply rejected_spec in Hinv. split; [done|].
    destruct (rejected_cases st i Hinv) as [-> | [-> ->]]; done.
  - right. assert (Hacc : ~ rejected st i)
      by (rewrite <- rejected_spec; congruence).
    destruct (accepted_spec st i Hacc) as [-> ->].
    destruct (data_updated (controller_at st i)); [right | left]; done.
Qed.

Lemma arduino_get_gamepad_data_cases st i :
  (rejected st i
   /\ arduino_get_gamepad_data st i = (UNI_ARDUINO_ERROR_INVALID_DEVICE, None, st))
  \/ (~ rejected st i /\ data_updated (controller_at st i) = false
      /\ arduino_get_gamepad_data st i = (UNI_ARDUINO_ERROR_NO_DATA, None, st))
  \/ (~ rejected st i /\ data_updated (controller_at st i) = true
      /\ arduino_get_gamepad_data st i
         = (UNI_ARDUINO_ERROR_SUCCESS, Some (gamepad (data (controller_at st i))),
            store_controller st i (set_data_updated (controller_at st i) false))).
Proof.
  unfold arduino_get_gamepad_data.
  destruct (invalid_device st i) eqn:Hinv.
  - left. apply rejected_spec in Hinv. split; [done|].
    destruct (rejected_cases st i Hinv) as [-> | [-> ->]]; done.
  - right. assert (Hacc : ~ rejected st i)
      by (rewrite <- rejected_spec; congruence).
    destruct (accepted_spec st i Hacc) as [-> ->].
    destruct (data_updated (controller_at st i)); [right | left]; done.
Qed.

Lemma arduino_get_controller_properties_cases st i :
  (rejected st i
   /\ arduino_get_controller_properties st i
      = (UNI_ARDUINO_ERROR_INVALID_DEVICE, None, st))
  \/ (~ rejected st i
      /\ arduino_get_controller_properties st i
         = (UNI_ARDUINO_ERROR_SUCCESS, Some (properties (controller_at st i)), st)).
Proof.
  unfold arduino_get_controller_properties.
  destruct (invalid_device st i) eqn:Hinv.
  - left. apply rejected_spec in Hinv. split; [done|].
    destruct (rejected_cases st i Hinv) as [-> | [-> ->]]; done.
  - right. assert (Hacc : ~ rejected st i)
      by (rewrite <- rejected_spec; congruence).
    by destruct (accepted_spec st i Hacc) as [-> ->].
Qed.

Lemma not_rejected_range st i :
  ~ rejected st i -> 0 <= i < CONFIG_BLUEPAD32_MAX_DEVICES.
Proof. unfold rejected. lia. Qed.

Lemma issue_state st c :
  exists q, snd (issue st c) = set_pending_queue st q.
Proof.
  destruct (invalid_device st (target c)) eqn:Hinv.
  - apply rejected_spec in Hinv. rewrite issue_rejected by done.
    exists (pending_queue_ st). simpl. by rewrite set_pending_queue_same.
  - rewrite issue_accepted by (rewrite <- rejected_spec; congruence).
    unfold send_request. destruct (xQueueSendToBack _ _) as [b q]. by exists q.
Qed.

(** Every event keeps the invariant. *)
Lemma wf_step st e st' :
  CONFIG_BLUEPAD32_MAX_DEVICES <= 127 ->
  wf st -> step st e = Some st' -> wf st'.
Proof.
  intros HN Hwf Hstep. destruct e; simpl in Hstep.
  - by eapply wf_arduino_on_device_connected.
  - destruct (arduino_on_device_ready st d) as [[r st1]|] eqn:Hr; [|done].
    simpl in Hstep. injection Hstep as <-.
    by eapply wf_arduino_on_device_ready.
  - by eapply wf_arduino_on_device_disconnected.
  - by eapply wf_arduino_on_controller_data.
  - injection Hstep as <-.
    destruct (arduino_get_gamepad_data_cases st idx_)
      as [[_ ->] | [(_ & _ & ->) | (Hacc & _ & ->)]]; try done.
    apply wf_store_controller; [done | by eapply not_rejected_range | done].
  - injection Hstep as <-.
    destruct (arduino_get_controller_data_cases st idx_)
      as [[_ ->] | [(_ & _ & ->) | (Hacc & _ & ->)]]; try done.
    apply wf_store_controller; [done | by eapply not_rejected_range | done].
  - injection Hstep as <-.
    by destruct (arduino_get_controller_properties_cases st idx_)
      as [[_ ->] | [_ ->]].
  - injection Hstep as <-. unfold arduino_get_gamepad_properties.
    by destruct (arduino_get_controller_properties_cases st idx_)
      as [[_ ->] | [_ ->]].
  - injection Hstep as <-.
    destruct (issue_state st (SetPlayerLEDs idx_ leds_)) as [q Hq].
    simpl in Hq. by rewrite Hq.
  - injection Hstep as <-.
    destruct (issue_state st (SetLightbarColor idx_ r g b)) as [q Hq].
    simpl in Hq. by rewrite Hq.
  - injection Hstep as <-.
    destruct (issue_state st
                (Rumble idx_ delayed_start_ms duration_ms weak strong)) as [q Hq].
    simpl in Hq. by rewrite Hq.
  - injection Hstep as <-.
    destruct (issue_state st (Disconnect idx_)) as [q Hq].
    simpl in Hq. by rewrite Hq.
Qed.

Lemma wf_run evs : forall st st',
  CONFIG_BLUEPAD32_MAX_DEVICES <= 127 ->
  wf st -> run st evs = Some st' -> wf st'.
Proof.
  induction evs as [|e evs IH]; intros st st' HN Hwf Hrun; simpl in Hrun.
  - by injection Hrun as <-.
  - destruct (step st e) as [st1|] eqn:Hstep; [|done]. simpl in Hrun.
    apply (IH st1 st' HN); [|done]. by eapply wf_step.
Qed.

(** ** Runs are defined on events inside the device table *)

Lemma ready_assign_devices_length st k d dev :
  length (g_devices (ready_assign st k d dev)) = length (g_devices st).
Proof. unfold ready_assign, store_instance. simpl. by rewrite length_alter. Qed.

Lemma step_devices_length st e st' :
  step st e = Some st' -> length (g_devices st') = length (g_devices st).
Proof.
  intros Hstep. destruct e; simpl in Hstep.
  - unfold arduino_on_device_connected in Hstep.
    destruct (g_devices st !! d); [|done]. simpl in Hstep. injection Hstep as <-.
    unfold store_instance. simpl. by rewrite length_alter.
  - destruct (g_devices st !! d) as [dev|] eqn:Hdev;
      [|unfold arduino_on_device_ready in Hstep; by rewrite Hdev in Hstep].
    destruct (arduino_on_device_ready_cases st d dev Hdev)
      as [[_ H] | [(_ & _ & H) | [(_ & _ & _ & H) | (_ & _ & k & _ & _ & _ & H)]]];
      rewrite H in Hstep; simpl in Hstep; injection Hstep as <-; try done.
    unfold add_calls. cbn [g_devices]. apply ready_assign_devices_length.
  - unfold arduino_on_device_disconnected in Hstep.
    destruct (g_devices st !! d); [|done]. simpl in Hstep.
    repeat match type of Hstep with
      | context [if ?b then _ else _] => destruct b
      end; injection Hstep as <-; try done.
    unfold store_instance. simpl. by rewrite length_alter.
  - unfold arduino_on_controller_data in Hstep.
    rewrite process_pending_requests_devices in Hstep.
    destruct (g_devices st !! d); [|done]. simpl in Hstep.
    repeat match type of Hstep with
      | context [if ?b then _ else _] => destruct b
      end; injection Hstep as <-; simpl;
      by rewrite process_pending_requests_devices.
  - injection Hstep as <-.
    by destruct (arduino_get_gamepad_data_cases st idx_)
      as [[_ ->] | [(_ & _ & ->) | (_ & _ & ->)]].
  - injection Hstep as <-.
    by destruct (arduino_get_controller_data_cases st idx_)
      as [[_ ->] | [(_ & _ & ->) | (_ & _ & ->)]].
  - injection Hstep as <-.
    by destruct (arduino_get_controller_properties_cases st idx_)
      as [[_ ->] | [_ ->]].
  - injection Hstep as <-. unfold arduino_get_gamepad_properties.
    by destruct (arduino_get_controller_properties_cases st idx_)
      as [[_ ->] | [_ ->]].
  - injection Hstep as <-.
    destruct (issue_state st (SetPlayerLEDs idx_ leds_)) as [q Hq].
    simpl in Hq. by rewrite Hq.
  - injection Hstep as <-.
    destruct (issue_state st (SetLightbarColor idx_ r g b)) as [q Hq].
    simpl in Hq. by rewrite Hq.
  - injection Hstep as <-.
    destruct (issue_state st
                (Rumble idx_ delayed_start_ms duration_ms weak strong)) as [q Hq].
    simpl in Hq. by rewrite Hq.
  - injection Hstep as <-.
    destruct (issue_state st (Disconnect idx_)) as [q Hq].
    simpl in Hq. by rewrite Hq.
Qed.

Lemma step_total st e :
  event_in_table (length (g_devices st)) e -> exists st', step st e = Some st'.
Proof.
  intros He. destruct e; simpl in *; eauto.
  - unfold arduino_on_device_connected.
    destruct (lookup_lt_is_Some_2 _ _ He) as [dev ->]. simpl. eauto.
  - destruct (arduino_on_device_ready_total st d He) as (r & st' & ->).
    simpl. eauto.
  - by apply arduino_on_device_disconnected_total.
  - by apply arduino_on_controller_data_total.
Qed.

Lemma run_total evs : forall st,
  Forall (event_in_table (length (g_devices st))) evs ->
  exists st', run st evs = Some st'.
Proof.
  induction evs as [|e evs IH]; intros st Hevs; simpl; [eauto|].
  inversion Hevs as [|? ? He Hrest]; subst.
  destruct (step_total st e He) as [st1 Hstep]. rewrite Hstep. simpl.
  apply IH. by rewrite (step_devices_length st e st1 Hstep).
Qed.

Lemma initialized_devices_length devs :
  length (g_devices (initialized devs)) = length devs.
Proof.
  unfold initialized.
  destruct (arduino_init_frame (power_on devs)) as (_ & _ & Hd & _).
  destruct (connect_all_spec (length devs)
              (arduino_on_init_complete (arduino_init (power_on devs))))
    as (_ & _ & _ & _ & -> & _); simpl; by rewrite Hd.
Qed.

(** ** The identity of an assigned slot *)

(** An event leaves the [idx] and the [properties] of an assigned slot as
    they are, unless it is the disconnection of the device that holds the
    slot, which frees it. *)
Lemma step_keeps_identity st e st' (i : nat) c :
  CONFIG_BLUEPAD32_MAX_DEVICES <= 127 ->
  wf st -> step st e = Some st' ->
  controllers_ st !! i = Some c ->
  idx c <> UNI_ARDUINO_GAMEPAD_INVALID ->
  exists c',
    controllers_ st' !! i = Some c'
    /\ ((idx c' = idx c /\ properties c' = properties c)
        \/ (c' = free_slot
            /\ exists d, e = on_device_disconnected d
                         /\ instance_idx st d = Some (Z.of_nat i))).
Proof.
  intros HN Hwf Hstep Hi Hassigned.
  assert (Hlt : (i < length (controllers_ st))%nat)
    by (eapply lookup_lt_Some; exact Hi).
  assert (Hsame : forall st1, controllers_ st1 = controllers_ st ->
            exists c', controllers_ st1 !! i = Some c'
              /\ ((idx c' = idx c /\ properties c' = properties c)
                  \/ (c' = free_slot
                      /\ exists d, e = on_device_disconnected d
                                   /\ instance_idx st d = Some (Z.of_nat i)))).
  { intros st1 ->. exists c. split; [done|]. by left. }
  assert (Hflag : forall st0 k b,
            controllers_ st0 = controllers_ st ->
            exists c', controllers_
                         (store_controller st0 k
                            (set_data_updated (controller_at st k) b)) !! i = Some c'
              /\ ((idx c' = idx c /\ properties c' = properties c)
                  \/ (c' = free_slot
                      /\ exists d, e = on_device_disconnected d
                                   /\ instance_idx st d = Some (Z.of_nat i)))).
  { intros st0 k b Hst0. unfold store_controller. simpl. rewrite Hst0.
    destruct (decide (Z.to_nat k = i)) as [Hk | Hk].
    - eexists. rewrite Hk, list_lookup_insert_eq by done. split; [done|]. left.
      rewrite <- Hk in Hi. by rewrite (controller_at_lookup st k c Hi).
    - exists c. rewrite list_lookup_insert_ne by done. split; [done|]. by left. }
  destruct e; simpl in Hstep.
  - unfold arduino_on_device_connected in Hstep.
    destruct (g_devices st !! d); [|done]. simpl in Hstep. injection Hstep as <-.
    by apply Hsame.
  - destruct (g_devices st !! d) as [dev|] eqn:Hdev;
      [|unfold arduino_on_device_ready in Hstep; by rewrite Hdev in Hstep].
    destruct (arduino_on_device_ready_cases st d dev Hdev)
      as [[_ H] | [(_ & _ & H) | [(_ & _ & _ & H) | (_ & _ & k & Hk & Hfree & _ & H)]]];
      rewrite H in Hstep; simpl in Hstep; injection Hstep as <-;
      try by apply Hsame.
    destruct (wf_slot st k Hwf Hk) as (ck & Hck & Hat). rewrite Hat in Hfree.
    rewrite (ready_assign_eq st k d dev ck Hck). simpl.
    exists c. split; [|by left].
    rewrite list_lookup_insert_ne; [done|]. intros Heq.
    rewrite Heq, Hi in Hck. injection Hck as ->. done.
  - destruct (g_devices st !! d) as [dev|] eqn:Hdev;
      [|unfold arduino_on_device_disconnected in Hstep; by rewrite Hdev in Hstep].
    destruct (arduino_on_device_disconnected_cases st d dev Hdev)
      as [[_ H] | [(_ & _ & H) | (Hk & Hrange & H)]].
    + rewrite H in Hstep. injection Hstep as <-. by apply Hsame.
    + rewrite H in Hstep. injection Hstep as <-. by apply Hsame.
    + destruct (wf_slot st _ Hwf Hrange) as (ck & Hck & _).
      rewrite H in Hstep by (eapply lookup_lt_Some; exact Hck).
      injection Hstep as <-. simpl.
      destruct (decide (Z.to_nat (controller_idx (platform_data dev)) = i))
        as [Heq | Hne].
      * exists free_slot. rewrite Heq, list_lookup_insert_eq by done.
        split; [done|]. right. split; [done|]. exists d. split; [done|].
        unfold instance_idx, get_arduino_instance. rewrite Hdev. simpl.
        f_equal. lia.
      * exists c. rewrite list_lookup_insert_ne by done. split; [done|]. by left.
  - destruct (g_devices st !! d) as [dev|] eqn:Hdev.
    + destruct (arduino_on_controller_data_cases st d dev ctl Hdev)
        as [[_ H] | [Hk H]].
      * rewrite H in Hstep. injection Hstep as <-.
        apply Hsame. apply process_pending_requests_controllers.
      * destruct (wf_slot st _ Hwf Hk) as (ck & Hck & Hat).
        rewrite H in Hstep by (eapply lookup_lt_Some; exact Hck).
        injection Hstep as <-. unfold store_controller. simpl.
        rewrite process_pending_requests_controllers.
        destruct (decide (Z.to_nat (controller_idx (platform_data dev)) = i))
          as [Heq | Hne].
        -- eexists. rewrite Heq, list_lookup_insert_eq by done.
           split; [done|]. left. rewrite Hat. simpl.
           rewrite Heq, Hi in Hck. by injection Hck as ->.
        -- exists c. rewrite list_lookup_insert_ne by done. split; [done|]. by left.
    + unfold arduino_on_controller_data in Hstep.
      by rewrite process_pending_requests_devices, Hdev in Hstep.
  - injection Hstep as <-.
    destruct (arduino_get_gamepad_data_cases st idx_)
      as [[_ ->] | [(_ & _ & ->) | (_ & _ & ->)]]; simpl;
      [by apply Hsame | by apply Hsame | by apply Hflag].
  - injection Hstep as <-.
    destruct (arduino_get_controller_data_cases st idx_)
      as [[_ ->] | [(_ & _ & ->) | (_ & _ & ->)]]; simpl;
      [by apply Hsame | by apply Hsame | by apply Hflag].
  - injection Hstep as <-.
    destruct (arduino_get_controller_properties_cases st idx_)
      as [[_ ->] | [_ ->]]; by apply Hsame.
  - injection Hstep as <-. unfold arduino_get_gamepad_properties.
    destruct (arduino_get_controller_properties_cases st idx_)
      as [[_ ->] | [_ ->]]; by apply Hsame.
  - injection Hstep as <-.
    destruct (issue_state st (SetPlayerLEDs idx_ leds_)) as [q Hq].
    simpl in Hq. rewrite Hq. by apply Hsame.
  - injection Hstep as <-.
    destruct (issue_state st (SetLightbarColor idx_ r g b)) as [q Hq].
    simpl in Hq. rewrite Hq. by apply Hsame.
  - injection Hstep as <-.
    destruct (issue_state st
                (Rumble idx_ delayed_start_ms duration_ms weak strong)) as [q Hq].
    simpl in Hq. rewrite Hq. by apply Hsame.
  - injection Hstep as <-.
    destruct (issue_state st (Disconnect idx_)) as [q Hq].
    simpl in Hq. rewrite Hq. by apply Hsame.
Qed.

(** What a successful assignment stores as the identity of the slot:
    every field is the device's, except [p_subtype], which is the
    device's type. *)
Lemma ready_properties_fields dev :
  p_btaddr (ready_properties dev) = conn_btaddr dev
  /\ p_type (ready_properties dev) = controller_type dev
  /\ p_subtype (ready_properties dev) = controller_type dev
  /\ p_vendor_id (ready_properties dev) = vendor_id dev
  /\ p_product_id (ready_properties dev) = product_id dev
  /\ p_flags (ready_properties dev)
     = Z.lor
         (Z.lor
            (if set_player_leds (report_parser dev)
             then ARDUINO_PROPERTY_FLAG_PLAYER_LEDS else 0)
            (if play_dual_rumble (report_parser dev)
             then ARDUINO_PROPERTY_FLAG_RUMBLE else 0))
         (if set_lightbar_color (report_parser dev)
          then ARDUINO_PROPERTY_FLAG_PLAYER_LIGHTBAR else 0).
Proof. done. Qed.

(** * The specification, statement by statement *)

(** C6.  Each application-facing function returns
    [UNI_ARDUINO_ERROR_INVALID_DEVICE] exactly when the index is outside
    [0, N) or the slot is unassigned, and then it leaves the state as it
    was, writes nothing through its out-parameter and sends no request.
    The four commands are taken through [issue], at their own target. *)
Theorem C6_invalid_device_iff_rejected (st : bridge) (i : Z) (c : command) :
  ((arduino_get_gamepad_data st i).1.1 = UNI_ARDUINO_ERROR_INVALID_DEVICE
   <-> rejected st i)
  /\ ((arduino_get_controller_data st i).1.1 = UNI_ARDUINO_ERROR_INVALID_DEVICE
      <-> rejected st i)
  /\ ((arduino_get_controller_properties st i).1.1 = UNI_ARDUINO_ERROR_INVALID_DEVICE
      <-> rejected st i)
  /\ ((arduino_get_gamepad_properties st i).1.1 = UNI_ARDUINO_ERROR_INVALID_DEVICE
      <-> rejected st i)
  /\ ((issue st c).1 = UNI_ARDUINO_ERROR_INVALID_DEVICE <-> rejected st (target c))
  /\ (rejected st i ->
      arduino_get_gamepad_data st i = (UNI_ARDUINO_ERROR_INVALID_DEVICE, None, st)
      /\ arduino_get_controller_data st i
         = (UNI_ARDUINO_ERROR_INVALID_DEVICE, None, st)
      /\ arduino_get_controller_properties st i
         = (UNI_ARDUINO_ERROR_INVALID_DEVICE, None, st)
      /\ arduino_get_gamepad_properties st i
         = (UNI_ARDUINO_ERROR_INVALID_DEVICE, None, st))
  /\ (rejected st (target c) ->
      issue st c = (UNI_ARDUINO_ERROR_INVALID_DEVICE, st)).
Proof.
  assert (Hgp : ((arduino_get_gamepad_data st i).1.1 = UNI_ARDUINO_ERROR_INVALID_DEVICE
                 <-> rejected st i)
                /\ (rejected st i ->
                    arduino_get_gamepad_data st i
                    = (UNI_ARDUINO_ERROR_INVALID_DEVICE, None, st))).
  { destruct (arduino_get_gamepad_data_cases st i)
      as [[Hr ->] | [(Hr & _ & ->) | (Hr & _ & ->)]]; simpl;
      (split; [split|]); intros; done. }
  assert (Hcd : ((arduino_get_controller_data st i).1.1
                 = UNI_ARDUINO_ERROR_INVALID_DEVICE <-> rejected st i)
                /\ (rejected st i ->
                    arduino_get_controller_data st i
                    = (UNI_ARDUINO_ERROR_INVALID_DEVICE, None, st))).
  { destruct (arduino_get_controller_data_cases st i)
      as [[Hr ->] | [(Hr & _ & ->) | (Hr & _ & ->)]]; simpl;
      (split; [split|]); intros; done. }
  assert (Hcp : ((arduino_get_controller_properties st i).1.1
                 = UNI_ARDUINO_ERROR_INVALID_DEVICE <-> rejected st i)
                /\ (rejected st i ->
                    arduino_get_controller_properties st i
                    = (UNI_ARDUINO_ERROR_INVALID_DEVICE, None, st))).
  { destruct (arduino_get_controller_properties_cases st i)
      as [[Hr ->] | [Hr ->]]; simpl; (split; [split|]); intros; done. }
  assert (Hcmd : ((issue st c).1 = UNI_ARDUINO_ERROR_INVALID_DEVICE
                  <-> rejected st (target c))
                 /\ (rejected st (target c) ->
                     issue st c = (UNI_ARDUINO_ERROR_INVALID_DEVICE, st))).
  { split; [split|]; intros Hx.
    - destruct (invalid_device st (target c)) eqn:Hinv; [by apply rejected_spec|].
      rewrite issue_accepted in Hx by (rewrite <- rejected_spec; congruence).
      unfold send_request in Hx. by destruct (xQueueSendToBack _ _).
    - by rewrite issue_rejected.
    - by apply issue_rejected. }
  unfold arduino_get_gamepad_properties.
  destruct Hgp as [Hgp1 Hgp2], Hcd as [Hcd1 Hcd2], Hcp as [Hcp1 Hcp2],
    Hcmd as [Hcmd1 Hcmd2].
  split; [exact Hgp1|]. split; [exact Hcd1|]. split; [exact Hcp1|].
  split; [exact Hcp1|]. split; [exact Hcmd1|].
  split; [|exact Hcmd2].
  intros Hr. auto.
Qed.

(** C2, amended.  A command on an in-range, assigned slot, issued while
    the queue holds its capacity of 16 requests, does not block and does
    not grow the queue: the request is dropped and the state is as
    before.  The caller is told [UNI_ARDUINO_ERROR_SUCCESS], the code of
    an accepted request.  Once a drain has left the queue empty, up to 16
    commands on assigned slots are accepted, in order. *)
Theorem C2_full_queue_drops_request_and_reports_success (st : bridge) (c : command) :
  ~ rejected st (target c) ->
  length (pending_queue_ st) = MAX_PENDING_REQUESTS ->
  issue st c = (UNI_ARDUINO_ERROR_SUCCESS, st)
  /\ forall cs,
       pending_queue_ (process_pending_requests st) = [] ->
       (length cs <= MAX_PENDING_REQUESTS)%nat ->
       Forall (fun c' => ~ rejected st (target c')) cs ->
       issue_all (process_pending_requests st) cs
       = (map (fun _ => UNI_ARDUINO_ERROR_SUCCESS) cs,
          set_pending_queue (process_pending_requests st) (map request_of cs)).
Proof.
  intros Hacc Hfull. split.
  - rewrite issue_accepted by done. apply send_request_full. lia.
  - intros cs Hempty Hlen Hcs.
    rewrite issue_all_room.
    + by rewrite Hempty.
    + rewrite Hempty. simpl. lia.
    + eapply Forall_impl; [exact Hcs|]. intros c' Hc'. simpl in *.
      unfold rejected in *. by rewrite controller_at_process_pending_requests.
Qed.

(** C9, amended.  [arduino_on_device_ready] on a device whose instance
    already holds a slot changes nothing: no slot, not the counter, no
    call.  It fails with [UNI_ERROR_INVALID_CONTROLLER] while fewer than
    N slots are in use, and with [UNI_ERROR_NO_SLOTS] when all N are,
    because the test of the counter comes first. *)
Theorem C9_ready_on_assigned_device_is_noop (st : bridge) (d : nat)
  (dev : uni_hid_device_t) :
  g_devices st !! d = Some dev ->
  controller_idx (platform_data dev) <> UNI_ARDUINO_GAMEPAD_INVALID ->
  arduino_on_device_ready st d
  = Some (if used_controllers_ st =? CONFIG_BLUEPAD32_MAX_DEVICES
          then UNI_ERROR_NO_SLOTS else UNI_ERROR_INVALID_CONTROLLER, st).
Proof.
  intros Hd Hins.
  destruct (arduino_on_device_ready_cases st d dev Hd)
    as [[Hu H] | [(Hu & _ & H) | [(_ & Hi & _) | (_ & Hi & _)]]]; try done.
  - rewrite H. by apply Z.eqb_eq in Hu as ->.
  - rewrite H. by apply Z.eqb_neq in Hu as ->.
Qed.

(** C7.  In a drain, a request at the head of the queue that resolves to
    the device [d] makes exactly one call of the capability its command
    names, with the arguments that were enqueued, when the function
    pointer of that capability is non-null, and no call at all when it
    is null; [rest] is what the drain of the remaining queue does, with
    or without this request in front. *)
Theorem C7_drain_dispatches_to_advertised_capability (st : bridge)
  (request : pending_request_t) (q : list pending_request_t) (d : nat)
  (dev : uni_hid_device_t) :
  pending_queue_ st = request :: q ->
  uni_hid_device_get_instance_with_predicate predicate_arduino_index
    (request_controller_idx request) st = Some (d, dev) ->
  exists rest,
    calls (process_pending_requests (set_pending_queue st q)) = calls st ++ rest
    /\ pending_queue_ (process_pending_requests st)
       = pending_queue_ (process_pending_requests (set_pending_queue st q))
    /\ (cmd request = PENDING_REQUEST_CMD_LIGHTBAR_COLOR ->
        calls (process_pending_requests st)
        = calls st
          ++ (if set_lightbar_color (report_parser dev)
              then [call_set_lightbar_color d (leds request).1.1
                      (leds request).1.2 (leds request).2]
              else [])
          ++ rest)
    /\ (cmd request = PENDING_REQUEST_CMD_PLAYER_LEDS ->
        calls (process_pending_requests st)
        = calls st
          ++ (if set_player_leds (report_parser dev)
              then [call_set_player_leds d (player_led request)] else [])
          ++ rest)
    /\ (cmd request = PENDING_REQUEST_CMD_RUMBLE ->
        calls (process_pending_requests st)
        = calls st
          ++ (if play_dual_rumble (report_parser dev)
              then [call_play_dual_rumble d (rumble_delayed_start request)
                      (rumble_duration request) (rumble_weak_magnitude request)
                      (rumble_strong_magnitude request)]
              else [])
          ++ rest).
Proof.
  intros Hq Hfind.
  rewrite (process_pending_requests_resolved st request q d dev Hq Hfind).
  rewrite process_pending_requests_add_calls.
  destruct (process_pending_requests_shape (set_pending_queue st q))
    as (rem & cs & Hshape).
  rewrite Hshape. simpl. rewrite drop_app_length.
  exists cs. repeat split; intros Hcmd; do 2 f_equal;
    unfold request_calls, dispatch_request; rewrite Hcmd;
    destruct (leds request) as [[r g] b]; simpl;
    repeat match goal with |- context [if ?b then _ else _] => destruct b end;
    reflexivity.
Qed.

(** C3.  On an assigned slot [s] of the table, a read of the snapshot
    right after [arduino_on_controller_data] has stored [X] returns
    exactly [X] with [UNI_ARDUINO_ERROR_SUCCESS] and clears
    [data_updated]; the read after that returns
    [UNI_ARDUINO_ERROR_NO_DATA], writes nothing and leaves the state as it
    is.  [arduino_get_gamepad_data] does the same with the [gamepad]
    member of [X]. *)
Theorem C3_publish_then_consume_once (st : bridge) (d : nat)
  (dev : uni_hid_device_t) (X : uni_controller_t) (s : Z) :
  g_devices st !! d = Some dev ->
  controller_idx (platform_data dev) = s ->
  0 <= s < CONFIG_BLUEPAD32_MAX_DEVICES ->
  length (controllers_ st) = Z.to_nat CONFIG_BLUEPAD32_MAX_DEVICES ->
  idx (controller_at st s) <> UNI_ARDUINO_GAMEPAD_INVALID ->
  exists st1 st2,
    arduino_on_controller_data st d X = Some st1
    /\ arduino_get_controller_data st1 s = (UNI_ARDUINO_ERROR_SUCCESS, Some X, st2)
    /\ arduino_get_gamepad_data st1 s
       = (UNI_ARDUINO_ERROR_SUCCESS, Some (gamepad X), st2)
    /\ data_updated (controller_at st2 s) = false
    /\ arduino_get_controller_data st2 s = (UNI_ARDUINO_ERROR_NO_DATA, None, st2)
    /\ arduino_get_gamepad_data st2 s = (UNI_ARDUINO_ERROR_NO_DATA, None, st2).
Proof.
  intros Hd Hs Hrange Hlen Hassigned.
  assert (Hlt : (Z.to_nat s < length (controllers_ st))%nat) by lia.
  destruct (arduino_on_controller_data_cases st d dev X Hd) as [[Hout _] | [_ H]];
    [rewrite Hs in Hout; lia|].
  rewrite Hs in H. specialize (H Hlt).
  set (st1 := store_controller (process_pending_requests st) s
                (set_data_updated (set_data (controller_at st s) X) true)) in *.
  assert (Hlt1 : (Z.to_nat s < length (controllers_ (process_pending_requests st)))%nat)
    by (by rewrite process_pending_requests_controllers).
  assert (Hat1 : controller_at st1 s
                 = set_data_updated (set_data (controller_at st s) X) true)
    by (by apply controller_at_store).
  assert (Hacc1 : ~ rejected st1 s).
  { unfold rejected. rewrite Hat1. simpl. lia. }
  set (st2 := store_controller st1 s (set_data_updated (controller_at st1 s) false)).
  assert (Hat2 : controller_at st2 s = set_data_updated (controller_at st1 s) false).
  { apply controller_at_store. unfold st1, store_controller. simpl.
    by rewrite length_insert. }
  assert (Hacc2 : ~ rejected st2 s).
  { unfold rejected. rewrite Hat2, Hat1. simpl. lia. }
  exists st1, st2. split; [done|].
  split.
  { destruct (arduino_get_controller_data_cases st1 s)
      as [[Hr _] | [(_ & Hno & _) | (_ & _ & ->)]]; [done | |].
    - by rewrite Hat1 in Hno.
    - fold st2. by rewrite Hat1. }
  split.
  { destruct (arduino_get_gamepad_data_cases st1 s)
      as [[Hr _] | [(_ & Hno & _) | (_ & _ & ->)]]; [done | |].
    - by rewrite Hat1 in Hno.
    - fold st2. by rewrite Hat1. }
  split; [by rewrite Hat2|].
  split.
  - destruct (arduino_get_controller_data_cases st2 s)
      as [[Hr _] | [(_ & _ & ->) | (_ & Hyes & _)]]; [done | done |].
    by rewrite Hat2 in Hyes.
  - destruct (arduino_get_gamepad_data_cases st2 s)
      as [[Hr _] | [(_ & _ & ->) | (_ & Hyes & _)]]; [done | done |].
    by rewrite Hat2 in Hyes.
Qed.

(** C4.  After any finite sequence of events from the initialized state
    (assignments and releases, and every other callback and application
    call as well), [used_controllers_] is the number of slots whose [idx]
    is not the invalid sentinel, every such slot [i] stores [idx = i], and
    so no two assigned slots have the same [idx].  In the initialized
    state every device of the table has been announced with
    [arduino_on_device_connected], and the run is defined as soon as the
    device pointers of the events lie in the device table.
    N is at most 127, so that a slot index fits the [int8_t] of the
    device instance. *)
Theorem C4_used_controllers_counts_assigned_slots
  (devs : list uni_hid_device_t) (evs : list event) :
  CONFIG_BLUEPAD32_MAX_DEVICES <= 127 ->
  Forall (event_in_table (length devs)) evs ->
  exists st,
    run (initialized devs) evs = Some st
    /\ used_controllers_ st = count_assigned (controllers_ st)
    /\ (forall (i : nat) c,
          controllers_ st !! i = Some c ->
          idx c <> UNI_ARDUINO_GAMEPAD_INVALID -> idx c = Z.of_nat i)
    /\ (forall (i j : nat) ci cj,
          controllers_ st !! i = Some ci -> controllers_ st !! j = Some cj ->
          idx ci <> UNI_ARDUINO_GAMEPAD_INVALID ->
          idx cj <> UNI_ARDUINO_GAMEPAD_INVALID ->
          idx ci = idx cj -> i = j).
Proof.
  intros HN Hevs.
  destruct (run_total evs (initialized devs)) as [st Hrun];
    [by rewrite initialized_devices_length|].
  exists st. split; [done|].
  pose proof (wf_run evs _ _ HN (wf_initialized devs) Hrun)
    as [Hlen Hused Hidx Hown Hdis].
  assert (Hslot : forall (i : nat) c,
             controllers_ st !! i = Some c ->
             idx c <> UNI_ARDUINO_GAMEPAD_INVALID -> idx c = Z.of_nat i).
  { intros i c Hi Hne. by destruct (Hidx i c Hi). }
  repeat split; try done.
  intros i j ci cj Hi Hj Hci Hcj Heq.
  rewrite (Hslot i ci Hi Hci), (Hslot j cj Hj Hcj) in Heq. lia.
Qed.

(** C10.  In every state reached from the initialized state, a call of
    [arduino_on_device_ready] that returns [UNI_ERROR_SUCCESS] has given
    the device a slot [k], and has made exactly one call of the device's
    [set_player_leds], with the value [k + 1], when that function pointer
    is non-null, and no call when it is null. *)
Theorem C10_ready_sets_player_leds_to_slot_plus_one
  (devs : list uni_hid_device_t) (evs : list event) (st st' : bridge) (d : nat) :
  0 <= CONFIG_BLUEPAD32_MAX_DEVICES <= 127 ->
  run (initialized devs) evs = Some st ->
  arduino_on_device_ready st d = Some (UNI_ERROR_SUCCESS, st') ->
  exists dev dev' k,
    g_devices st !! d = Some dev
    /\ g_devices st' !! d = Some dev'
    /\ controller_idx (platform_data dev') = k
    /\ 0 <= k < CONFIG_BLUEPAD32_MAX_DEVICES
    /\ idx (controller_at st k) = UNI_ARDUINO_GAMEPAD_INVALID
    /\ idx (controller_at st' k) = k
    /\ calls st'
       = calls st ++ (if set_player_leds (report_parser dev)
                      then [call_set_player_leds d (k + 1)] else []).
Proof.
  intros HN Hrun Hready.
  assert (Hwf : wf st)
    by (eapply wf_run; [lia | apply (wf_initialized devs) | exact Hrun]).
  destruct (arduino_on_device_ready_success st d st' HN Hwf Hready)
    as (dev & k & c & Hd & Hk & Hc & Hfree & _ & ->).
  rewrite (ready_assign_eq st k d dev c Hc).
  exists dev, (set_arduino_instance dev {| controller_idx := to_int8 k |}), k.
  assert (Hlt : (Z.to_nat k < length (controllers_ st))%nat)
    by (eapply lookup_lt_Some; exact Hc).
  repeat split; try done; try lia.
  - simpl. by rewrite list_lookup_alter_eq, Hd.
  - simpl. apply to_int8_small. lia.
  - by rewrite (controller_at_lookup st k c Hc).
  - unfold controller_at. simpl. by rewrite list_lookup_insert_eq.
Qed.

End Properties.

(** C5.  With N = 4: in every state reached from the initialized state
    a successful [arduino_on_device_ready] gives the device the lowest
    slot that was unassigned.  From the initialized state, ready on four
    devices succeeds with the slots 0, 1, 2, 3; ready on a fifth returns
    [UNI_ERROR_NO_SLOTS] and leaves the state as it is; after the device
    of slot 2 has disconnected, ready on a sixth device succeeds with
    slot 2.  The identity of slot 2 is then not that of the sixth device:
    its address, type, vendor id, product id and capability flags are,
    but its [subtype] field holds the device's type (line 212,
    [properties.subtype = d->controller_type]).  On [six_pads] the sixth
    device has type 6 and subtype 106, and slot 2 ends with subtype 6. *)
Theorem C5_reused_slot_holds_type_as_subtype (headers : platform_headers) :
  CONFIG_BLUEPAD32_MAX_DEVICES = 4 ->
  (forall devs evs st d st',
      run (initialized devs) evs = Some st ->
      arduino_on_device_ready st d = Some (UNI_ERROR_SUCCESS, st') ->
      exists k,
        instance_idx st' d = Some k
        /\ 0 <= k < 4
        /\ idx (controller_at st k) = UNI_ARDUINO_GAMEPAD_INVALID
        /\ (forall j, 0 <= j < k ->
              idx (controller_at st j) <> UNI_ARDUINO_GAMEPAD_INVALID)
        /\ idx (controller_at st' k) = k)
  /\ (forall d0 d1 d2 d3 d4 d5 : uni_hid_device_t,
        exists st1 st2 st3 st4 st5 st6,
          arduino_on_device_ready (initialized [d0; d1; d2; d3; d4; d5]) 0
          = Some (UNI_ERROR_SUCCESS, st1)
          /\ instance_idx st1 0 = Some 0
          /\ arduino_on_device_ready st1 1 = Some (UNI_ERROR_SUCCESS, st2)
          /\ instance_idx st2 1 = Some 1
          /\ arduino_on_device_ready st2 2 = Some (UNI_ERROR_SUCCESS, st3)
          /\ instance_idx st3 2 = Some 2
          /\ arduino_on_device_ready st3 3 = Some (UNI_ERROR_SUCCESS, st4)
          /\ instance_idx st4 3 = Some 3
          /\ map idx (controllers_ st4) = [0; 1; 2; 3]
          /\ arduino_on_device_ready st4 4 = Some (UNI_ERROR_NO_SLOTS, st4)
          /\ arduino_on_device_disconnected st4 2 = Some st5
          /\ map idx (controllers_ st5) = [0; 1; UNI_ARDUINO_GAMEPAD_INVALID; 3]
          /\ arduino_on_device_ready st5 5 = Some (UNI_ERROR_SUCCESS, st6)
          /\ instance_idx st6 5 = Some 2
          /\ map idx (controllers_ st6) = [0; 1; 2; 3]
          /\ p_btaddr (properties (controller_at st6 2)) = conn_btaddr d5
          /\ p_type (properties (controller_at st6 2)) = controller_type d5
          /\ p_subtype (properties (controller_at st6 2)) = controller_type d5
          /\ p_vendor_id (properties (controller_at st6 2)) = vendor_id d5
          /\ p_product_id (properties (controller_at st6 2)) = product_id d5
          /\ p_flags (properties (controller_at st6 2))
             = Z.lor
                 (Z.lor
                    (if set_player_leds (report_parser d5)
                     then ARDUINO_PROPERTY_FLAG_PLAYER_LEDS else 0)
                    (if play_dual_rumble (report_parser d5)
                     then ARDUINO_PROPERTY_FLAG_RUMBLE else 0))
                 (if set_lightbar_color (report_parser d5)
                  then ARDUINO_PROPERTY_FLAG_PLAYER_LIGHTBAR else 0))
  /\ (exists st6 pad5,
        run (initialized six_pads)
          [on_device_ready 0%nat; on_device_ready 1%nat; on_device_ready 2%nat;
           on_device_ready 3%nat; on_device_ready 4%nat;
           on_device_disconnected 2%nat; on_device_ready 5%nat]
        = Some st6
        /\ g_devices st6 !! 5%nat = Some pad5
        /\ controller_idx (get_arduino_instance pad5) = 2
        /\ controller_type pad5 = 6
        /\ controller_subtype pad5 = 106
        /\ p_type (properties (controller_at st6 2)) = 6
        /\ p_subtype (properties (controller_at st6 2)) = 6).
Proof.
  intros HN. split; [|split].
  - intros devs evs st d st' Hrun Hready.
    assert (HN' : 0 <= CONFIG_BLUEPAD32_MAX_DEVICES <= 127) by lia.
    assert (Hwf : wf st)
      by (eapply wf_run; [lia | apply (wf_initialized devs) | exact Hrun]).
    destruct (arduino_on_device_ready_success st d st' HN' Hwf Hready)
      as (dev & k & c & Hd & Hk & Hc & Hfree & Hfirst & ->).
    rewrite (ready_assign_eq st k d dev c Hc).
    assert (Hlt : (Z.to_nat k < length (controllers_ st))%nat)
      by (eapply lookup_lt_Some; exact Hc).
    exists k. repeat split; try done; try lia.
    + unfold instance_idx. simpl. rewrite list_lookup_alter_eq, Hd. simpl.
      f_equal. apply to_int8_small. lia.
    + by rewrite (controller_at_lookup st k c Hc).
    + unfold controller_at. simpl. by rewrite list_lookup_insert_eq.
  - intros d0 d1 d2 d3 d4 d5.
    destruct headers as [N f1 f2 f3 T G gp z]. simpl in HN. subst N.
    unfold ARDUINO_PROPERTY_FLAG_PLAYER_LEDS, ARDUINO_PROPERTY_FLAG_RUMBLE,
      ARDUINO_PROPERTY_FLAG_PLAYER_LIGHTBAR.
    destruct d0 as [? ? ? ? ? [[] ? ?] ?], d1 as [? ? ? ? ? [[] ? ?] ?],
      d2 as [? ? ? ? ? [[] ? ?] ?], d3 as [? ? ? ? ? [[] ? ?] ?],
      d5 as [? ? ? ? ? [[] ? ?] ?];
      match goal with
      | |- exists st1 st2 st3 st4 st5 st6,
             arduino_on_device_ready ?i 0 = _ /\ _ =>
          let s0 := eval cbv -[Z.lor] in i in
          let s1 := eval cbv -[Z.lor] in
                      (default s0 (snd <$> arduino_on_device_ready s0 0%nat)) in
          let s2 := eval cbv -[Z.lor] in
                      (default s1 (snd <$> arduino_on_device_ready s1 1%nat)) in
          let s3 := eval cbv -[Z.lor] in
                      (default s2 (snd <$> arduino_on_device_ready s2 2%nat)) in
          let s4 := eval cbv -[Z.lor] in
                      (default s3 (snd <$> arduino_on_device_ready s3 3%nat)) in
          let s5 := eval cbv -[Z.lor] in
                      (default s4 (arduino_on_device_disconnected s4 2%nat)) in
          let s6 := eval cbv -[Z.lor] in
                      (default s5 (snd <$> arduino_on_device_ready s5 5%nat)) in
          exists s1, s2, s3, s4, s5, s6
      end;
      repeat match goal with |- _ /\ _ => split end;
      reflexivity.
  - destruct headers as [N f1 f2 f3 T G gp z]. simpl in HN. subst N.
    match goal with
    | |- exists st6 pad5, run ?i ?evs = _ /\ _ =>
        let s0 := eval cbv -[Z.lor] in i in
        let s6 := eval cbv -[Z.lor] in (default s0 (run s0 evs)) in
        let p5 := eval cbv -[Z.lor] in
                    (default (pad 6 false true true) (g_devices s6 !! 5%nat)) in
        exists s6, p5
    end.
    repeat match goal with |- _ /\ _ => split end; reflexivity.
Qed.

(** * Further properties of the bridge *)

Section MoreProperties.

Context {headers : platform_headers}.

(** ** Slots and the devices that hold them *)

Lemma predicate_arduino_index_true dev k :
  predicate_arduino_index dev k = true <-> controller_idx (platform_data dev) = k.
Proof.
  unfold predicate_arduino_index, get_arduino_instance.
  destruct (Z.eqb_spec (controller_idx (platform_data dev)) k); simpl;
    split; intros; congruence.
Qed.

Lemma resolve_Some st k d dev :
  uni_hid_device_get_instance_with_predicate predicate_arduino_index k st
  = Some (d, dev) ->
  g_devices st !! d = Some dev /\ controller_idx (platform_data dev) = k.
Proof.
  unfold uni_hid_device_get_instance_with_predicate. intros H.
  apply list_find_Some in H as (Hd & Hp & _).
  split; [done | by apply predicate_arduino_index_true].
Qed.

Lemma resolve_holder st d dev :
  wf st ->
  g_devices st !! d = Some dev ->
  controller_idx (platform_data dev) <> UNI_ARDUINO_GAMEPAD_INVALID ->
  uni_hid_device_get_instance_with_predicate predicate_arduino_index
    (controller_idx (platform_data dev)) st = Some (d, dev).
Proof.
  intros [_ _ _ _ Hdis] Hd Hne.
  unfold uni_hid_device_get_instance_with_predicate.
  apply list_find_Some. split; [done|].
  split; [by apply predicate_arduino_index_true|].
  intros j y Hj Hlt Hp. apply predicate_arduino_index_true in Hp.
  assert (d = j) by (apply (Hdis d j dev y); done). lia.
Qed.

Lemma holder_in_range st d dev :
  wf st ->
  g_devices st !! d = Some dev ->
  controller_idx (platform_data dev) <> UNI_ARDUINO_GAMEPAD_INVALID ->
  0 <= controller_idx (platform_data dev) < CONFIG_BLUEPAD32_MAX_DEVICES
  /\ idx (controller_at st (controller_idx (platform_data dev)))
     = controller_idx (platform_data dev).
Proof.
  intros [Hlen _ Hidx Hown _] Hd Hne.
  destruct (Hown d dev Hd Hne) as (H0 & c & Hc & Hassigned).
  assert (Hlt : (Z.to_nat (controller_idx (platform_data dev))
                 < length (controllers_ st))%nat)
    by (eapply lookup_lt_Some; exact Hc).
  split; [lia|].
  rewrite (controller_at_lookup st _ c Hc).
  destruct (Hidx _ c Hc) as [Hfree | ->]; [done | lia].
Qed.

(** ** The drain, request by request *)

Lemma process_pending_requests_loop_resolved st r q d dev :
  uni_hid_device_get_instance_with_predicate predicate_arduino_index
    (request_controller_idx r) st = Some (d, dev) ->
  process_pending_requests_loop (r :: q) st
  = process_pending_requests_loop q
      (add_calls (set_pending_queue st q) (request_calls d dev r)).
Proof.
  intros Hfind. simpl.
  unfold uni_hid_device_get_instance_with_predicate in *. simpl.
  by rewrite Hfind, dispatch_request_add_calls.
Qed.

Lemma process_pending_requests_loop_unresolved st r q :
  uni_hid_device_get_instance_with_predicate predicate_arduino_index
    (request_controller_idx r) st = None ->
  process_pending_requests_loop (r :: q) st = set_pending_queue st q.
Proof.
  intros Hfind. simpl.
  unfold uni_hid_device_get_instance_with_predicate in *. simpl.
  by rewrite Hfind.
Qed.

Lemma process_pending_requests_loop_prefix pre : forall st post,
  Forall (resolves st) pre ->
  (forall r, head post = Some r -> ~ resolves st r) ->
  process_pending_requests_loop (pre ++ post) st
  = add_calls (set_pending_queue st (tail post)) (flat_map (resolved_calls st) pre).
Proof.
  induction pre as [|r pre IH]; intros st post Hpre Hpost.
  - destruct post as [|r post].
    + simpl. by rewrite add_calls_nil.
    + rewrite app_nil_l, process_pending_requests_loop_unresolved.
      * simpl. by rewrite add_calls_nil.
      * destruct (uni_hid_device_get_instance_with_predicate _ _ st) eqn:E;
          [|done].
        exfalso. apply (Hpost r eq_refl). unfold resolves. by rewrite E.
  - inversion Hpre as [|? ? Hr Hpre']; subst.
    unfold resolves in Hr.
    destruct (uni_hid_device_get_instance_with_predicate predicate_arduino_index
                (request_controller_idx r) st) as [[d dev]|] eqn:E; [|done].
    rewrite <- app_comm_cons.
    rewrite (process_pending_requests_loop_resolved st r (pre ++ post) d dev E).
    rewrite (IH _ post); [| exact Hpre' | exact Hpost].
    cbn [flat_map]. unfold resolved_calls at 2. rewrite E.
    unfold add_calls, set_pending_queue. simpl. by rewrite app_assoc.
Qed.

Lemma to_uint8_small i : 0 <= i <= 255 -> to_uint8 i = i.
Proof. intros H. unfold to_uint8. apply Z.mod_small. lia. Qed.

Lemma request_of_controller_idx c :
  request_controller_idx (request_of c) = to_uint8 (target c).
Proof. by destruct c. Qed.

Lemma request_calls_request_of d dev c :
  request_calls d dev (request_of c) = command_calls d dev c.
Proof.
  destruct c; unfold request_calls, dispatch_request, command_calls; simpl;
    repeat match goal with |- context [if ?b then _ else _] => destruct b end;
    reflexivity.
Qed.

Lemma instance_idx_Some st d k :
  instance_idx st d = Some k
  <-> exists dev, g_devices st !! d = Some dev
                  /\ controller_idx (platform_data dev) = k.
Proof.
  unfold instance_idx, get_arduino_instance. split.
  - destruct (g_devices st !! d) as [dev|]; simpl; [|done].
    intros [= <-]. by exists dev.
  - intros (dev & -> & <-). done.
Qed.

Lemma wf_reachable devs evs st :
  CONFIG_BLUEPAD32_MAX_DEVICES <= 127 ->
  run (initialized devs) evs = Some st -> wf st.
Proof. intros HN Hrun. eapply wf_run; [done | apply wf_initialized | done]. Qed.

Lemma process_pending_requests_prefix st pre post :
  pending_queue_ st = pre ++ post ->
  Forall (resolves st) pre ->
  (forall r, head post = Some r -> ~ resolves st r) ->
  process_pending_requests st
  = add_calls (set_pending_queue st (tail post)) (flat_map (resolved_calls st) pre).
Proof.
  intros Hq Hpre Hpost. unfold process_pending_requests. rewrite Hq.
  by apply process_pending_requests_loop_prefix.
Qed.

(** ** Start-up, release, drain and lookup *)

(** X1.  [arduino_init] leaves a table of exactly N slots, each of them
    unassigned and zeroed, whatever the table held before; it does not
    touch the counter [used_controllers_], the queue, the device
    instances or the calls made so far. *)
Theorem X1_arduino_init_frees_every_slot (st : bridge) :
  controllers_ (arduino_init st)
  = replicate (Z.to_nat CONFIG_BLUEPAD32_MAX_DEVICES) free_slot
  /\ used_controllers_ (arduino_init st) = used_controllers_ st
  /\ pending_queue_ (arduino_init st) = pending_queue_ st
  /\ g_devices (arduino_init st) = g_devices st
  /\ calls (arduino_init st) = calls st.
Proof.
  destruct (arduino_init_frame st) as (Hq & Hu & Hd & Hc).
  split; [apply arduino_init_controllers | done].
Qed.

(** X2.  [arduino_on_device_disconnected] is idempotent: called again on
    the same device right after a first call, it changes nothing, so the
    counter is decremented at most once per assignment. *)
Theorem X2_disconnect_is_idempotent (st st' : bridge) (d : nat) :
  arduino_on_device_disconnected st d = Some st' ->
  arduino_on_device_disconnected st' d = Some st'.
Proof.
  intros H. pose proof H as H0. unfold arduino_on_device_disconnected in H.
  destruct (g_devices st !! d) as [dev|] eqn:Hdev; [|done]. simpl in H.
  unfold get_arduino_instance in H.
  destruct (Z.eqb_spec (controller_idx (platform_data dev)) UNI_ARDUINO_GAMEPAD_INVALID)
    as [Hk | Hk]; simpl in H; [by injection H as <-|].
  destruct ((controller_idx (platform_data dev) <? 0)
            || (controller_idx (platform_data dev) >=? CONFIG_BLUEPAD32_MAX_DEVICES));
    [by injection H as <-|].
  injection H as <-.
  unfold arduino_on_device_disconnected at 1.
  cbn [g_devices store_instance set_devices store_controller set_controllers
       set_used_controllers].
  rewrite list_lookup_alter_eq, Hdev. simpl. done.
Qed.

(** X3.  The drain works through the queue in the order of enqueuing:
    when [pre] is a prefix of requests that all resolve to a device, and
    what follows is nothing or starts with a request that does not
    resolve, the drain makes the calls of the requests of [pre], in that
    order, after the calls made before; it removes [pre] and the first
    request that does not resolve, leaves the rest in the queue, and
    changes nothing else. *)
Theorem X3_drain_is_first_in_first_out (st : bridge)
  (pre post : list pending_request_t) :
  pending_queue_ st = pre ++ post ->
  Forall (resolves st) pre ->
  (forall r, head post = Some r -> ~ resolves st r) ->
  process_pending_requests st
  = add_calls (set_pending_queue st (tail post)) (flat_map (resolved_calls st) pre).
Proof.
  apply process_pending_requests_prefix.
Qed.

(** X4.  From the application to the device: in a state reached from the
    initialized state, where the device [d] holds slot [k], every pending
    request resolves and the queue has room, a command on slot [k] is
    accepted with [UNI_ARDUINO_ERROR_SUCCESS], and the next drain does
    what it would have done without it and then makes the call of the
    command on [d] itself: the capability call with the arguments of the
    command when the device has the capability, no call when it has not,
    and the deferred disconnect of [d] for a disconnect command. *)
Theorem X4_command_reaches_the_device_of_its_slot
  (devs : list uni_hid_device_t) (evs : list event) (st : bridge)
  (d : nat) (dev : uni_hid_device_t) (c : command) :
  CONFIG_BLUEPAD32_MAX_DEVICES <= 127 ->
  run (initialized devs) evs = Some st ->
  g_devices st !! d = Some dev ->
  controller_idx (platform_data dev) = target c ->
  target c <> UNI_ARDUINO_GAMEPAD_INVALID ->
  Forall (resolves st) (pending_queue_ st) ->
  (length (pending_queue_ st) < MAX_PENDING_REQUESTS)%nat ->
  exists st1,
    issue st c = (UNI_ARDUINO_ERROR_SUCCESS, st1)
    /\ process_pending_requests st1
       = add_calls (process_pending_requests st) (command_calls d dev c).
Proof.
  intros HN Hrun Hd Hk Hne Hall Hroom.
  pose proof (wf_reachable devs evs st HN Hrun) as Hwf.
  rewrite <- Hk in Hne.
  destruct (holder_in_range st d dev Hwf Hd Hne) as [Hrange Hidx].
  rewrite Hk in Hrange, Hidx, Hne.
  assert (Hacc : ~ rejected st (target c)).
  { unfold rejected. rewrite Hidx. lia. }
  exists (set_pending_queue st (pending_queue_ st ++ [request_of c])).
  split.
  - rewrite issue_accepted by done. by apply send_request_room.
  - assert (Hres : uni_hid_device_get_instance_with_predicate
                     predicate_arduino_index
                     (request_controller_idx (request_of c)) st = Some (d, dev)).
    { rewrite request_of_controller_idx, to_uint8_small by lia.
      rewrite <- Hk. apply resolve_holder; [done | done | by rewrite Hk]. }
    rewrite (process_pending_requests_prefix st (pending_queue_ st) []);
      [| by rewrite app_nil_r | done | done].
    rewrite (process_pending_requests_prefix
               (set_pending_queue st (pending_queue_ st ++ [request_of c]))
               (pending_queue_ st ++ [request_of c]) []).
    + rewrite flat_map_app. cbn [flat_map].
      unfold resolved_calls at 2.
      change (uni_hid_device_get_instance_with_predicate predicate_arduino_index
                (request_controller_idx (request_of c))
                (set_pending_queue st (pending_queue_ st ++ [request_of c])))
        with (uni_hid_device_get_instance_with_predicate predicate_arduino_index
                (request_controller_idx (request_of c)) st).
      rewrite Hres, request_calls_request_of, app_nil_r.
      unfold add_calls, set_pending_queue. simpl. by rewrite app_assoc.
    + simpl. by rewrite app_nil_r.
    + apply Forall_app. split; [exact Hall|].
      constructor; [|constructor]. unfold resolves.
      change (uni_hid_device_get_instance_with_predicate predicate_arduino_index
                (request_controller_idx (request_of c))
                (set_pending_queue st (pending_queue_ st ++ [request_of c])))
        with (uni_hid_device_get_instance_with_predicate predicate_arduino_index
                (request_controller_idx (request_of c)) st).
      by rewrite Hres.
    + done.
Qed.

(** X5.  In a state reached from the initialized state,
    [arduino_get_internal_hid_device] returns the device [d] for the index
    [k] exactly when [d] is the device whose instance holds slot [k]; it
    returns [NULL] for the invalid sentinel, for an index outside
    [0, N), and for a slot that no device holds. *)
Theorem X5_internal_hid_device_is_the_holder
  (devs : list uni_hid_device_t) (evs : list event) (st : bridge)
  (k : Z) (d : nat) (dev : uni_hid_device_t) :
  CONFIG_BLUEPAD32_MAX_DEVICES <= 127 ->
  run (initialized devs) evs = Some st ->
  (arduino_get_internal_hid_device st k = Some (d, dev)
   <-> g_devices st !! d = Some dev
       /\ controller_idx (platform_data dev) = k
       /\ k <> UNI_ARDUINO_GAMEPAD_INVALID)
  /\ (k = UNI_ARDUINO_GAMEPAD_INVALID \/ k < 0 \/ k >= CONFIG_BLUEPAD32_MAX_DEVICES ->
      arduino_get_internal_hid_device st k = None).
Proof.
  intros HN Hrun.
  pose proof (wf_reachable devs evs st HN Hrun) as Hwf.
  unfold arduino_get_internal_hid_device. split; [split|].
  - destruct (Z.eqb_spec k UNI_ARDUINO_GAMEPAD_INVALID) as [Hk | Hk]; [done|].
    destruct ((k <? 0) || (k >=? CONFIG_BLUEPAD32_MAX_DEVICES)); [done|].
    intros H. apply resolve_Some in H as [Hd Hi]. done.
  - intros (Hd & Hi & Hk). subst k.
    destruct (holder_in_range st d dev Hwf Hd Hk) as [Hrange _].
    destruct (Z.eqb_spec (controller_idx (platform_data dev))
                UNI_ARDUINO_GAMEPAD_INVALID) as [? | _]; [done|].
    destruct (Z.ltb_spec (controller_idx (platform_data dev)) 0); [lia|].
    destruct (Z.geb_spec (controller_idx (platform_data dev))
                CONFIG_BLUEPAD32_MAX_DEVICES); [lia|].
    simpl. by apply resolve_holder.
  - intros H.
    destruct (Z.eqb_spec k UNI_ARDUINO_GAMEPAD_INVALID) as [Hk | Hk]; [done|].
    destruct (Z.ltb_spec k 0); [done|].
    destruct (Z.geb_spec k CONFIG_BLUEPAD32_MAX_DEVICES); [done|]. lia.
Qed.

(** X6.  In a state reached from the initialized state, a device whose
    instance is not the invalid sentinel holds a slot inside [0, N) that
    is marked assigned with that index, and no two devices hold the same
    slot.  So the range test [controller_idx < 0 || controller_idx >= N]
    of the two callbacks is true exactly for a device with the sentinel.
    [arduino_on_device_disconnected] makes the test only for a device
    without the sentinel and therefore never takes its "unexpected
    gamepad idx" branch: it releases the slot and counts one down.
    [arduino_on_controller_data] takes that branch exactly for a device
    that holds no slot (connected, not ready or released): the drain is
    all that happens and the snapshot is dropped; for a device that holds
    slot [k] the snapshot is stored in slot [k]. *)
Theorem X6_each_device_holds_its_own_slot
  (devs : list uni_hid_device_t) (evs : list event) (st : bridge) :
  CONFIG_BLUEPAD32_MAX_DEVICES <= 127 ->
  run (initialized devs) evs = Some st ->
  (forall d k,
      instance_idx st d = Some k -> k <> UNI_ARDUINO_GAMEPAD_INVALID ->
      0 <= k < CONFIG_BLUEPAD32_MAX_DEVICES /\ idx (controller_at st k) = k)
  /\ (forall d d' k,
        instance_idx st d = Some k -> instance_idx st d' = Some k ->
        k <> UNI_ARDUINO_GAMEPAD_INVALID -> d = d')
  /\ (forall d k,
        instance_idx st d = Some k ->
        ((k <? 0) || (k >=? CONFIG_BLUEPAD32_MAX_DEVICES) = true
         <-> k = UNI_ARDUINO_GAMEPAD_INVALID))
  /\ (forall d k,
        instance_idx st d = Some k -> k <> UNI_ARDUINO_GAMEPAD_INVALID ->
        exists st',
          arduino_on_device_disconnected st d = Some st'
          /\ used_controllers_ st' = used_controllers_ st - 1
          /\ idx (controller_at st' k) = UNI_ARDUINO_GAMEPAD_INVALID)
  /\ (forall d ctl,
        instance_idx st d = Some UNI_ARDUINO_GAMEPAD_INVALID ->
        arduino_on_controller_data st d ctl = Some (process_pending_requests st))
  /\ (forall d k ctl,
        instance_idx st d = Some k -> k <> UNI_ARDUINO_GAMEPAD_INVALID ->
        exists st',
          arduino_on_controller_data st d ctl = Some st'
          /\ data (controller_at st' k) = ctl
          /\ data_updated (controller_at st' k) = true).
Proof.
  intros HN Hrun.
  pose proof (wf_reachable devs evs st HN Hrun) as Hwf.
  split; [|split; [|split; [|split; [|split]]]].
  - intros d k Hd Hk. apply instance_idx_Some in Hd as (dev & Hd & <-).
    by apply (holder_in_range st d dev).
  - intros d d' k Hd Hd' Hk.
    apply instance_idx_Some in Hd as (dev & Hd & <-).
    apply instance_idx_Some in Hd' as (dev' & Hd' & Hk').
    destruct Hwf as [_ _ _ _ Hdis]. by apply (Hdis d d' dev dev').
  - intros d k Hd. apply instance_idx_Some in Hd as (dev & Hd & <-).
    destruct (Z.eq_dec (controller_idx (platform_data dev))
                UNI_ARDUINO_GAMEPAD_INVALID) as [Hk | Hk].
    + rewrite Hk. done.
    + destruct (holder_in_range st d dev Hwf Hd Hk) as [Hrange _].
      destruct (Z.ltb_spec (controller_idx (platform_data dev)) 0); [lia|].
      destruct (Z.geb_spec (controller_idx (platform_data dev))
                  CONFIG_BLUEPAD32_MAX_DEVICES); [lia|].
      simpl. split; [done | by intros ?].
  - intros d k Hd Hk. apply instance_idx_Some in Hd as (dev & Hd & <-).
    destruct (holder_in_range st d dev Hwf Hd Hk) as [Hrange _].
    destruct (wf_slot st _ Hwf Hrange) as (c & Hc & _).
    assert (Hlt : (Z.to_nat (controller_idx (platform_data dev))
                   < length (controllers_ st))%nat)
      by (eapply lookup_lt_Some; exact Hc).
    destruct (arduino_on_device_disconnected_cases st d dev Hd)
      as [[Hinv _] | [(_ & Hout & _) | (_ & _ & H)]]; [done | lia |].
    specialize (H Hlt). eexists. split; [exact H|]. split; [done|].
    unfold controller_at. simpl. by rewrite list_lookup_insert_eq.
  - intros d ctl Hd. apply instance_idx_Some in Hd as (dev & Hd & Hk).
    destruct (arduino_on_controller_data_cases st d dev ctl Hd) as [[_ H] | [Hin _]];
      [done|].
    rewrite Hk in Hin. unfold UNI_ARDUINO_GAMEPAD_INVALID in Hin. lia.
  - intros d k ctl Hd Hk. apply instance_idx_Some in Hd as (dev & Hd & <-).
    destruct (holder_in_range st d dev Hwf Hd Hk) as [Hrange _].
    destruct (wf_slot st _ Hwf Hrange) as (c & Hc & _).
    assert (Hlt : (Z.to_nat (controller_idx (platform_data dev))
                   < length (controllers_ st))%nat)
      by (eapply lookup_lt_Some; exact Hc).
    destruct (arduino_on_controller_data_cases st d dev ctl Hd) as [[Hout _] | [_ H]];
      [lia|].
    specialize (H Hlt). eexists. split; [exact H|].
    rewrite controller_at_store by (by rewrite process_pending_requests_controllers).
    done.
Qed.

(** ** What a run keeps besides the invariant of the table *)


(** How an event changes the table: not at all, or in one slot, which
    becomes free and zero or is assigned afterwards. *)
Lemma step_controllers st e st' :
  CONFIG_BLUEPAD32_MAX_DEVICES <= 127 ->
  wf st -> step st e = Some st' ->
  controllers_ st' = controllers_ st
  \/ exists (k : nat) c',
       controllers_ st' = <[k := c']> (controllers_ st)
       /\ (c' = free_slot \/ idx c' <> UNI_ARDUINO_GAMEPAD_INVALID).
Proof.
  intros HN Hwf Hstep.
  assert (Hflag : forall st0 i b,
            controllers_ st0 = controllers_ st -> ~ rejected st i ->
            exists (k : nat) c',
              controllers_ (store_controller st0 i
                              (set_data_updated (controller_at st i) b))
              = <[k := c']> (controllers_ st)
              /\ (c' = free_slot \/ idx c' <> UNI_ARDUINO_GAMEPAD_INVALID)).
  { intros st0 i b Hst0 Hacc. unfold store_controller. simpl. rewrite Hst0.
    eexists _, _. split; [done|]. right. simpl. unfold rejected in Hacc. lia. }
  destruct e; simpl in Hstep.
  - left. unfold arduino_on_device_connected in Hstep.
    destruct (g_devices st !! d); [|done]. simpl in Hstep. by injection Hstep as <-.
  - destruct (g_devices st !! d) as [dev|] eqn:Hdev;
      [|unfold arduino_on_device_ready in Hstep; by rewrite Hdev in Hstep].
    destruct (arduino_on_device_ready_cases st d dev Hdev)
      as [[_ H] | [(_ & _ & H) | [(_ & _ & _ & H) | (_ & _ & k & Hk & Hfree & _ & H)]]];
      rewrite H in Hstep; simpl in Hstep; injection Hstep as <-;
      try (by left).
    right. destruct (wf_slot st k Hwf Hk) as (ck & Hck & Hat).
    rewrite (ready_assign_eq st k d dev ck Hck). simpl.
    eexists _, _. split; [done|]. right. simpl.
    unfold UNI_ARDUINO_GAMEPAD_INVALID. lia.
  - destruct (g_devices st !! d) as [dev|] eqn:Hdev;
      [|unfold arduino_on_device_disconnected in Hstep; by rewrite Hdev in Hstep].
    destruct (arduino_on_device_disconnected_cases st d dev Hdev)
      as [[_ H] | [(_ & _ & H) | (Hk & Hrange & H)]].
    + rewrite H in Hstep. injection Hstep as <-. by left.
    + rewrite H in Hstep. injection Hstep as <-. by left.
    + destruct (wf_slot st _ Hwf Hrange) as (ck & Hck & _).
      rewrite H in Hstep by (eapply lookup_lt_Some; exact Hck).
      injection Hstep as <-. right. simpl. eexists _, _. split; [done|]. by left.
  - destruct (g_devices st !! d) as [dev|] eqn:Hdev.
    + destruct (arduino_on_controller_data_cases st d dev ctl Hdev)
        as [[_ H] | [Hk H]].
      * rewrite H in Hstep. injection Hstep as <-. left.
        apply process_pending_requests_controllers.
      * destruct (wf_slot st _ Hwf Hk) as (ck & Hck & Hat).
        rewrite H in Hstep by (eapply lookup_lt_Some; exact Hck).
        injection Hstep as <-. right. unfold store_controller. simpl.
        rewrite process_pending_requests_controllers.
        eexists _, _. split; [done|]. right. simpl.
        assert (Hne : controller_idx (platform_data dev)
                      <> UNI_ARDUINO_GAMEPAD_INVALID)
          by (unfold UNI_ARDUINO_GAMEPAD_INVALID; lia).
        destruct (holder_in_range st d dev Hwf Hdev Hne) as [_ ->]. done.
    + unfold arduino_on_controller_data in Hstep.
      by rewrite process_pending_requests_devices, Hdev in Hstep.
  - injection Hstep as <-.
    destruct (arduino_get_gamepad_data_cases st idx_)
      as [[_ ->] | [(_ & _ & ->) | (Hacc & _ & ->)]]; simpl;
      [by left | by left | right; by apply Hflag].
  - injection Hstep as <-.
    destruct (arduino_get_controller_data_cases st idx_)
      as [[_ ->] | [(_ & _ & ->) | (Hacc & _ & ->)]]; simpl;
      [by left | by left | right; by apply Hflag].
  - injection Hstep as <-. left.
    by destruct (arduino_get_controller_properties_cases st idx_)
      as [[_ ->] | [_ ->]].
  - injection Hstep as <-. left. unfold arduino_get_gamepad_properties.
    by destruct (arduino_get_controller_properties_cases st idx_)
      as [[_ ->] | [_ ->]].
  - injection Hstep as <-. left.
    destruct (issue_state st (SetPlayerLEDs idx_ leds_)) as [q Hq].
    simpl in Hq. by rewrite Hq.
  - injection Hstep as <-. left.
    destruct (issue_state st (SetLightbarColor idx_ r g b)) as [q Hq].
    simpl in Hq. by rewrite Hq.
  - injection Hstep as <-. left.
    destruct (issue_state st
                (Rumble idx_ delayed_start_ms duration_ms weak strong)) as [q Hq].
    simpl in Hq. by rewrite Hq.
  - injection Hstep as <-. left.
    destruct (issue_state st (Disconnect idx_)) as [q Hq].
    simpl in Hq. by rewrite Hq.
Qed.

Lemma free_slots_zero_step st e st' :
  CONFIG_BLUEPAD32_MAX_DEVICES <= 127 ->
  wf st -> step st e = Some st' ->
  free_slots_zero (controllers_ st) -> free_slots_zero (controllers_ st').
Proof.
  intros HN Hwf Hstep Hzero.
  destruct (step_controllers st e st' HN Hwf Hstep)
    as [-> | (k & c' & -> & Hc')]; [done|].
  intros i c Hi Hfree.
  apply list_lookup_insert_Some in Hi as [(-> & -> & _) | [_ Hi]].
  - by destruct Hc'.
  - by apply (Hzero i).
Qed.

Lemma free_slots_zero_run evs : forall st st',
  CONFIG_BLUEPAD32_MAX_DEVICES <= 127 ->
  wf st -> free_slots_zero (controllers_ st) ->
  run st evs = Some st' -> free_slots_zero (controllers_ st').
Proof.
  induction evs as [|e evs IH]; intros st st' HN Hwf Hzero Hrun; simpl in Hrun.
  - by injection Hrun as <-.
  - destruct (step st e) as [st1|] eqn:Hstep; [|done]. simpl in Hrun.
    apply (IH st1 st' HN); [by eapply wf_step | by eapply free_slots_zero_step | done].
Qed.

Lemma free_slots_zero_reachable devs evs st :
  CONFIG_BLUEPAD32_MAX_DEVICES <= 127 ->
  run (initialized devs) evs = Some st -> free_slots_zero (controllers_ st).
Proof.
  intros HN Hrun.
  apply (free_slots_zero_run evs (initialized devs) st HN);
    [apply wf_initialized | | done].
  rewrite initialized_controllers. intros i c Hi _.
  by apply lookup_replicate in Hi as [-> _].
Qed.

(** The drain leaves a tail of the queue. *)
Lemma process_pending_requests_loop_suffix q : forall st,
  exists pre, q = pre ++ pending_queue_ (process_pending_requests_loop q st).
Proof.
  induction q as [|r q IH]; intros st.
  - by exists [].
  - destruct (uni_hid_device_get_instance_with_predicate predicate_arduino_index
                (request_controller_idx r) st) as [[d dev]|] eqn:E.
    + rewrite (process_pending_requests_loop_resolved st r q d dev E).
      destruct (IH (add_calls (set_pending_queue st q) (request_calls d dev r)))
        as [pre Hpre].
      exists (r :: pre). simpl. by rewrite <- Hpre.
    + rewrite (process_pending_requests_loop_unresolved st r q E).
      by exists [r].
Qed.

Lemma step_queue_length st e st' :
  step st e = Some st' ->
  (length (pending_queue_ st) <= MAX_PENDING_REQUESTS)%nat ->
  (length (pending_queue_ st') <= MAX_PENDING_REQUESTS)%nat.
Proof.
  intros Hstep Hlen.
  assert (Hcmd : forall c,
            (length (pending_queue_ (issue st c).2) <= MAX_PENDING_REQUESTS)%nat).
  { intros c. destruct (invalid_device st (target c)) eqn:Hinv.
    - apply rejected_spec in Hinv. by rewrite issue_rejected.
    - rewrite issue_accepted by (rewrite <- rejected_spec; congruence).
      destruct (Nat.ltb_spec (length (pending_queue_ st)) MAX_PENDING_REQUESTS)
        as [Hroom | Hfull].
      + rewrite send_request_room by done. simpl. rewrite length_app. simpl. lia.
      + by rewrite send_request_full. }
  destruct e; simpl in Hstep.
  - unfold arduino_on_device_connected in Hstep.
    destruct (g_devices st !! d); [|done]. simpl in Hstep. by injection Hstep as <-.
  - destruct (g_devices st !! d) as [dev|] eqn:Hdev;
      [|unfold arduino_on_device_ready in Hstep; by rewrite Hdev in Hstep].
    destruct (arduino_on_device_ready_cases st d dev Hdev)
      as [[_ H] | [(_ & _ & H) | [(_ & _ & _ & H) | (_ & _ & k & _ & _ & _ & H)]]];
      rewrite H in Hstep; simpl in Hstep; by injection Hstep as <-.
  - unfold arduino_on_device_disconnected in Hstep.
    destruct (g_devices st !! d); [|done]. simpl in Hstep.
    repeat match type of Hstep with
      | context [if ?b then _ else _] => destruct b
      end; by injection Hstep as <-.
  - assert (Hdrain : (length (pending_queue_ (process_pending_requests st))
                      <= MAX_PENDING_REQUESTS)%nat).
    { destruct (process_pending_requests_loop_suffix (pending_queue_ st) st)
        as [pre Hpre].
      unfold process_pending_requests.
      rewrite Hpre, length_app in Hlen. lia. }
    unfold arduino_on_controller_data in Hstep.
    destruct (g_devices (process_pending_requests st) !! d); [|done].
    simpl in Hstep.
    repeat match type of Hstep with
      | context [if ?b then _ else _] => destruct b
      end; by injection Hstep as <-.
  - injection Hstep as <-.
    by destruct (arduino_get_gamepad_data_cases st idx_)
      as [[_ ->] | [(_ & _ & ->) | (_ & _ & ->)]].
  - injection Hstep as <-.
    by destruct (arduino_get_controller_data_cases st idx_)
      as [[_ ->] | [(_ & _ & ->) | (_ & _ & ->)]].
  - injection Hstep as <-.
    by destruct (arduino_get_controller_properties_cases st idx_)
      as [[_ ->] | [_ ->]].
  - injection Hstep as <-. unfold arduino_get_gamepad_properties.
    by destruct (arduino_get_controller_properties_cases st idx_)
      as [[_ ->] | [_ ->]].
  - injection Hstep as <-. apply (Hcmd (SetPlayerLEDs idx_ leds_)).
  - injection Hstep as <-. apply (Hcmd (SetLightbarColor idx_ r g b)).
  - injection Hstep as <-.
    apply (Hcmd (Rumble idx_ delayed_start_ms duration_ms weak strong)).
  - injection Hstep as <-. apply (Hcmd (Disconnect idx_)).
Qed.

Lemma initialized_queue devs : pending_queue_ (initialized devs) = [].
Proof.
  unfold initialized.
  destruct (arduino_init_frame (power_on devs)) as (_ & _ & Hd & _).
  destruct (connect_all_spec (length devs)
              (arduino_on_init_complete (arduino_init (power_on devs))))
    as (-> & _); [simpl; by rewrite Hd | done].
Qed.

(** ** Publishing and consuming on the slot of a device *)

Lemma publish_on_holder st d dev X :
  wf st ->
  g_devices st !! d = Some dev ->
  controller_idx (platform_data dev) <> UNI_ARDUINO_GAMEPAD_INVALID ->
  exists st1,
    arduino_on_controller_data st d X = Some st1
    /\ wf st1
    /\ g_devices st1 = g_devices st
    /\ controller_at st1 (controller_idx (platform_data dev))
       = set_data_updated
           (set_data (controller_at st (controller_idx (platform_data dev))) X) true.
Proof.
  intros Hwf Hd Hne.
  destruct (holder_in_range st d dev Hwf Hd Hne) as [Hrange Hidx].
  destruct (wf_slot st _ Hwf Hrange) as (c & Hc & Hat).
  assert (Hlt : (Z.to_nat (controller_idx (platform_data dev))
                 < length (controllers_ st))%nat)
    by (eapply lookup_lt_Some; exact Hc).
  destruct (arduino_on_controller_data_cases st d dev X Hd) as [[Hout _] | [_ H]];
    [lia|].
  specialize (H Hlt). eexists. split; [exact H|].
  split; [by eapply wf_arduino_on_controller_data|].
  split.
  - simpl. apply process_pending_requests_devices.
  - apply controller_at_store. by rewrite process_pending_requests_controllers.
Qed.

Lemma consume_pending st k :
  0 <= k < CONFIG_BLUEPAD32_MAX_DEVICES ->
  (Z.to_nat k < length (controllers_ st))%nat ->
  idx (controller_at st k) <> UNI_ARDUINO_GAMEPAD_INVALID ->
  data_updated (controller_at st k) = true ->
  exists st',
    arduino_get_controller_data st k
    = (UNI_ARDUINO_ERROR_SUCCESS, Some (data (controller_at st k)), st')
    /\ arduino_get_gamepad_data st k
       = (UNI_ARDUINO_ERROR_SUCCESS, Some (gamepad (data (controller_at st k))), st')
    /\ arduino_get_controller_data st' k = (UNI_ARDUINO_ERROR_NO_DATA, None, st')
    /\ arduino_get_gamepad_data st' k = (UNI_ARDUINO_ERROR_NO_DATA, None, st').
Proof.
  intros Hk Hlt Hassigned Hfresh.
  assert (Hacc : ~ rejected st k) by (unfold rejected; lia).
  set (st' := store_controller st k (set_data_updated (controller_at st k) false)).
  assert (Hat : controller_at st' k = set_data_updated (controller_at st k) false)
    by (by apply controller_at_store).
  assert (Hacc' : ~ rejected st' k).
  { unfold rejected. rewrite Hat. simpl. lia. }
  exists st'. split; [|split; [|split]].
  - destruct (arduino_get_controller_data_cases st k)
      as [[Hr _] | [(_ & Hno & _) | (_ & _ & ->)]]; [done | congruence | done].
  - destruct (arduino_get_gamepad_data_cases st k)
      as [[Hr _] | [(_ & Hno & _) | (_ & _ & ->)]]; [done | congruence | done].
  - destruct (arduino_get_controller_data_cases st' k)
      as [[Hr _] | [(_ & _ & ->) | (_ & Hyes & _)]]; [done | done |].
    by rewrite Hat in Hyes.
  - destruct (arduino_get_gamepad_data_cases st' k)
      as [[Hr _] | [(_ & _ & ->) | (_ & Hyes & _)]]; [done | done |].
    by rewrite Hat in Hyes.
Qed.

(** ** The counter, fresh slots, overwriting, the queue, identities *)


(** X8.  A slot starts without a snapshot: in a state reached from the
    initialized state, right after a successful
    [arduino_on_device_ready] both snapshot readers return
    [UNI_ARDUINO_ERROR_NO_DATA] on the slot that was assigned, and change
    nothing.  What a previous holder of the slot published is not
    delivered to the new one. *)
Theorem X8_new_holder_sees_no_old_snapshot
  (devs : list uni_hid_device_t) (evs : list event) (st st' : bridge) (d : nat) :
  0 <= CONFIG_BLUEPAD32_MAX_DEVICES <= 127 ->
  run (initialized devs) evs = Some st ->
  arduino_on_device_ready st d = Some (UNI_ERROR_SUCCESS, st') ->
  exists k,
    instance_idx st' d = Some k
    /\ 0 <= k < CONFIG_BLUEPAD32_MAX_DEVICES
    /\ data (controller_at st' k) = zero_controller
    /\ arduino_get_controller_data st' k = (UNI_ARDUINO_ERROR_NO_DATA, None, st')
    /\ arduino_get_gamepad_data st' k = (UNI_ARDUINO_ERROR_NO_DATA, None, st').
Proof.
  intros HN Hrun Hready.
  assert (Hwf : wf st) by (eapply wf_reachable; [lia | done]).
  assert (Hzero : free_slots_zero (controllers_ st))
    by (eapply free_slots_zero_reachable; [lia | done]).
  destruct (arduino_on_device_ready_success st d st' HN Hwf Hready)
    as (dev & k & c & Hd & Hk & Hc & Hfree & _ & ->).
  assert (Hlt : (Z.to_nat k < length (controllers_ st))%nat)
    by (eapply lookup_lt_Some; exact Hc).
  assert (c = free_slot) as -> by (by apply (Hzero _ c Hc)).
  set (st' := add_calls (ready_assign st k d dev) _).
  assert (Hat : controller_at st' k
                = {| idx := k; properties := ready_properties dev;
                     data := zero_controller; data_updated := false |}).
  { unfold st'. rewrite (ready_assign_eq st k d dev free_slot Hc).
    unfold controller_at. simpl. by rewrite list_lookup_insert_eq. }
  assert (Hacc : ~ rejected st' k).
  { unfold rejected. rewrite Hat. simpl. unfold UNI_ARDUINO_GAMEPAD_INVALID. lia. }
  exists k. split; [|split; [lia|split; [by rewrite Hat|split]]].
  - unfold st'. rewrite (ready_assign_eq st k d dev free_slot Hc).
    unfold instance_idx. simpl. rewrite list_lookup_alter_eq, Hd. simpl.
    f_equal. apply to_int8_small. lia.
  - destruct (arduino_get_controller_data_cases st' k)
      as [[Hr _] | [(_ & _ & ->) | (_ & Hyes & _)]]; [done | done |].
    by rewrite Hat in Hyes.
  - destruct (arduino_get_gamepad_data_cases st' k)
      as [[Hr _] | [(_ & _ & ->) | (_ & Hyes & _)]]; [done | done |].
    by rewrite Hat in Hyes.
Qed.

(** X9.  The last value wins: in a state reached from the initialized
    state, when the device that holds slot [k] delivers [X] and then [Y]
    with no read in between, the next read of slot [k] returns [Y] with
    [UNI_ARDUINO_ERROR_SUCCESS], and the read after that returns
    [UNI_ARDUINO_ERROR_NO_DATA]: [X] is lost. *)
Theorem X9_last_published_snapshot_wins
  (devs : list uni_hid_device_t) (evs : list event) (st : bridge)
  (d : nat) (k : Z) (X Y : uni_controller_t) :
  CONFIG_BLUEPAD32_MAX_DEVICES <= 127 ->
  run (initialized devs) evs = Some st ->
  instance_idx st d = Some k ->
  k <> UNI_ARDUINO_GAMEPAD_INVALID ->
  exists st1 st2 st3,
    arduino_on_controller_data st d X = Some st1
    /\ arduino_on_controller_data st1 d Y = Some st2
    /\ arduino_get_controller_data st2 k = (UNI_ARDUINO_ERROR_SUCCESS, Some Y, st3)
    /\ arduino_get_gamepad_data st2 k
       = (UNI_ARDUINO_ERROR_SUCCESS, Some (gamepad Y), st3)
    /\ arduino_get_controller_data st3 k = (UNI_ARDUINO_ERROR_NO_DATA, None, st3)
    /\ arduino_get_gamepad_data st3 k = (UNI_ARDUINO_ERROR_NO_DATA, None, st3).
Proof.
  intros HN Hrun Hins Hne.
  pose proof (wf_reachable devs evs st HN Hrun) as Hwf.
  apply instance_idx_Some in Hins as (dev & Hd & <-).
  destruct (publish_on_holder st d dev X Hwf Hd Hne) as (st1 & H1 & Hwf1 & Hd1 & _).
  rewrite <- Hd1 in Hd.
  destruct (publish_on_holder st1 d dev Y Hwf1 Hd Hne) as (st2 & H2 & Hwf2 & Hd2 & Hat2).
  rewrite <- Hd2 in Hd.
  destruct (holder_in_range st1 d dev Hwf1 ltac:(by rewrite <- Hd2) Hne)
    as [Hrange Hidx1].
  destruct (wf_slot st2 _ Hwf2 Hrange) as (c2 & Hc2 & _).
  destruct (consume_pending st2 (controller_idx (platform_data dev)))
    as (st3 & Hg1 & Hg2 & Hg3 & Hg4); try done.
  - eapply lookup_lt_Some; exact Hc2.
  - rewrite Hat2. simpl. rewrite Hidx1. done.
  - by rewrite Hat2.
  - rewrite Hat2 in Hg1, Hg2. simpl in Hg1, Hg2.
    exists st1, st2, st3. done.
Qed.

(** X10.  The queue never holds more than [MAX_PENDING_REQUESTS]
    requests, in any state reached from the initialized state. *)
Theorem X10_queue_stays_within_capacity
  (devs : list uni_hid_device_t) (evs : list event) (st : bridge) :
  run (initialized devs) evs = Some st ->
  (length (pending_queue_ st) <= MAX_PENDING_REQUESTS)%nat.
Proof.
  assert (Hgen : forall evs0 st0 st1,
            (length (pending_queue_ st0) <= MAX_PENDING_REQUESTS)%nat ->
            run st0 evs0 = Some st1 ->
            (length (pending_queue_ st1) <= MAX_PENDING_REQUESTS)%nat).
  { induction evs0 as [|e evs0 IH]; intros st0 st1 Hlen Hrun; simpl in Hrun.
    - by injection Hrun as <-.
    - destruct (step st0 e) as [st0'|] eqn:Hstep; [|done]. simpl in Hrun.
      apply (IH st0' st1); [by eapply step_queue_length | done]. }
  intros Hrun. apply (Hgen evs (initialized devs) st); [|done].
  rewrite initialized_queue. simpl. unfold MAX_PENDING_REQUESTS. lia.
Qed.

(** X11.  Assign, then read the identity: in a state reached from the
    initialized state, after a successful [arduino_on_device_ready] on a
    device, [arduino_get_controller_properties] and
    [arduino_get_gamepad_properties] on the slot of the device return
    [UNI_ARDUINO_ERROR_SUCCESS] with the address, type, vendor id,
    product id and capability flags of the device ([subtype] holding the
    type as well), and leave the state as it is. *)
Theorem X11_identity_is_readable_after_ready
  (devs : list uni_hid_device_t) (evs : list event) (st st' : bridge) (d : nat) :
  0 <= CONFIG_BLUEPAD32_MAX_DEVICES <= 127 ->
  run (initialized devs) evs = Some st ->
  arduino_on_device_ready st d = Some (UNI_ERROR_SUCCESS, st') ->
  exists dev k,
    g_devices st !! d = Some dev
    /\ instance_idx st' d = Some k
    /\ arduino_get_controller_properties st' k
       = (UNI_ARDUINO_ERROR_SUCCESS,
          Some {| p_btaddr := conn_btaddr dev;
                  p_type := controller_type dev;
                  p_subtype := controller_type dev;
                  p_vendor_id := vendor_id dev;
                  p_product_id := product_id dev;
                  p_flags :=
                    Z.lor
                      (Z.lor
                         (if set_player_leds (report_parser dev)
                          then ARDUINO_PROPERTY_FLAG_PLAYER_LEDS else 0)
                         (if play_dual_rumble (report_parser dev)
                          then ARDUINO_PROPERTY_FLAG_RUMBLE else 0))
                      (if set_lightbar_color (report_parser dev)
                       then ARDUINO_PROPERTY_FLAG_PLAYER_LIGHTBAR else 0) |},
          st')
    /\ arduino_get_gamepad_properties st' k
       = arduino_get_controller_properties st' k.
Proof.
  intros HN Hrun Hready.
  assert (Hwf : wf st) by (eapply wf_reachable; [lia | done]).
  destruct (arduino_on_device_ready_success st d st' HN Hwf Hready)
    as (dev & k & c & Hd & Hk & Hc & Hfree & _ & ->).
  assert (Hlt : (Z.to_nat k < length (controllers_ st))%nat)
    by (eapply lookup_lt_Some; exact Hc).
  set (st' := add_calls (ready_assign st k d dev) _).
  assert (Hat : controller_at st' k
                = {| idx := k; properties := ready_properties dev;
                     data := data c; data_updated := data_updated c |}).
  { unfold st'. rewrite (ready_assign_eq st k d dev c Hc).
    unfold controller_at. simpl. by rewrite list_lookup_insert_eq. }
  assert (Hacc : ~ rejected st' k).
  { unfold rejected. rewrite Hat. simpl. unfold UNI_ARDUINO_GAMEPAD_INVALID. lia. }
  exists dev, k. split; [done|]. split; [|split; [|done]].
  - unfold st'. rewrite (ready_assign_eq st k d dev c Hc).
    unfold instance_idx. simpl. rewrite list_lookup_alter_eq, Hd. simpl.
    f_equal. apply to_int8_small. lia.
  - destruct (arduino_get_controller_properties_cases st' k) as [[Hr _] | [_ ->]];
      [done|]. by rewrite Hat.
Qed.

(** X12.  The identity of an assigned slot is stable: in a state reached
    from the initialized state, no event changes the [idx] or the
    [properties] of an assigned slot, except the disconnection of the
    device that holds the slot, which leaves the slot unassigned and
    zeroed. *)
Theorem X12_identity_is_kept_until_release
  (devs : list uni_hid_device_t) (evs : list event) (st st' : bridge)
  (e : event) (i : nat) (c : arduino_controller_t) :
  CONFIG_BLUEPAD32_MAX_DEVICES <= 127 ->
  run (initialized devs) evs = Some st ->
  step st e = Some st' ->
  controllers_ st !! i = Some c ->
  idx c <> UNI_ARDUINO_GAMEPAD_INVALID ->
  exists c',
    controllers_ st' !! i = Some c'
    /\ ((idx c' = idx c /\ properties c' = properties c)
        \/ (c' = free_slot
            /\ exists d, e = on_device_disconnected d
                         /\ instance_idx st d = Some (Z.of_nat i))).
Proof.
  intros HN Hrun. apply step_keeps_identity; [done|].
  by eapply wf_reachable.
Qed.

(** X13.  Release closes the slot to the application: in a state reached
    from the initialized state, when the device that holds slot [k]
    disconnects, the counter goes down by one, the instance of the device
    is the invalid sentinel, slot [k] is unassigned and zeroed, every
    application-side function on [k] returns
    [UNI_ARDUINO_ERROR_INVALID_DEVICE], the queue is as it was, and no
    device resolves to [k] any more. *)
Theorem X13_release_closes_the_slot
  (devs : list uni_hid_device_t) (evs : list event) (st : bridge)
  (d : nat) (k : Z) (c : command) :
  CONFIG_BLUEPAD32_MAX_DEVICES <= 127 ->
  run (initialized devs) evs = Some st ->
  instance_idx st d = Some k ->
  k <> UNI_ARDUINO_GAMEPAD_INVALID ->
  target c = k ->
  exists st',
    arduino_on_device_disconnected st d = Some st'
    /\ used_controllers_ st' = used_controllers_ st - 1
    /\ instance_idx st' d = Some UNI_ARDUINO_GAMEPAD_INVALID
    /\ controller_at st' k = free_slot
    /\ pending_queue_ st' = pending_queue_ st
    /\ arduino_get_controller_data st' k
       = (UNI_ARDUINO_ERROR_INVALID_DEVICE, None, st')
    /\ arduino_get_gamepad_data st' k
       = (UNI_ARDUINO_ERROR_INVALID_DEVICE, None, st')
    /\ arduino_get_controller_properties st' k
       = (UNI_ARDUINO_ERROR_INVALID_DEVICE, None, st')
    /\ issue st' c = (UNI_ARDUINO_ERROR_INVALID_DEVICE, st')
    /\ uni_hid_device_get_instance_with_predicate predicate_arduino_index k st'
       = None.
Proof.
  intros HN Hrun Hins Hne Hc.
  pose proof (wf_reachable devs evs st HN Hrun) as Hwf.
  apply instance_idx_Some in Hins as (dev & Hd & <-).
  destruct (holder_in_range st d dev Hwf Hd Hne) as [Hrange Hidx].
  destruct (wf_slot st _ Hwf Hrange) as (ck & Hck & _).
  assert (Hlt : (Z.to_nat (controller_idx (platform_data dev))
                 < length (controllers_ st))%nat)
    by (eapply lookup_lt_Some; exact Hck).
  destruct (arduino_on_device_disconnected_cases st d dev Hd)
    as [[Hk _] | [(_ & Hout & _) | (_ & _ & H)]]; [done | lia |].
  specialize (H Hlt). eexists. split; [exact H|].
  set (st' := {| pending_queue_ := pending_queue_ st;
                 controllers_ := _; used_controllers_ := _;
                 g_devices := _; calls := _ |}).
  assert (Hat : controller_at st' (controller_idx (platform_data dev)) = free_slot).
  { unfold controller_at, st'. simpl. by rewrite list_lookup_insert_eq. }
  assert (Hrej : rejected st' (controller_idx (platform_data dev))).
  { unfold rejected. rewrite Hat. right. right. done. }
  split; [done|]. split.
  { unfold instance_idx, st'. simpl. by rewrite list_lookup_alter_eq, Hd. }
  split; [done|]. split; [done|].
  split.
  { by destruct (arduino_get_controller_data_cases st' (controller_idx (platform_data dev)))
      as [[_ ->] | [(Hacc & _) | (Hacc & _)]]. }
  split.
  { by destruct (arduino_get_gamepad_data_cases st' (controller_idx (platform_data dev)))
      as [[_ ->] | [(Hacc & _) | (Hacc & _)]]. }
  split.
  { by destruct (arduino_get_controller_properties_cases st'
                   (controller_idx (platform_data dev)))
      as [[_ ->] | [Hacc _]]. }
  split.
  { apply issue_rejected. by rewrite Hc. }
  unfold uni_hid_device_get_instance_with_predicate.
  apply list_find_None. apply Forall_forall. intros dev' Hin Hp.
  apply predicate_arduino_index_true in Hp.
  apply list_elem_of_lookup in Hin as [j Hj].
  unfold st' in Hj. simpl in Hj.
  destruct (decide (j = d)) as [-> | Hjd].
  - rewrite list_lookup_alter_eq, Hd in Hj. simpl in Hj. injection Hj as <-.
    simpl in Hp. congruence.
  - rewrite list_lookup_alter_ne in Hj by done.
    destruct Hwf as [_ _ _ _ Hdis].
    apply Hjd. symmetry. apply (Hdis d j dev dev'); try done.
Qed.

(** ** From the assignment to the release *)

(** The instance of a device changes only in the callbacks on that
    device. *)
Lemma step_keeps_instance st e st' d k :
  step st e = Some st' ->
  e <> on_device_connected d -> e <> on_device_disconnected d ->
  instance_idx st d = Some k -> k <> UNI_ARDUINO_GAMEPAD_INVALID ->
  instance_idx st' d = Some k.
Proof.
  intros Hstep Hcon Hdis Hins Hne.
  assert (Hsame : forall st1, g_devices st1 = g_devices st ->
                              instance_idx st1 d = Some k).
  { intros st1 H1. unfold instance_idx in *. by rewrite H1. }
  assert (Halter : forall st1 d0 ins,
            d0 <> d ->
            g_devices st1
            = alter (fun dev => set_arduino_instance dev ins) d0 (g_devices st) ->
            instance_idx st1 d = Some k).
  { intros st1 d0 ins Hd0 H1. unfold instance_idx in *.
    by rewrite H1, list_lookup_alter_ne. }
  destruct e; simpl in Hstep.
  - unfold arduino_on_device_connected in Hstep.
    destruct (g_devices st !! d0); [|done]. simpl in Hstep. injection Hstep as <-.
    apply (Halter _ d0 {| controller_idx := UNI_ARDUINO_GAMEPAD_INVALID |});
      [congruence | done].
  - destruct (g_devices st !! d0) as [dev0|] eqn:Hdev;
      [|unfold arduino_on_device_ready in Hstep; by rewrite Hdev in Hstep].
    destruct (arduino_on_device_ready_cases st d0 dev0 Hdev)
      as [[_ H] | [(_ & _ & H) | [(_ & _ & _ & H) | (_ & Hi & k0 & _ & _ & _ & H)]]];
      rewrite H in Hstep; simpl in Hstep; injection Hstep as <-;
      try (by apply Hsame).
    apply (Halter _ d0 {| controller_idx := to_int8 k0 |}); [|done].
    intros ->. apply instance_idx_Some in Hins as (dev & Hd & Hk).
    rewrite Hd in Hdev. injection Hdev as ->. congruence.
  - unfold arduino_on_device_disconnected in Hstep.
    destruct (g_devices st !! d0); [|done]. simpl in Hstep.
    repeat match type of Hstep with
      | context [if ?b then _ else _] => destruct b
      end; injection Hstep as <-; try (by apply Hsame).
    apply (Halter _ d0 {| controller_idx := UNI_ARDUINO_GAMEPAD_INVALID |});
      [congruence | done].
  - unfold arduino_on_controller_data in Hstep.
    destruct (g_devices (process_pending_requests st) !! d0); [|done].
    simpl in Hstep.
    repeat match type of Hstep with
      | context [if ?b then _ else _] => destruct b
      end; injection Hstep as <-; apply Hsame; simpl;
      apply process_pending_requests_devices.
  - injection Hstep as <-. apply Hsame.
    by destruct (arduino_get_gamepad_data_cases st idx_)
      as [[_ ->] | [(_ & _ & ->) | (_ & _ & ->)]].
  - injection Hstep as <-. apply Hsame.
    by destruct (arduino_get_controller_data_cases st idx_)
      as [[_ ->] | [(_ & _ & ->) | (_ & _ & ->)]].
  - injection Hstep as <-. apply Hsame.
    by destruct (arduino_get_controller_properties_cases st idx_)
      as [[_ ->] | [_ ->]].
  - injection Hstep as <-. apply Hsame. unfold arduino_get_gamepad_properties.
    by destruct (arduino_get_controller_properties_cases st idx_)
      as [[_ ->] | [_ ->]].
  - injection Hstep as <-. apply Hsame.
    destruct (issue_state st (SetPlayerLEDs idx_ leds_)) as [q Hq].
    simpl in Hq. by rewrite Hq.
  - injection Hstep as <-. apply Hsame.
    destruct (issue_state st (SetLightbarColor idx_ r g b)) as [q Hq].
    simpl in Hq. by rewrite Hq.
  - injection Hstep as <-. apply Hsame.
    destruct (issue_state st
                (Rumble idx_ delayed_start_ms duration_ms weak strong)) as [q Hq].
    simpl in Hq. by rewrite Hq.
  - injection Hstep as <-. apply Hsame.
    destruct (issue_state st (Disconnect idx_)) as [q Hq].
    simpl in Hq. by rewrite Hq.
Qed.

Lemma run_keeps_holder d k evs : forall st st',
  CONFIG_BLUEPAD32_MAX_DEVICES <= 127 ->
  wf st ->
  instance_idx st d = Some k -> k <> UNI_ARDUINO_GAMEPAD_INVALID ->
  run st evs = Some st' ->
  Forall (fun e => e <> on_device_connected d /\ e <> on_device_disconnected d) evs ->
  wf st'
  /\ instance_idx st' d = Some k
  /\ properties (controller_at st' k) = properties (controller_at st k).
Proof.
  induction evs as [|e evs IH]; intros st st' HN Hwf Hins Hne Hrun Hevs;
    simpl in Hrun.
  - by injection Hrun as <-.
  - destruct (step st e) as [st1|] eqn:Hstep; [|done]. simpl in Hrun.
    inversion Hevs as [|? ? [Hcon Hdis] Hevs']; subst.
    pose proof (wf_step st e st1 HN Hwf Hstep) as Hwf1.
    pose proof (step_keeps_instance st e st1 d k Hstep Hcon Hdis Hins Hne) as Hins1.
    destruct (IH st1 st' HN Hwf1 Hins1 Hne Hrun Hevs') as (Hwf' & Hins' & Hprops).
    split; [done|]. split; [done|]. rewrite Hprops.
    pose proof Hins as Hins0.
    apply instance_idx_Some in Hins as (dev & Hd & Hk). subst k.
    destruct (holder_in_range st d dev Hwf Hd Hne) as [Hrange Hidx].
    destruct (wf_slot st _ Hwf Hrange) as (c & Hc & Hat).
    rewrite Hat in Hidx.
    destruct (step_keeps_identity st e st1 _ c HN Hwf Hstep Hc)
      as (c' & Hc' & [[_ Hkept] | [_ (d0 & -> & Hd0)]]).
    + by rewrite Hidx.
    + by rewrite (controller_at_lookup st1 _ c' Hc'), Hat.
    + exfalso. apply Hdis. f_equal.
      rewrite Z2Nat.id in Hd0 by lia.
      apply instance_idx_Some in Hd0 as (dev0 & Hdev0 & Hk0).
      destruct Hwf as [_ _ _ _ Hdistinct].
      symmetry. apply (Hdistinct d d0 dev dev0); done.
Qed.

(** X17.  The identity lasts as long as the holder: in a state reached
    from the initialized state, after a successful
    [arduino_on_device_ready] on a device and any further events other
    than [arduino_on_device_connected] and
    [arduino_on_device_disconnected] on that device, the device still
    holds the same slot and [arduino_get_controller_properties] on it
    returns [UNI_ARDUINO_ERROR_SUCCESS] with the same identity as right
    after the assignment. *)
Theorem X17_identity_lasts_as_long_as_the_holder
  (devs : list uni_hid_device_t) (evs evs' : list event) (st st1 st2 : bridge)
  (d : nat) :
  0 <= CONFIG_BLUEPAD32_MAX_DEVICES <= 127 ->
  run (initialized devs) evs = Some st ->
  arduino_on_device_ready st d = Some (UNI_ERROR_SUCCESS, st1) ->
  run st1 evs' = Some st2 ->
  Forall (fun e => e <> on_device_connected d /\ e <> on_device_disconnected d)
    evs' ->
  exists k p,
    instance_idx st1 d = Some k
    /\ instance_idx st2 d = Some k
    /\ arduino_get_controller_properties st1 k
       = (UNI_ARDUINO_ERROR_SUCCESS, Some p, st1)
    /\ arduino_get_controller_properties st2 k
       = (UNI_ARDUINO_ERROR_SUCCESS, Some p, st2).
Proof.
  intros HN Hrun Hready Hrun' Hevs.
  assert (Hwf : wf st) by (eapply wf_reachable; [lia | done]).
  assert (Hwf1 : wf st1) by (eapply wf_arduino_on_device_ready; [lia | done..]).
  destruct (arduino_on_device_ready_success st d st1 HN Hwf Hready)
    as (dev & k & c & Hd & Hk & Hc & Hfree & _ & Hst1).
  assert (Hins1 : instance_idx st1 d = Some k).
  { rewrite Hst1, (ready_assign_eq st k d dev c Hc).
    unfold instance_idx. simpl. rewrite list_lookup_alter_eq, Hd. simpl.
    f_equal. apply to_int8_small. lia. }
  assert (Hne : k <> UNI_ARDUINO_GAMEPAD_INVALID)
    by (unfold UNI_ARDUINO_GAMEPAD_INVALID; lia).
  destruct (run_keeps_holder d k evs' st1 st2 ltac:(lia) Hwf1 Hins1 Hne Hrun' Hevs)
    as (Hwf2 & Hins2 & Hprops).
  assert (Hacc : forall s, wf s -> instance_idx s d = Some k -> ~ rejected s k).
  { intros s Hs Hi. apply instance_idx_Some in Hi as (dev' & Hd' & Hk').
    subst k. destruct (holder_in_range s d dev' Hs Hd' Hne) as [Hr Hi].
    unfold rejected. rewrite Hi. lia. }
  exists k, (properties (controller_at st1 k)).
  split; [done|]. split; [done|]. split.
  - destruct (arduino_get_controller_properties_cases st1 k) as [[Hr _] | [_ ->]];
      [by apply Hacc in Hr | done].
  - destruct (arduino_get_controller_properties_cases st2 k) as [[Hr _] | [_ ->]];
      [by apply Hacc in Hr | by rewrite Hprops].
Qed.

(** X18.  The application side stays on its side: no call of the
    application ([arduino_get_gamepad_data], [arduino_get_controller_data],
    the two properties readers and the four commands) makes a call into
    the Bluetooth stack or a device, changes a device instance, the
    counter, or the [idx] or [properties] of a slot. *)
Theorem X18_application_calls_stay_on_their_side
  (st st' : bridge) (e : event) :
  application_event e ->
  step st e = Some st' ->
  calls st' = calls st
  /\ g_devices st' = g_devices st
  /\ used_controllers_ st' = used_controllers_ st
  /\ map idx (controllers_ st') = map idx (controllers_ st)
  /\ map properties (controllers_ st') = map properties (controllers_ st).
Proof.
  intros Happ Hstep.
  assert (Hflag : forall i b,
            let s := store_controller st i (set_data_updated (controller_at st i) b) in
            calls s = calls st /\ g_devices s = g_devices st
            /\ used_controllers_ s = used_controllers_ st
            /\ map idx (controllers_ s) = map idx (controllers_ st)
            /\ map properties (controllers_ s) = map properties (controllers_ st)).
  { intros i b. simpl. repeat split.
    - destruct (controllers_ st !! Z.to_nat i) as [c|] eqn:Hc.
      + unfold controller_at. rewrite Hc. simpl.
        change (map idx ?l) with (idx <$> l).
        rewrite list_fmap_insert. simpl. apply list_insert_id.
        by rewrite list_lookup_fmap, Hc.
      + rewrite list_insert_ge; [done|]. by apply lookup_ge_None.
    - destruct (controllers_ st !! Z.to_nat i) as [c|] eqn:Hc.
      + unfold controller_at. rewrite Hc. simpl.
        change (map properties ?l) with (properties <$> l).
        rewrite list_fmap_insert. simpl. apply list_insert_id.
        by rewrite list_lookup_fmap, Hc.
      + rewrite list_insert_ge; [done|]. by apply lookup_ge_None. }
  destruct e; simpl in Happ; try done; simpl in Hstep; injection Hstep as <-.
  - destruct (arduino_get_gamepad_data_cases st idx_)
      as [[_ ->] | [(_ & _ & ->) | (_ & _ & ->)]]; try done. apply Hflag.
  - destruct (arduino_get_controller_data_cases st idx_)
      as [[_ ->] | [(_ & _ & ->) | (_ & _ & ->)]]; try done. apply Hflag.
  - by destruct (arduino_get_controller_properties_cases st idx_)
      as [[_ ->] | [_ ->]].
  - unfold arduino_get_gamepad_properties.
    by destruct (arduino_get_controller_properties_cases st idx_)
      as [[_ ->] | [_ ->]].
  - destruct (issue_state st (SetPlayerLEDs idx_ leds_)) as [q Hq].
    simpl in Hq. by rewrite Hq.
  - destruct (issue_state st (SetLightbarColor idx_ r g b)) as [q Hq].
    simpl in Hq. by rewrite Hq.
  - destruct (issue_state st
                (Rumble idx_ delayed_start_ms duration_ms weak strong)) as [q Hq].
    simpl in Hq. by rewrite Hq.
  - destruct (issue_state st (Disconnect idx_)) as [q Hq].
    simpl in Hq. by rewrite Hq.
Qed.

End MoreProperties.

(** * The specification at concrete inputs *)

#[local] Existing Instance four_slots.

(** C1.  The drain on [stale_then_live]: the request for slot 0, whose
    device is gone, is taken from the queue and makes no call; the
    function then returns, and the request behind it, for the live
    device of slot 1 with a lightbar, is still in the queue and has made
    no call either. *)
Theorem C1_drain_returns_at_unresolved_request :
  pending_queue_ stale_then_live
  = [player_leds_request 0 1; lightbar_color_request 1 255 0 0]
  /\ uni_hid_device_get_instance_with_predicate predicate_arduino_index 0
       stale_then_live = None
  /\ fst <$> uni_hid_device_get_instance_with_predicate predicate_arduino_index 1
               stale_then_live = Some 1%nat
  /\ process_pending_requests stale_then_live
     = set_pending_queue stale_then_live [lightbar_color_request 1 255 0 0]
  /\ calls (process_pending_requests stale_then_live) = calls stale_then_live.
Proof. repeat split; vm_compute; reflexivity. Qed.

(** C8.  After [arduino_on_device_ready] on a pad of type 1 and subtype
    101, slot 0 holds the address, type, vendor id, product id and flags
    of the pad, and its [subtype] is the pad's type, 1. *)
Theorem C8_ready_stores_type_as_subtype :
  (controller_type <$> g_devices one_pad !! 0%nat) = Some 1
  /\ (controller_subtype <$> g_devices one_pad !! 0%nat) = Some 101
  /\ instance_idx one_pad 0 = Some 0
  /\ properties (controller_at one_pad 0)
     = {| p_btaddr := [1; 1; 1; 1; 1; 1]; p_type := 1; p_subtype := 1;
          p_vendor_id := 201; p_product_id := 301; p_flags := 7 |}.
Proof. repeat split; vm_compute; reflexivity. Qed.

Ltac slot_accepted :=
  unfold rejected; simpl; unfold UNI_ARDUINO_GAMEPAD_INVALID; lia.

(** C2 as stated fails on [full_queue]: slot 0 is in range and assigned,
    the queue holds 16 requests, and each of the four commands returns
    [UNI_ARDUINO_ERROR_SUCCESS], the code of an accepted request, while
    the request is dropped. *)
Lemma C2_counterexample_full_queue_reports_success :
  length (pending_queue_ full_queue) = MAX_PENDING_REQUESTS
  /\ invalid_device full_queue 0 = false
  /\ arduino_set_player_leds full_queue 0 1
     = (UNI_ARDUINO_ERROR_SUCCESS, full_queue)
  /\ arduino_set_lightbar_color full_queue 0 255 0 0
     = (UNI_ARDUINO_ERROR_SUCCESS, full_queue)
  /\ arduino_play_dual_rumble full_queue 0 0 100 128 255
     = (UNI_ARDUINO_ERROR_SUCCESS, full_queue)
  /\ arduino_disconnect_controller full_queue 0
     = (UNI_ARDUINO_ERROR_SUCCESS, full_queue).
Proof. repeat split; vm_compute; reflexivity. Qed.

Lemma C2_witness_full_queue :
  issue full_queue (SetLightbarColor 0 255 0 0)
  = (UNI_ARDUINO_ERROR_SUCCESS, full_queue)
  /\ issue_all (process_pending_requests full_queue)
       (repeat (SetLightbarColor 0 255 0 0) 16)
     = (repeat UNI_ARDUINO_ERROR_SUCCESS 16,
        set_pending_queue (process_pending_requests full_queue)
          (repeat (lightbar_color_request 0 255 0 0) 16)).
Proof.
  assert (Hacc : ~ rejected full_queue (target (SetLightbarColor 0 255 0 0)))
    by slot_accepted.
  destruct (C2_full_queue_drops_request_and_reports_success full_queue
              (SetLightbarColor 0 255 0 0) Hacc eq_refl) as [Hdrop Hrefill].
  split; [exact Hdrop|].
  apply (Hrefill (repeat (SetLightbarColor 0 255 0 0) 16)).
  - reflexivity.
  - simpl. unfold MAX_PENDING_REQUESTS. lia.
  - simpl. repeat (constructor; [exact Hacc|]). constructor.
Defined.

(** C9 as stated fails on [full_table]: pad 0 holds slot 0, all four
    slots are in use, and [arduino_on_device_ready] on pad 0 returns
    [UNI_ERROR_NO_SLOTS]. *)
Lemma C9_counterexample_full_table_reports_no_slots :
  instance_idx full_table 0 = Some 0
  /\ used_controllers_ full_table = CONFIG_BLUEPAD32_MAX_DEVICES
  /\ arduino_on_device_ready full_table 0 = Some (UNI_ERROR_NO_SLOTS, full_table).
Proof. repeat split; vm_compute; reflexivity. Qed.

Lemma C9_witness_one_pad :
  arduino_on_device_ready one_pad 0 = Some (UNI_ERROR_INVALID_CONTROLLER, one_pad).
Proof.
  apply (C9_ready_on_assigned_device_is_noop one_pad 0
           {| conn_btaddr := [1; 1; 1; 1; 1; 1];
              controller_type := 1; controller_subtype := 101;
              vendor_id := 201; product_id := 301;
              report_parser :=
                {| set_player_leds := true; play_dual_rumble := true;
                   set_lightbar_color := true |};
              platform_data := {| controller_idx := 0 |} |}).
  - reflexivity.
  - simpl. unfold UNI_ARDUINO_GAMEPAD_INVALID. lia.
Defined.

Lemma C3_witness_one_pad :
  exists st1 st2,
    arduino_on_controller_data one_pad 0 (77 : Z) = Some st1
    /\ arduino_get_controller_data st1 0 = (UNI_ARDUINO_ERROR_SUCCESS, Some 77, st2)
    /\ arduino_get_gamepad_data st1 0 = (UNI_ARDUINO_ERROR_SUCCESS, Some 77, st2)
    /\ data_updated (controller_at st2 0) = false
    /\ arduino_get_controller_data st2 0 = (UNI_ARDUINO_ERROR_NO_DATA, None, st2)
    /\ arduino_get_gamepad_data st2 0 = (UNI_ARDUINO_ERROR_NO_DATA, None, st2).
Proof.
  apply (C3_publish_then_consume_once one_pad 0
           {| conn_btaddr := [1; 1; 1; 1; 1; 1];
              controller_type := 1; controller_subtype := 101;
              vendor_id := 201; product_id := 301;
              report_parser :=
                {| set_player_leds := true; play_dual_rumble := true;
                   set_lightbar_color := true |};
              platform_data := {| controller_idx := 0 |} |} (77 : Z) 0).
  - reflexivity.
  - reflexivity.
  - simpl. lia.
  - reflexivity.
  - simpl. unfold UNI_ARDUINO_GAMEPAD_INVALID. lia.
Defined.

Lemma C4_witness_connect_release_reconnect :
  exists st,
    run (initialized six_pads)
      [on_device_ready 0%nat; on_device_ready 1%nat; on_device_ready 2%nat;
       on_device_disconnected 1%nat; on_device_ready 3%nat;
       on_device_ready 4%nat; on_device_ready 5%nat;
       on_device_disconnected 0%nat] = Some st
    /\ used_controllers_ st = count_assigned (controllers_ st)
    /\ (forall (i : nat) c,
          controllers_ st !! i = Some c ->
          idx c <> UNI_ARDUINO_GAMEPAD_INVALID -> idx c = Z.of_nat i)
    /\ (forall (i j : nat) ci cj,
          controllers_ st !! i = Some ci -> controllers_ st !! j = Some cj ->
          idx ci <> UNI_ARDUINO_GAMEPAD_INVALID ->
          idx cj <> UNI_ARDUINO_GAMEPAD_INVALID ->
          idx ci = idx cj -> i = j).
Proof.
  apply (C4_used_controllers_counts_assigned_slots six_pads).
  - simpl. lia.
  - repeat (constructor; [simpl; lia|]). constructor.
Defined.

Lemma C5_witness_second_pad_takes_slot_1 :
  exists k,
    instance_idx two_pads 2 = Some k
    /\ 0 <= k < 4
    /\ idx (controller_at one_pad k) = UNI_ARDUINO_GAMEPAD_INVALID
    /\ (forall j, 0 <= j < k ->
          idx (controller_at one_pad j) <> UNI_ARDUINO_GAMEPAD_INVALID)
    /\ idx (controller_at two_pads k) = k.
Proof.
  apply (proj1 (C5_reused_slot_holds_type_as_subtype four_slots eq_refl)
           six_pads [on_device_ready 0%nat] one_pad 2%nat two_pads).
  - reflexivity.
  - reflexivity.
Defined.

Lemma C7_witness_lightbar_once :
  calls (process_pending_requests lightbar_pending)
  = calls lightbar_pending ++ [call_set_lightbar_color 1 255 0 0].
Proof.
  destruct (C7_drain_dispatches_to_advertised_capability lightbar_pending
              (lightbar_color_request 1 255 0 0) [] 1
              {| conn_btaddr := [2; 2; 2; 2; 2; 2];
                 controller_type := 2; controller_subtype := 102;
                 vendor_id := 202; product_id := 302;
                 report_parser :=
                   {| set_player_leds := false; play_dual_rumble := false;
                      set_lightbar_color := true |};
                 platform_data := {| controller_idx := 1 |} |}
              eq_refl eq_refl) as (rest & Hrest & _ & Hlightbar & _).
  rewrite (Hlightbar eq_refl).
  change (calls (process_pending_requests (set_pending_queue lightbar_pending [])))
    with (calls lightbar_pending ++ []) in Hrest.
  apply app_inv_head in Hrest. by rewrite <- Hrest.
Defined.

Lemma C10_witness_third_pad :
  exists dev dev' k,
    g_devices one_pad !! 2%nat = Some dev
    /\ g_devices two_pads !! 2%nat = Some dev'
    /\ controller_idx (platform_data dev') = k
    /\ 0 <= k < CONFIG_BLUEPAD32_MAX_DEVICES
    /\ idx (controller_at one_pad k) = UNI_ARDUINO_GAMEPAD_INVALID
    /\ idx (controller_at two_pads k) = k
    /\ calls two_pads
       = calls one_pad ++ (if set_player_leds (report_parser dev)
                           then [call_set_player_leds 2 (k + 1)] else []).
Proof.
  apply (C10_ready_sets_player_leds_to_slot_plus_one six_pads
           [on_device_ready 0%nat] one_pad two_pads 2).
  - simpl. lia.
  - reflexivity.
  - reflexivity.
Defined.

(** The two ends of the lightbar scenario of the spec, evaluated: slot 1
    has a lightbar and the call is made once with (255, 0, 0); the pad of
    slot 1 has no player LEDs and a player-LED request makes no call.
    Both drains leave the queue empty. *)
Example drain_lightbar_scenario :
  calls (process_pending_requests lightbar_pending)
  = calls lightbar_pending ++ [call_set_lightbar_color 1 255 0 0]
  /\ pending_queue_ (process_pending_requests lightbar_pending) = []
  /\ calls (process_pending_requests player_leds_pending)
     = calls player_leds_pending
  /\ pending_queue_ (process_pending_requests player_leds_pending) = [].
Proof. repeat split; vm_compute; reflexivity. Qed.

(** * The attribute table and its handles *)

(** X14.  [profile_data] is a well-formed table of format version 1:
    every byte fits eight bits, the sizes of the attributes chain from
    the version byte to the end marker, which is the last two bytes, and
    the table holds 55 attributes whose handles are 1, 2, ..., 0x37 in
    this order. *)
Theorem X14_profile_data_is_well_formed :
  Forall (fun b => 0 <= b < 256) profile_data
  /\ att_db profile_data = Some profile_attributes
  /\ map att_handle profile_attributes = map Z.of_nat (seq 1 55).
Proof.
  split; [|split; vm_compute; reflexivity].
  apply Forall_forall. intros b Hb. apply list_elem_of_In in Hb.
  assert (Hok : forallb (fun b => (0 <=? b) && (b <? 256)) profile_data = true)
    by (vm_compute; reflexivity).
  rewrite forallb_forall in Hok. specialize (Hok b Hb).
  apply andb_true_iff in Hok as [H0 H1]. lia.
Qed.

(** X15.  Every characteristic declaration of the table is followed by
    its value attribute: the value handle in the declaration is the
    next handle, the attribute at that handle carries the UUID of the
    declaration, it is readable and writable exactly as the properties
    of the declaration say, and a client characteristic configuration
    descriptor comes right after it exactly when the properties have
    notify or indicate. *)
Theorem X15_characteristics_are_followed_by_their_values :
  Forall
    (fun e =>
       characteristic_value_handle e = att_handle e + 1
       /\ att_uuid <$> att_with_handle profile_attributes (att_handle e + 1)
          = Some (characteristic_uuid e)
       /\ (fun v => Z.land (att_flags v) (Z.lor ATT_PROPERTY_READ ATT_PROPERTY_WRITE))
            <$> att_with_handle profile_attributes (att_handle e + 1)
          = Some (Z.land (characteristic_properties e)
                    (Z.lor ATT_PROPERTY_READ ATT_PROPERTY_WRITE))
       /\ default false
            (is_client_configuration
               <$> att_with_handle profile_attributes (att_handle e + 2))
          = negb (Z.land (characteristic_properties e)
                    (Z.lor ATT_PROPERTY_NOTIFY ATT_PROPERTY_INDICATE) =? 0))
    (List.filter is_characteristic profile_attributes).
Proof.
  assert (Hok : forallb
            (fun e =>
               bool_decide (characteristic_value_handle e = att_handle e + 1)
               && bool_decide
                    (att_uuid <$> att_with_handle profile_attributes (att_handle e + 1)
                     = Some (characteristic_uuid e))
               && bool_decide
                    ((fun v => Z.land (att_flags v)
                                 (Z.lor ATT_PROPERTY_READ ATT_PROPERTY_WRITE))
                       <$> att_with_handle profile_attributes (att_handle e + 1)
                     = Some (Z.land (characteristic_properties e)
                               (Z.lor ATT_PROPERTY_READ ATT_PROPERTY_WRITE)))
               && bool_decide
                    (default false
                       (is_client_configuration
                          <$> att_with_handle profile_attributes (att_handle e + 2))
                     = negb (Z.land (characteristic_properties e)
                               (Z.lor ATT_PROPERTY_NOTIFY ATT_PROPERTY_INDICATE) =? 0)))
            (List.filter is_characteristic profile_attributes) = true)
    by (vm_compute; reflexivity).
  rewrite forallb_forall in Hok.
  apply Forall_forall. intros e He. apply list_elem_of_In in He.
  specialize (Hok e He).
  repeat (apply andb_true_iff in Hok as [Hok ?]).
  repeat split; by eapply bool_decide_eq_true_1.
Qed.

(** X16.  The handle constants of the header agree with the table: the
    service start handles are the handles of the primary service
    declarations, in order, and each end handle is the last handle
    before the next service, the last one being the last handle of the
    table; the value handles are the value handles of the characteristic
    declarations, in order; the two client configuration handles are the
    handles of the two descriptors, each right after the value of its
    characteristic; the constants named after 4627C4A4-AC01 to -AC0C are
    the handles of the attributes with these UUIDs, and the service
    declared at its start handle is 4627C4A4-AC00. *)
Theorem X16_handle_constants_agree_with_the_table :
  map att_handle (List.filter is_service profile_attributes)
  = [ATT_SERVICE_GAP_SERVICE_START_HANDLE;
     ATT_SERVICE_GATT_SERVICE_START_HANDLE;
     ATT_SERVICE_4627C4A4_AC00_46B9_B688_AFC5C1BF7F63_START_HANDLE;
     ATT_SERVICE_ORG_BLUETOOTH_SERVICE_BATTERY_SERVICE_START_HANDLE;
     ATT_SERVICE_ORG_BLUETOOTH_SERVICE_DEVICE_INFORMATION_START_HANDLE]
  /\ [ATT_SERVICE_GAP_SERVICE_END_HANDLE;
      ATT_SERVICE_GATT_SERVICE_END_HANDLE;
      ATT_SERVICE_4627C4A4_AC00_46B9_B688_AFC5C1BF7F63_END_HANDLE;
      ATT_SERVICE_ORG_BLUETOOTH_SERVICE_BATTERY_SERVICE_END_HANDLE;
      ATT_SERVICE_ORG_BLUETOOTH_SERVICE_DEVICE_INFORMATION_END_HANDLE]
     = [ATT_SERVICE_GATT_SERVICE_START_HANDLE - 1;
        ATT_SERVICE_4627C4A4_AC00_46B9_B688_AFC5C1BF7F63_START_HANDLE - 1;
        ATT_SERVICE_ORG_BLUETOOTH_SERVICE_BATTERY_SERVICE_START_HANDLE - 1;
        ATT_SERVICE_ORG_BLUETOOTH_SERVICE_DEVICE_INFORMATION_START_HANDLE - 1;
        Z.of_nat (length profile_attributes)]
  /\ [ATT_SERVICE_GAP_SERVICE_01_START_HANDLE;
      ATT_SERVICE_GAP_SERVICE_01_END_HANDLE;
      ATT_SERVICE_GATT_SERVICE_01_START_HANDLE;
      ATT_SERVICE_GATT_SERVICE_01_END_HANDLE;
      ATT_SERVICE_4627C4A4_AC00_46B9_B688_AFC5C1BF7F63_01_START_HANDLE;
      ATT_SERVICE_4627C4A4_AC00_46B9_B688_AFC5C1BF7F63_01_END_HANDLE;
      ATT_SERVICE_ORG_BLUETOOTH_SERVICE_BATTERY_SERVICE_01_START_HANDLE;
      ATT_SERVICE_ORG_BLUETOOTH_SERVICE_BATTERY_SERVICE_01_END_HANDLE;
      ATT_SERVICE_ORG_BLUETOOTH_SERVICE_DEVICE_INFORMATION_01_START_HANDLE;
      ATT_SERVICE_ORG_BLUETOOTH_SERVICE_DEVICE_INFORMATION_01_END_HANDLE]
     = [ATT_SERVICE_GAP_SERVICE_START_HANDLE;
        ATT_SERVICE_GAP_SERVICE_END_HANDLE;
        ATT_SERVICE_GATT_SERVICE_START_HANDLE;
        ATT_SERVICE_GATT_SERVICE_END_HANDLE;
        ATT_SERVICE_4627C4A4_AC00_46B9_B688_AFC5C1BF7F63_START_HANDLE;
        ATT_SERVICE_4627C4A4_AC00_46B9_B688_AFC5C1BF7F63_END_HANDLE;
        ATT_SERVICE_ORG_BLUETOOTH_SERVICE_BATTERY_SERVICE_START_HANDLE;
        ATT_SERVICE_ORG_BLUETOOTH_SERVICE_BATTERY_SERVICE_END_HANDLE;
        ATT_SERVICE_ORG_BLUETOOTH_SERVICE_DEVICE_INFORMATION_START_HANDLE;
        ATT_SERVICE_ORG_BLUETOOTH_SERVICE_DEVICE_INFORMATION_END_HANDLE]
  /\ map characteristic_value_handle
       (List.filter is_characteristic profile_attributes)
     = [ATT_CHARACTERISTIC_GAP_DEVICE_NAME_01_VALUE_HANDLE;
        ATT_CHARACTERISTIC_GATT_DATABASE_HASH_01_VALUE_HANDLE;
        ATT_CHARACTERISTIC_4627C4A4_AC01_46B9_B688_AFC5C1BF7F63_01_VALUE_HANDLE;
        ATT_CHARACTERISTIC_4627C4A4_AC02_46B9_B688_AFC5C1BF7F63_01_VALUE_HANDLE;
        ATT_CHARACTERISTIC_4627C4A4_AC03_46B9_B688_AFC5C1BF7F63_01_VALUE_HANDLE;
        ATT_CHARACTERISTIC_4627C4A4_AC04_46B9_B688_AFC5C1BF7F63_01_VALUE_HANDLE;
        ATT_CHARACTERISTIC_4627C4A4_AC05_46B9_B688_AFC5C1BF7F63_01_VALUE_HANDLE;
        ATT_CHARACTERISTIC_4627C4A4_AC06_46B9_B688_AFC5C1BF7F63_01_VALUE_HANDLE;
        ATT_CHARACTERISTIC_4627C4A4_AC07_46B9_B688_AFC5C1BF7F63_01_VALUE_HANDLE;
        ATT_CHARACTERISTIC_4627C4A4_AC08_46B9_B688_AFC5C1BF7F63_01_VALUE_HANDLE;
        ATT_CHARACTERISTIC_4627C4A4_AC09_46B9_B688_AFC5C1BF7F63_01_VALUE_HANDLE;
        ATT_CHARACTERISTIC_4627C4A4_AC0A_46B9_B688_AFC5C1BF7F63_01_VALUE_HANDLE;
        ATT_CHARACTERISTIC_4627C4A4_AC0B_46B9_B688_AFC5C1BF7F63_01_VALUE_HANDLE;
        ATT_CHARACTERISTIC_4627C4A4_AC0C_46B9_B688_AFC5C1BF7F63_01_VALUE_HANDLE;
        ATT_CHARACTERISTIC_ORG_BLUETOOTH_CHARACTERISTIC_BATTERY_LEVEL_01_VALUE_HANDLE;
        ATT_CHARACTERISTIC_ORG_BLUETOOTH_CHARACTERISTIC_MANUFACTURER_NAME_STRING_01_VALUE_HANDLE;
        ATT_CHARACTERISTIC_ORG_BLUETOOTH_CHARACTERISTIC_MODEL_NUMBER_STRING_01_VALUE_HANDLE;
        ATT_CHARACTERISTIC_ORG_BLUETOOTH_CHARACTERISTIC_SERIAL_NUMBER_STRING_01_VALUE_HANDLE;
        ATT_CHARACTERISTIC_ORG_BLUETOOTH_CHARACTERISTIC_HARDWARE_REVISION_STRING_01_VALUE_HANDLE;
        ATT_CHARACTERISTIC_ORG_BLUETOOTH_CHARACTERISTIC_FIRMWARE_REVISION_STRING_01_VALUE_HANDLE;
        ATT_CHARACTERISTIC_ORG_BLUETOOTH_CHARACTERISTIC_SOFTWARE_REVISION_STRING_01_VALUE_HANDLE;
        ATT_CHARACTERISTIC_ORG_BLUETOOTH_CHARACTERISTIC_SYSTEM_ID_01_VALUE_HANDLE;
        ATT_CHARACTERISTIC_ORG_BLUETOOTH_CHARACTERISTIC_IEEE_11073_20601_REGULATORY_CERTIFICATION_DATA_LIST_01_VALUE_HANDLE;
        ATT_CHARACTERISTIC_ORG_BLUETOOTH_CHARACTERISTIC_PNP_ID_01_VALUE_HANDLE]
  /\ map att_handle (List.filter is_client_configuration profile_attributes)
     = [ATT_CHARACTERISTIC_4627C4A4_AC06_46B9_B688_AFC5C1BF7F63_01_CLIENT_CONFIGURATION_HANDLE;
        ATT_CHARACTERISTIC_ORG_BLUETOOTH_CHARACTERISTIC_BATTERY_LEVEL_01_CLIENT_CONFIGURATION_HANDLE]
  /\ [ATT_CHARACTERISTIC_4627C4A4_AC06_46B9_B688_AFC5C1BF7F63_01_CLIENT_CONFIGURATION_HANDLE;
      ATT_CHARACTERISTIC_ORG_BLUETOOTH_CHARACTERISTIC_BATTERY_LEVEL_01_CLIENT_CONFIGURATION_HANDLE]
     = [ATT_CHARACTERISTIC_4627C4A4_AC06_46B9_B688_AFC5C1BF7F63_01_VALUE_HANDLE + 1;
        ATT_CHARACTERISTIC_ORG_BLUETOOTH_CHARACTERISTIC_BATTERY_LEVEL_01_VALUE_HANDLE + 1]
  /\ map (fun h => att_uuid <$> att_with_handle profile_attributes h)
       [ATT_CHARACTERISTIC_4627C4A4_AC01_46B9_B688_AFC5C1BF7F63_01_VALUE_HANDLE;
        ATT_CHARACTERISTIC_4627C4A4_AC02_46B9_B688_AFC5C1BF7F63_01_VALUE_HANDLE;
        ATT_CHARACTERISTIC_4627C4A4_AC03_46B9_B688_AFC5C1BF7F63_01_VALUE_HANDLE;
        ATT_CHARACTERISTIC_4627C4A4_AC04_46B9_B688_AFC5C1BF7F63_01_VALUE_HANDLE;
        ATT_CHARACTERISTIC_4627C4A4_AC05_46B9_B688_AFC5C1BF7F63_01_VALUE_HANDLE;
        ATT_CHARACTERISTIC_4627C4A4_AC06_46B9_B688_AFC5C1BF7F63_01_VALUE_HANDLE;
        ATT_CHARACTERISTIC_4627C4A4_AC07_46B9_B688_AFC5C1BF7F63_01_VALUE_HANDLE;
        ATT_CHARACTERISTIC_4627C4A4_AC08_46B9_B688_AFC5C1BF7F63_01_VALUE_HANDLE;
        ATT_CHARACTERISTIC_4627C4A4_AC09_46B9_B688_AFC5C1BF7F63_01_VALUE_HANDLE;
        ATT_CHARACTERISTIC_4627C4A4_AC0A_46B9_B688_AFC5C1BF7F63_01_VALUE_HANDLE;
        ATT_CHARACTERISTIC_4627C4A4_AC0B_46B9_B688_AFC5C1BF7F63_01_VALUE_HANDLE;
        ATT_CHARACTERISTIC_4627C4A4_AC0C_46B9_B688_AFC5C1BF7F63_01_VALUE_HANDLE]
     = map (fun n => Some (bluepad32_uuid n))
         [0x01; 0x02; 0x03; 0x04; 0x05; 0x06; 0x07; 0x08; 0x09; 0x0A; 0x0B; 0x0C]
  /\ att_value
       <$> att_with_handle profile_attributes
             ATT_SERVICE_4627C4A4_AC00_46B9_B688_AFC5C1BF7F63_START_HANDLE
     = Some (bluepad32_uuid 0x00).
Proof. repeat split; vm_compute; reflexivity. Qed.

(** * The further properties at concrete inputs *)

Lemma X2_witness_released_pad :
  arduino_on_device_disconnected released_pad 0 = Some released_pad.
Proof.
  apply (X2_disconnect_is_idempotent (headers := four_slots) one_pad released_pad 0). reflexivity.
Defined.

(** The drain on [live_stale_live]: the first lightbar request is
    executed, the player-LED request for the released slot 0 is dropped,
    and the second lightbar request stays in the queue. *)
Lemma X3_witness_live_stale_live :
  process_pending_requests live_stale_live
  = add_calls
      (set_pending_queue live_stale_live [lightbar_color_request 1 0 255 0])
      [call_set_lightbar_color 1 255 0 0].
Proof.
  apply (X3_drain_is_first_in_first_out (headers := four_slots) live_stale_live
           [lightbar_color_request 1 255 0 0]
           [player_leds_request 0 1; lightbar_color_request 1 0 255 0]).
  - reflexivity.
  - constructor; [|constructor]. unfold resolves. vm_compute. discriminate.
  - intros r Hr. injection Hr as <-. unfold resolves. vm_compute.
    intros H. by apply H.
Defined.

Lemma X4_witness_rumble_on_slot_0 :
  exists st1,
    issue two_pads (Rumble 0 0 100 128 255) = (UNI_ARDUINO_ERROR_SUCCESS, st1)
    /\ process_pending_requests st1
       = add_calls (process_pending_requests two_pads)
           [call_play_dual_rumble 0 0 100 128 255].
Proof.
  apply (X4_command_reaches_the_device_of_its_slot (headers := four_slots) six_pads
           [on_device_ready 0%nat; on_device_ready 2%nat] two_pads 0
           (holding (pad 1 true true true) 0) (Rumble 0 0 100 128 255)).
  - simpl. lia.
  - reflexivity.
  - reflexivity.
  - reflexivity.
  - simpl. unfold UNI_ARDUINO_GAMEPAD_INVALID. lia.
  - simpl. constructor.
  - simpl. unfold MAX_PENDING_REQUESTS. lia.
Defined.

Lemma X5_witness_slot_1_of_two_pads :
  arduino_get_internal_hid_device two_pads 1
  = Some (2%nat, holding (pad 3 true false false) 1).
Proof.
  apply (proj1 (X5_internal_hid_device_is_the_holder (headers := four_slots) six_pads
                  [on_device_ready 0%nat; on_device_ready 2%nat] two_pads 1 2
                  (holding (pad 3 true false false) 1)
                  ltac:(simpl; lia) eq_refl)).
  repeat split. unfold UNI_ARDUINO_GAMEPAD_INVALID. lia.
Defined.

Lemma X6_witness_two_pads :
  (0 <= 1 < CONFIG_BLUEPAD32_MAX_DEVICES /\ idx (controller_at two_pads 1) = 1)
  /\ ((-1 <? 0) || (-1 >=? CONFIG_BLUEPAD32_MAX_DEVICES) = true
      <-> -1 = UNI_ARDUINO_GAMEPAD_INVALID)
  /\ (exists st',
        arduino_on_device_disconnected two_pads 2 = Some st'
        /\ used_controllers_ st' = used_controllers_ two_pads - 1
        /\ idx (controller_at st' 1) = UNI_ARDUINO_GAMEPAD_INVALID)
  /\ arduino_on_controller_data (headers := four_slots) two_pads 1 77
     = Some (process_pending_requests two_pads)
  /\ (exists st',
        arduino_on_controller_data (headers := four_slots) two_pads 2 77 = Some st'
        /\ data (controller_at st' 1) = 77
        /\ data_updated (controller_at st' 1) = true).
Proof.
  destruct (X6_each_device_holds_its_own_slot (headers := four_slots) six_pads
              [on_device_ready 0%nat; on_device_ready 2%nat] two_pads
              ltac:(simpl; lia) eq_refl)
    as (Hslot & _ & Htest & Hrelease & Hdropped & Hstored).
  split; [apply (Hslot 2%nat 1); [reflexivity | done]|].
  split; [apply (Htest 1%nat (-1)); reflexivity|].
  split; [apply (Hrelease 2%nat 1); [reflexivity | done]|].
  split; [apply (Hdropped 1%nat 77); reflexivity|].
  apply (Hstored 2%nat 1 77); [reflexivity | done].
Defined.


(** Pad 1 takes the slot that pad 0 left with an unread snapshot, and
    reads nothing. *)
Lemma X8_witness_slot_reused :
  exists k,
    instance_idx slot_reused 1 = Some k
    /\ 0 <= k < CONFIG_BLUEPAD32_MAX_DEVICES
    /\ data (controller_at slot_reused k) = zero_controller
    /\ arduino_get_controller_data slot_reused k
       = (UNI_ARDUINO_ERROR_NO_DATA, None, slot_reused)
    /\ arduino_get_gamepad_data slot_reused k
       = (UNI_ARDUINO_ERROR_NO_DATA, None, slot_reused).
Proof.
  apply (X8_new_holder_sees_no_old_snapshot (headers := four_slots) six_pads
           [on_device_ready 0%nat; on_controller_data (headers := four_slots) 0%nat 77;
            on_device_disconnected 0%nat] unread_then_released slot_reused 1).
  - simpl. lia.
  - reflexivity.
  - reflexivity.
Defined.

Lemma X9_witness_one_pad :
  exists st1 st2 st3,
    arduino_on_controller_data one_pad 0 (77 : Z) = Some st1
    /\ arduino_on_controller_data st1 0 (78 : Z) = Some st2
    /\ arduino_get_controller_data st2 0 = (UNI_ARDUINO_ERROR_SUCCESS, Some 78, st3)
    /\ arduino_get_gamepad_data st2 0 = (UNI_ARDUINO_ERROR_SUCCESS, Some 78, st3)
    /\ arduino_get_controller_data st3 0 = (UNI_ARDUINO_ERROR_NO_DATA, None, st3)
    /\ arduino_get_gamepad_data st3 0 = (UNI_ARDUINO_ERROR_NO_DATA, None, st3).
Proof.
  apply (X9_last_published_snapshot_wins (headers := four_slots) six_pads [on_device_ready 0%nat]
           one_pad 0 0 (77 : Z) (78 : Z)).
  - simpl. lia.
  - reflexivity.
  - reflexivity.
  - unfold UNI_ARDUINO_GAMEPAD_INVALID. lia.
Defined.

Lemma X10_witness_full_queue :
  (length (pending_queue_ full_queue) <= MAX_PENDING_REQUESTS)%nat.
Proof.
  apply (X10_queue_stays_within_capacity (headers := four_slots) six_pads
           (on_device_ready 0%nat :: repeat (set_player_leds_cmd 0 1) 17)).
  reflexivity.
Defined.

Lemma X11_witness_third_pad :
  exists dev k,
    g_devices one_pad !! 2%nat = Some dev
    /\ instance_idx two_pads 2 = Some k
    /\ arduino_get_controller_properties two_pads k
       = (UNI_ARDUINO_ERROR_SUCCESS,
          Some {| p_btaddr := conn_btaddr dev;
                  p_type := controller_type dev;
                  p_subtype := controller_type dev;
                  p_vendor_id := vendor_id dev;
                  p_product_id := product_id dev;
                  p_flags :=
                    Z.lor
                      (Z.lor
                         (if set_player_leds (report_parser dev)
                          then ARDUINO_PROPERTY_FLAG_PLAYER_LEDS else 0)
                         (if play_dual_rumble (report_parser dev)
                          then ARDUINO_PROPERTY_FLAG_RUMBLE else 0))
                      (if set_lightbar_color (report_parser dev)
                       then ARDUINO_PROPERTY_FLAG_PLAYER_LIGHTBAR else 0) |},
          two_pads)
    /\ arduino_get_gamepad_properties two_pads k
       = arduino_get_controller_properties two_pads k.
Proof.
  apply (X11_identity_is_readable_after_ready (headers := four_slots) six_pads [on_device_ready 0%nat]
           one_pad two_pads 2).
  - simpl. lia.
  - reflexivity.
  - reflexivity.
Defined.

(** A snapshot for slot 0 of [one_pad] leaves its identity alone. *)
Lemma X12_witness_one_pad :
  exists c',
    controllers_ (default one_pad (arduino_on_controller_data one_pad 0 (77 : Z)))
      !! 0%nat = Some c'
    /\ ((idx c' = 0
         /\ properties c'
            = {| p_btaddr := [1; 1; 1; 1; 1; 1]; p_type := 1; p_subtype := 1;
                 p_vendor_id := 201; p_product_id := 301; p_flags := 7 |})
        \/ (c' = free_slot
            /\ exists d, on_controller_data (headers := four_slots) 0%nat 77 = on_device_disconnected d
                         /\ instance_idx one_pad d = Some (Z.of_nat 0))).
Proof.
  apply (X12_identity_is_kept_until_release (headers := four_slots) six_pads [on_device_ready 0%nat]
           one_pad (default one_pad (arduino_on_controller_data one_pad 0 (77 : Z)))
           (on_controller_data (headers := four_slots) 0%nat 77) 0
           (Build_arduino_controller_t (headers := four_slots) 0
              {| p_btaddr := [1; 1; 1; 1; 1; 1]; p_type := 1; p_subtype := 1;
                 p_vendor_id := 201; p_product_id := 301; p_flags := 7 |}
              0 false)).
  - simpl. lia.
  - reflexivity.
  - reflexivity.
  - reflexivity.
  - simpl. unfold UNI_ARDUINO_GAMEPAD_INVALID. lia.
Defined.

Lemma X13_witness_one_pad :
  exists st',
    arduino_on_device_disconnected one_pad 0 = Some st'
    /\ used_controllers_ st' = used_controllers_ one_pad - 1
    /\ instance_idx st' 0 = Some UNI_ARDUINO_GAMEPAD_INVALID
    /\ controller_at st' 0 = free_slot
    /\ pending_queue_ st' = pending_queue_ one_pad
    /\ arduino_get_controller_data st' 0
       = (UNI_ARDUINO_ERROR_INVALID_DEVICE, None, st')
    /\ arduino_get_gamepad_data st' 0
       = (UNI_ARDUINO_ERROR_INVALID_DEVICE, None, st')
    /\ arduino_get_controller_properties st' 0
       = (UNI_ARDUINO_ERROR_INVALID_DEVICE, None, st')
    /\ issue st' (Disconnect 0) = (UNI_ARDUINO_ERROR_INVALID_DEVICE, st')
    /\ uni_hid_device_get_instance_with_predicate predicate_arduino_index 0 st'
       = None.
Proof.
  apply (X13_release_closes_the_slot (headers := four_slots) six_pads [on_device_ready 0%nat]
           one_pad 0 0 (Disconnect 0)).
  - simpl. lia.
  - reflexivity.
  - reflexivity.
  - unfold UNI_ARDUINO_GAMEPAD_INVALID. lia.
  - reflexivity.
Defined.

Lemma X17_witness_two_pads_later :
  exists k p,
    instance_idx two_pads 2 = Some k
    /\ instance_idx two_pads_later 2 = Some k
    /\ arduino_get_controller_properties two_pads k
       = (UNI_ARDUINO_ERROR_SUCCESS, Some p, two_pads)
    /\ arduino_get_controller_properties two_pads_later k
       = (UNI_ARDUINO_ERROR_SUCCESS, Some p, two_pads_later).
Proof.
  apply (X17_identity_lasts_as_long_as_the_holder (headers := four_slots) six_pads
           [on_device_ready 0%nat] after_two_pads one_pad two_pads two_pads_later 2).
  - simpl. lia.
  - reflexivity.
  - reflexivity.
  - reflexivity.
  - unfold after_two_pads. repeat (constructor; [split; discriminate|]).
    constructor.
Defined.

(** Reading the pending snapshot of slot 0 makes no call and leaves the
    device instances, the counter and the identities alone. *)
Lemma X18_witness_snapshot_pending :
  calls (arduino_get_controller_data snapshot_pending 0).2 = calls snapshot_pending
  /\ g_devices (arduino_get_controller_data snapshot_pending 0).2
     = g_devices snapshot_pending
  /\ used_controllers_ (arduino_get_controller_data snapshot_pending 0).2
     = used_controllers_ snapshot_pending
  /\ map idx (controllers_ (arduino_get_controller_data snapshot_pending 0).2)
     = map idx (controllers_ snapshot_pending)
  /\ map properties (controllers_ (arduino_get_controller_data snapshot_pending 0).2)
     = map properties (controllers_ snapshot_pending).
Proof.
  apply (X18_application_calls_stay_on_their_side (headers := four_slots)
           snapshot_pending _ (get_controller_data 0)).
  - exact I.
  - reflexivity.
Defined.
